(** * ollama-amazon-parser: the extraction and normalisation pipeline

    A shallow embedding of [src/parser.js] (section extractor, response
    resolver, and the run of [parseAmazonProduct] around them),
    [src/schema.js] (validator), [src/amazon-fetcher.js] (ASIN extraction,
    page fetcher) and the route [POST /parse] of [server.js], with the
    properties of the specification that concern them and further
    properties read off the code.

    Conventions of the embedding.
    - A JavaScript string is a [string]: one [ascii] per code unit, so the
      development covers texts whose code units are below 256.
    - A regular expression is a list of items interpreted by a backtracking
      matcher with the priorities of ECMAScript (greedy before shorter,
      lazy before longer, leftmost start first).
    - A JSON value is a [value]; a number is the rational value of the
      double ([Q]); the code only compares numbers with 0, 100 and 100000
      and tests them for zero.
    - An object is the list of its own properties in insertion order. *)

From stdpp Require Import gmap strings list.
From Stdlib Require Import Ascii String QArith Qround DecimalString.

#[local] Set Warnings "-register-all".
Local Close Scope Q_scope.
Local Open Scope string_scope.

(** ** Characters and strings *)

Module Str.

Definition dquote : ascii := Ascii.ascii_of_nat 34.
Definition LF : ascii := Ascii.ascii_of_nat 10.

Definition code (c : ascii) : nat := Ascii.nat_of_ascii c.

(** [WhiteSpace] and [LineTerminator] code units below 256: TAB, LF, VT, FF,
    CR, SP and NBSP.  They are what [\s] matches and what [trim] removes. *)
Definition isSpace (c : ascii) : bool :=
  let n := code c in
  (Nat.leb 9 n && Nat.leb n 13) || Nat.eqb n 32 || Nat.eqb n 160.

Definition isUpper (c : ascii) : bool :=
  let n := code c in Nat.leb 65 n && Nat.leb n 90.

Definition isLower (c : ascii) : bool :=
  let n := code c in Nat.leb 97 n && Nat.leb n 122.

Definition isDigit (c : ascii) : bool :=
  let n := code c in Nat.leb 48 n && Nat.leb n 57.

(** [Canonicalize] of a non-unicode, ignore-case pattern: upper case, where
    a code unit above 127 is never mapped into ASCII.  On the ASCII patterns
    of this program only the ASCII letters matter. *)
Definition upcase (c : ascii) : ascii :=
  if isLower c then Ascii.ascii_of_nat (code c - 32) else c.

(** [String.prototype.toLowerCase] on code units below 256. *)
Definition lowcase (c : ascii) : ascii :=
  let n := code c in
  if isUpper c then Ascii.ascii_of_nat (n + 32)
  else if Nat.leb 192 n && Nat.leb n 222 && negb (Nat.eqb n 215)
       then Ascii.ascii_of_nat (n + 32)
       else c.

Fixpoint toLowerCase (s : string) : string :=
  match s with
  | EmptyString => EmptyString
  | String c s' => String (lowcase c) (toLowerCase s')
  end.

Fixpoint trimStart (s : string) : string :=
  match s with
  | EmptyString => EmptyString
  | String c s' => if isSpace c then trimStart s' else s
  end.

(** [trimEnd] keeps a character when it is not white space or when something
    is left after it. *)
Fixpoint trimEnd (s : string) : string :=
  match s with
  | EmptyString => EmptyString
  | String c s' =>
      match trimEnd s' with
      | EmptyString => if isSpace c then EmptyString else String c EmptyString
      | t => String c t
      end
  end.

Definition trim (s : string) : string := trimEnd (trimStart s).

Definition isEmpty (s : string) : bool :=
  match s with EmptyString => true | _ => false end.

(** Every character of [s] passes the test [p]. *)
Fixpoint all (p : ascii -> bool) (s : string) : bool :=
  match s with
  | EmptyString => true
  | String c s' => p c && all p s'
  end.

(** [s.includes(p)] *)
Fixpoint includes (p s : string) : bool :=
  String.prefix p s ||
  match s with
  | EmptyString => false
  | String _ s' => includes p s'
  end.

Fixpoint drop (n : nat) (s : string) : string :=
  match n, s with
  | S k, String _ s' => drop k s'
  | _, _ => s
  end.

Fixpoint take (n : nat) (s : string) : string :=
  match n, s with
  | S k, String c s' => String c (take k s')
  | _, _ => EmptyString
  end.

(** The number of white-space characters at the start of [s]. *)
Fixpoint leading (s : string) : nat :=
  match s with
  | EmptyString => 0
  | String c s' => if isSpace c then S (leading s') else 0
  end.

(** [s.substring(i, j)] for [i <= j] *)
Definition slice (i j : nat) (s : string) : string := take (j - i) (drop i s).

End Str.

(** ** Regular expressions

    The patterns of the program repeat single characters only, so an item is
    a character test, a repetition of one, a bracket of the one capture
    group, or the end-of-input assertion.  [a+] is written [One a; Star a],
    which has the same matches in the same order. *)

Module Regex.

Inductive atom : Type :=
| Chr (c : ascii)            (* a literal character *)
| OneOf (cs : list ascii)    (* [...] *)
| NoneOf (cs : list ascii)   (* [^...] *)
| Between (rs : list (ascii * ascii))  (* [a-bc-d], a union of ranges *)
| Space                      (* \s *)
| Any.                       (* [\s\S] *)

Inductive item : Type :=
| One (a : atom)
| Star (a : atom)            (* a*  greedy *)
| Lazy (a : atom)            (* a*? *)
| Open                       (* (  *)
| Close                      (* )  *)
| Eos.                       (* $ without the m flag *)

Record regex : Type := Re {
  icase : bool;              (* the i flag *)
  bol : bool;                (* the pattern starts with ^ *)
  body : list item
}.

Definition sameChar (i : bool) (a b : ascii) : bool :=
  if i then Ascii.eqb (Str.upcase a) (Str.upcase b) else Ascii.eqb a b.

Definition inRanges (rs : list (ascii * ascii)) (c : ascii) : bool :=
  existsb (fun r => Nat.leb (Str.code r.1) (Str.code c) &&
                    Nat.leb (Str.code c) (Str.code r.2)) rs.

Definition accepts (i : bool) (a : atom) (c : ascii) : bool :=
  match a with
  | Chr x => sameChar i x c
  | OneOf cs => existsb (fun x => sameChar i x c) cs
  | NoneOf cs => negb (existsb (fun x => sameChar i x c) cs)
  | Between rs =>
      inRanges rs c ||
      (i && (inRanges rs (Str.upcase c) || inRanges rs (Str.lowcase c)))
  | Space => Str.isSpace c
  | Any => true
  end.

(** The literal text [s] as a sequence of items. *)
Fixpoint lit (s : string) : list item :=
  match s with
  | EmptyString => []
  | String c s' => One (Chr c) :: lit s'
  end.

(** Where the capture group started, and its span once it is closed; all
    positions count characters from the start of the match. *)
Record caps : Type := Caps { opened : nat; span : option (nat * nat) }.

(** [matchHere i r s pos g]: match [r] against a prefix of [s]; [pos]
    characters of the match precede [s].  The result is the length of the
    match and the capture. *)
Fixpoint matchHere (i : bool) (r : list item)
  : string -> nat -> caps -> option (nat * caps) :=
  match r with
  | [] => fun _ pos g => Some (pos, g)
  | One a :: r' => fun s pos g =>
      match s with
      | String c s' => if accepts i a c then matchHere i r' s' (S pos) g else None
      | EmptyString => None
      end
  | Star a :: r' =>
      fix star (s : string) (pos : nat) (g : caps) {struct s} :=
        match s with
        | String c s' =>
            if accepts i a c then
              match star s' (S pos) g with
              | Some m => Some m
              | None => matchHere i r' s pos g
              end
            else matchHere i r' s pos g
        | EmptyString => matchHere i r' s pos g
        end
  | Lazy a :: r' =>
      fix lazy (s : string) (pos : nat) (g : caps) {struct s} :=
        match matchHere i r' s pos g with
        | Some m => Some m
        | None =>
            match s with
            | String c s' => if accepts i a c then lazy s' (S pos) g else None
            | EmptyString => None
            end
        end
  | Open :: r' => fun s pos g => matchHere i r' s pos (Caps pos (span g))
  | Close :: r' => fun s pos g =>
      matchHere i r' s pos (Caps (opened g) (Some (opened g, pos)))
  | Eos :: r' => fun s pos g =>
      match s with
      | EmptyString => matchHere i r' s pos g
      | String _ _ => None
      end
  end.

(** A match: the matched text [m[0]] and the capture [m[1]] (the empty
    string stands for a pattern without a group; the group of a pattern
    that has one is on its only path). *)
Record found : Type := Found { whole : string; group : string; index : nat; stop : nat }.

Definition mkFound (s : string) (start : nat) (m : nat * caps) : found :=
  let '(len, g) := m in
  Found (Str.take len s)
        (match span g with
         | Some (a, b) => Str.slice a b s
         | None => EmptyString
         end)
        start (start + len).

Definition tryAt (re : regex) (s : string) (start : nat) : option found :=
  mkFound s start <$> matchHere (icase re) (body re) s 0 (Caps 0 None).

(** The search for the leftmost match, from the suffix [s] found at [start]. *)
Fixpoint searchFrom (re : regex) (s : string) (start : nat) : option found :=
  match tryAt re s start with
  | Some m => Some m
  | None =>
      match s with
      | String _ s' => searchFrom re s' (S start)
      | EmptyString => None
      end
  end.

(** [s.match(re)] for a pattern without the g flag *)
Definition exec (re : regex) (s : string) : option found :=
  if bol re then tryAt re s 0 else searchFrom re s 0.

(** [re.test(s)] *)
Definition test (re : regex) (s : string) : bool :=
  match exec re s with Some _ => true | None => false end.

(** [s.replace(re, '')] for a pattern without the g flag *)
Definition removeFirst (re : regex) (s : string) : string :=
  match exec re s with
  | Some m => Str.take (index m) s +:+ Str.drop (stop m) s
  | None => s
  end.

(** The successive matches of a pattern with the g flag; [skip] characters
    of the previous match are still to be passed.  After an empty match the
    search moves one character on. *)
Fixpoint scan (re : regex) (s : string) (skip : nat) : list string :=
  match skip with
  | S k =>
      match s with
      | String _ s' => scan re s' k
      | EmptyString => []
      end
  | O =>
      match tryAt re s 0 with
      | Some m =>
          group m ::
          match s with
          | String _ s' => scan re s' (stop m - 1)
          | EmptyString => []
          end
      | None =>
          match s with
          | String _ s' => scan re s' 0
          | EmptyString => []
          end
      end
  end.

(** [[...s.matchAll(re)].map(m => m[1])] *)
Definition matchAll (re : regex) (s : string) : list string := scan re s 0.

(** [s.replace(re, rep)] for a pattern with the g flag *)
Fixpoint subst (re : regex) (rep : string) (s : string) (skip : nat) : string :=
  match skip with
  | S k =>
      match s with
      | String _ s' => subst re rep s' k
      | EmptyString => EmptyString
      end
  | O =>
      match tryAt re s 0 with
      | Some m =>
          rep +:+
          match s with
          | String c s' =>
              match stop m with
              | O => String c (subst re rep s' 0)
              | S k => subst re rep s' k
              end
          | EmptyString => EmptyString
          end
      | None =>
          match s with
          | String c s' => String c (subst re rep s' 0)
          | EmptyString => EmptyString
          end
      end
  end.

Definition replaceAll (re : regex) (rep s : string) : string := subst re rep s 0.

End Regex.

(** ** Section extractor: [extractProductText] of [src/parser.js] *)

Module Extractor.
Import Regex.

Definition quote : atom := OneOf [Str.dquote; "'"%char].
Definition notGt : atom := NoneOf [">"%char].

(** In the patterns quoted below, Q stands for the class of the two quote
    characters.

    [/<div[^>]*id=QIDQ[^>]*>([\s\S]*?)<\/div>/i] *)
Definition divById (id : string) : regex :=
  Re true false
     (lit "<div" ++ [Star notGt] ++ lit "id=" ++ [One quote] ++ lit id ++
      [One quote; Star notGt] ++ lit ">" ++ [Open; Lazy Any; Close] ++
      lit "</div>").

(** [/<TAG[^>]*>([\s\S]*?)<\/TAG>/i], used with and without the g flag *)
Definition element (tag : string) : regex :=
  Re true false
     (lit "<" ++ lit tag ++ [Star notGt] ++ lit ">" ++
      [Open; Lazy Any; Close] ++ lit "</" ++ lit tag ++ lit ">").

(** [/<[^>]*id=QproductTitleQ[^>]*>([^<]+)</i] *)
Definition reProductTitle : regex :=
  Re true false
     (lit "<" ++ [Star notGt] ++ lit "id=" ++ [One quote] ++
      lit "productTitle" ++ [One quote; Star notGt] ++ lit ">" ++
      [Open; One (NoneOf ["<"%char]); Star (NoneOf ["<"%char]); Close] ++ lit "<").

(** [/<h1[^>]*id=QtitleQ[^>]*>([^<]+)</i] *)
Definition reH1Title : regex :=
  Re true false
     (lit "<h1" ++ [Star notGt] ++ lit "id=" ++ [One quote] ++
      lit "title" ++ [One quote; Star notGt] ++ lit ">" ++
      [Open; One (NoneOf ["<"%char]); Star (NoneOf ["<"%char]); Close] ++ lit "<").

(** [/<table[^>]*id=QproductDetails[^>]*>([\s\S]*?)<\/table>/i] *)
Definition reProductDetailsTable : regex :=
  Re true false
     (lit "<table" ++ [Star notGt] ++ lit "id=" ++ [One quote] ++
      lit "productDetails" ++ [Star notGt] ++ lit ">" ++
      [Open; Lazy Any; Close] ++ lit "</table>").

(** [/<[^>]+>/g] *)
Definition reTag : regex :=
  Re false false (lit "<" ++ [One notGt; Star notGt] ++ lit ">").

(** [/\s+/g] *)
Definition reSpaces : regex := Re false false [One Space; Star Space].

(** [x.replace(/<[^>]+>/g, '').trim()] *)
Definition cleanText (x : string) : string := Str.trim (replaceAll reTag EmptyString x).

(** [a || b] on match results *)
Definition orElse {A} (a b : option A) : option A :=
  match a with Some _ => a | None => b end.

(** [parts.join('\n')] *)
Fixpoint joinLines (parts : list string) : string :=
  match parts with
  | [] => EmptyString
  | [x] => x
  | x :: rest => x +:+ String Str.LF (joinLines rest)
  end.

(** The text of one feature bullet: the first [span] of the item if there is
    one, else the item itself, tags removed. *)
Definition bulletText (li : string) : string :=
  match exec (element "span") li with
  | Some span => cleanText (group span)
  | None => cleanText li
  end.

(** [extracted.productDetails[heading] = value] for string values.  The key
    [__proto__] reaches the setter inherited from [Object.prototype], which
    ignores a value that is neither an object nor null: no own property
    appears. *)
Definition setDetail (heading value : string) (m : gmap string string)
  : gmap string string :=
  if String.eqb heading "__proto__" then m else <[heading := value]> m.

(** One [tr]: the first two [td] cells, tags removed and trimmed, when both
    are non-empty. *)
Definition rowCells (tr : string) : option (string * string) :=
  match matchAll (element "td") tr with
  | h :: v :: _ =>
      let heading := cleanText h in
      let value := cleanText v in
      if negb (Str.isEmpty heading) && negb (Str.isEmpty value)
      then Some (heading, value) else None
  | _ => None
  end.

(** The rows of a table body that the loop over [trMatches] stores, in
    document order. *)
Definition tableRows (table : string) : list (string * string) :=
  omap rowCells (matchAll (element "tr") table).

(** The loop [for (const tr of trMatches) ...] *)
Definition storeRows (rows : list (string * string)) (m : gmap string string)
  : gmap string string :=
  foldl (fun acc row => setDetail row.1 row.2 acc) m rows.

(** The value of the last of the [rows] whose heading is [heading]. *)
Fixpoint lastValue (heading : string) (rows : list (string * string))
  : option string :=
  match rows with
  | [] => None
  | row :: rest =>
      match lastValue heading rest with
      | Some v => Some v
      | None => if String.eqb row.1 heading then Some row.2 else None
      end
  end.

(** Step 4: the body of the first table of the [poExpander] container. *)
Definition primaryTable (html : string) : option string :=
  match exec (divById "poExpander") html with
  | Some poExpander => group <$> exec (element "table") (group poExpander)
  | None => None
  end.

(** Step 5: the body of the table of the [prodDetails] container (or of the
    [productDetails] table), when it is not empty. *)
Definition fallbackTable (html : string) : option string :=
  match orElse (exec (divById "prodDetails") html)
               (exec reProductDetailsTable html) with
  | Some prodDetails =>
      let body :=
        match exec (element "table") (group prodDetails) with
        | Some tableMatch => group tableMatch
        | None => group prodDetails
        end in
      if Str.isEmpty body then None else Some body
  | None => None
  end.

Record extracted : Type := Extracted {
  title : option string;
  description : option string;
  price : option string;
  productDetails : option (gmap string string)
}.

Definition extractTitle (html : string) : option string :=
  (fun m => Str.trim (group m)) <$>
  orElse (exec reProductTitle html) (exec reH1Title html).

Definition extractDescription (html : string) : option string :=
  match exec (divById "featurebullets_feature_div") html with
  | Some featureBulletsDiv =>
      match exec (element "ul") (group featureBulletsDiv) with
      | Some ulMatch =>
          Some (joinLines
                  (filter (fun text => Str.isEmpty text = false)
                          (bulletText <$> matchAll (element "li") (group ulMatch))))
      | None => None
      end
  | None => None
  end.

Definition extractPrice (html : string) : option string :=
  (fun priceDiv =>
     Str.trim (replaceAll reSpaces " " (replaceAll reTag " " (group priceDiv))))
  <$> exec (divById "coreprice_feature_div") html.

Definition extractProductDetails (html : string) : option (gmap string string) :=
  let fromPrimary :=
    (fun table => storeRows (tableRows table) ∅) <$> primaryTable html in
  match fallbackTable html with
  | Some table => Some (storeRows (tableRows table) (default ∅ fromPrimary))
  | None => fromPrimary
  end.

Definition extractProductText (html : string) : extracted :=
  Extracted (extractTitle html) (extractDescription html) (extractPrice html)
            (extractProductDetails html).

End Extractor.

(** ** JavaScript values *)

Module Js.

Inductive value : Type :=
| VUndefined
| VNull
| VBool (b : bool)
| VNumber (q : Q)
| VString (s : string)
| VArray (items : list value)
| VObject (props : list (string * value)).

(** The own properties of an object, in insertion order. *)
Definition object : Type := list (string * value).

(** [o.k] for a key that no prototype defines: the own property, else
    [undefined]. *)
Fixpoint get (o : object) (k : string) : value :=
  match o with
  | [] => VUndefined
  | (k', v) :: o' => if String.eqb k' k then v else get o' k
  end.

(** [o.k = v]: the property keeps its place when it exists and is added at
    the end when it does not. *)
Fixpoint set (o : object) (k : string) (v : value) : object :=
  match o with
  | [] => [(k, v)]
  | (k', v') :: o' =>
      if String.eqb k' k then (k, v) :: o' else (k', v') :: set o' k v
  end.

Definition hasOwn (o : object) (k : string) : bool :=
  existsb (fun p => String.eqb p.1 k) o.

Definition keys (o : object) : list string := fst <$> o.

(** [ToBoolean] *)
Definition truthy (v : value) : bool :=
  match v with
  | VUndefined | VNull => false
  | VBool b => b
  | VNumber q => negb (Qeq_bool q 0)
  | VString s => negb (Str.isEmpty s)
  | VArray _ | VObject _ => true
  end.

(** [a || b] *)
Definition or (a b : value) : value := if truthy a then a else b.

Definition isUndefined (v : value) : bool :=
  match v with VUndefined => true | _ => false end.
Definition isNull (v : value) : bool :=
  match v with VNull => true | _ => false end.
(** [typeof v === 'number'] *)
Definition isNumber (v : value) : bool :=
  match v with VNumber _ => true | _ => false end.
(** [typeof v === 'boolean'] *)
Definition isBoolean (v : value) : bool :=
  match v with VBool _ => true | _ => false end.
(** [Array.isArray(v)] *)
Definition isArray (v : value) : bool :=
  match v with VArray _ => true | _ => false end.
Definition isObject (v : value) : bool :=
  match v with VObject _ => true | _ => false end.

Definition Qltb (a b : Q) : bool := negb (Qle_bool b a).

(** What the pipeline throws.  The handler that ends [parseAmazonProduct]
    rethrows these errors; it puts [Ollama API error: ] before a message
    that contains [Ollama], [model] or [timeout], as the first one does,
    and changes nothing else. *)
Inductive error : Type :=
| NoJsonFound                      (* 'No JSON object found in Ollama response' *)
| MalformedJson (message : string) (* 'Failed to parse JSON response: ...' *)
| BlockedRequest                   (* 'Amazon blocked the request. ...' *)
| TypeError.                       (* raised by the language itself *)

Inductive result (A : Type) : Type :=
| Ok (a : A)
| Throw (e : error).
Arguments Ok {A} a.
Arguments Throw {A} e.

#[export] Instance result_ret : MRet result := @Ok.
#[export] Instance result_fmap : FMap result := fun A B f m =>
  match m with
  | Ok a => Ok (f a)
  | Throw e => Throw e
  end.
#[export] Instance result_bind : MBind result := fun A B f m =>
  match m with
  | Ok a => f a
  | Throw e => Throw e
  end.

(** [xs.map(f)] for an [f] that may throw; [i] is the index of the head. *)
Fixpoint mapIndexed {A B} (f : nat -> A -> result B) (i : nat) (xs : list A)
  : result (list B) :=
  match xs with
  | [] => Ok []
  | x :: xs' =>
      y ← f i x;
      ys ← mapIndexed f (S i) xs';
      Ok (y :: ys)
  end.

(** [v.k] for a key that no prototype defines: a [TypeError] on [null] and
    [undefined], the own property of an object, [undefined] on the other
    values. *)
Definition prop (v : value) (k : string) : result value :=
  match v with
  | VUndefined | VNull => Throw TypeError
  | VObject o => Ok (get o k)
  | _ => Ok VUndefined
  end.

(** The same read where it does not throw. *)
Definition field (v : value) (k : string) : value :=
  match v with
  | VObject o => get o k
  | _ => VUndefined
  end.

(** [v === w] for two values of which one is a number: the same value, or
    two numbers that are equal. *)
Definition sameNumber (v w : value) : Prop :=
  v = w \/ exists p q, v = VNumber p /\ w = VNumber q /\ (p == q)%Q.

Fixpoint joinComma (parts : list string) : string :=
  match parts with
  | [] => EmptyString
  | [x] => x
  | x :: rest => x +:+ "," +:+ joinComma rest
  end.

Section Coercion.

(** [Number::toString], the decimal text of a double, is left abstract. *)
Variable Number_toString : Q -> string.

(** [ToString], [None] for a [TypeError].  An array is the join of its
    elements, [null] and [undefined] being empty.  An object parsed from
    JSON has no callable own property: when it has an own [toString],
    neither that property nor [valueOf] (own, or inherited and returning
    the object) yields a primitive, and the conversion throws; when it has
    none, the conversion is [Object.prototype.toString]. *)
Fixpoint ToString (v : value) : option string :=
  match v with
  | VUndefined => Some "undefined"
  | VNull => Some "null"
  | VBool true => Some "true"
  | VBool false => Some "false"
  | VNumber q => Some (Number_toString q)
  | VString s => Some s
  | VArray items =>
      joinComma <$>
      (fix each (l : list value) : option (list string) :=
         match l with
         | [] => Some []
         | x :: l' =>
             match (match x with
                    | VUndefined | VNull => Some EmptyString
                    | _ => ToString x
                    end), each l' with
             | Some s, Some ss => Some (s :: ss)
             | _, _ => None
             end
         end) items
  | VObject o => if hasOwn o "toString" then None else Some "[object Object]"
  end.

Definition toStringOrThrow (v : value) : result string :=
  match ToString v with
  | Some s => Ok s
  | None => Throw TypeError
  end.

End Coercion.

End Js.

(** ** Validator: [validateProductData] of [src/schema.js] *)

Module Validator.
Import Js Regex.

(** [/^[A-Z0-9]{10}$/] *)
Definition reAsin : regex :=
  Re false true
     (replicate 10 (One (Between [("A"%char, "Z"%char); ("0"%char, "9"%char)]))
      ++ [Eos]).

Definition productTypes : list string :=
  ["wrapping_paper"; "ribbon"; "box"; "tag"; "bow"].

Definition asinMessage : string := "ASIN must be 10 alphanumeric characters".
Definition typeMessage : string :=
  "Type must be one of: wrapping_paper, ribbon, box, tag, bow".
Definition priceMessage : string := "Price must be a number between 0 and 100000".
Definition quantityMessage : string :=
  "Quantity must be a number between 0 and 100000".
Definition rollWidthMessage : string :=
  "Roll width must be a number between 0 and 100".
Definition rollLengthMessage : string :=
  "Roll length must be a number between 0 and 100".

(** [productTypes.includes(v)]: no string, no member. *)
Definition isProductType (v : value) : bool :=
  match v with
  | VString s => bool_decide (s ∈ productTypes)
  | _ => false
  end.

(** [typeof v !== 'number' || v < 0 || v > max] *)
Definition notInRange (v : value) (max : Q) : bool :=
  match v with
  | VNumber q => Qltb q 0 || Qltb max q
  | _ => true
  end.

(** [if (v !== null && (...)) errors.push(message)] *)
Definition checkRange (v : value) (max : Q) (message : string) : list string :=
  if negb (isNull v) && notInRange v max then [message] else [].

(** [if (data.type && !TYPES.includes(data.type)) errors.push(...)] *)
Definition checkType (type : value) : list string :=
  if truthy type && negb (isProductType type) then [typeMessage] else [].

Definition allMessages : list string :=
  [asinMessage; typeMessage; priceMessage; quantityMessage; rollWidthMessage;
   rollLengthMessage].

(** The list of violations, given which of the six checks fail. *)
Definition report (asin type price quantity rollWidth rollLength : bool)
  : list string :=
  ((if asin then [asinMessage] else [])
   ++ (if type then [typeMessage] else [])
   ++ (if price then [priceMessage] else [])
   ++ (if quantity then [quantityMessage] else [])
   ++ (if rollWidth then [rollWidthMessage] else [])
   ++ (if rollLength then [rollLengthMessage] else []))%list.

Section WithNumbers.
Variable Number_toString : Q -> string.

(** [if (data.asin && !RE.test(data.asin)) errors.push(...)]; [test]
    converts its argument to a string. *)
Definition checkAsin (asin : value) : result (list string) :=
  if truthy asin then
    s ← toStringOrThrow Number_toString asin;
    Ok (if test reAsin s then [] else [asinMessage])
  else Ok [].

(** Whether the first check reports its message. *)
Definition asinRejected (asin : value) : bool :=
  truthy asin &&
  match ToString Number_toString asin with
  | Some s => negb (test reAsin s)
  | None => false
  end.

Definition validateProductData (data : object) : result (list string) :=
  asinErrors ← checkAsin (get data "asin");
  Ok (asinErrors
      ++ checkType (get data "type")
      ++ checkRange (get data "price") 100000 priceMessage
      ++ checkRange (get data "quantity") 100000 quantityMessage
      ++ checkRange (get data "rollWidth") 100 rollWidthMessage
      ++ checkRange (get data "rollLength") 100 rollLengthMessage)%list.

End WithNumbers.
End Validator.

(** ** Response resolver: the second half of [parseAmazonProduct] *)

Module Resolver.
Import Js Regex.

(** [/^```json\s*/i] *)
Definition reFenceJson : regex := Re true true (lit "```json" ++ [Star Space]).
(** [/^```\s*/i] *)
Definition reFenceOpen : regex := Re true true (lit "```" ++ [Star Space]).
(** [/\s*```$/i] *)
Definition reFenceClose : regex := Re true false ([Star Space] ++ lit "```" ++ [Eos]).
(** [/\{[\s\S]*\}/] *)
Definition reObject : regex :=
  Re false false [One (Chr "{"%char); Star Any; One (Chr "}"%char)].

(** The text left once the response is trimmed and the fences are removed. *)
Definition stripFences (responseText : string) : string :=
  removeFirst reFenceClose
    (removeFirst reFenceOpen
       (removeFirst reFenceJson (Str.trim responseText))).

(** [jsonMatch[0]], or [None] when the pattern finds nothing. *)
Definition extractJsonText (responseText : string) : option string :=
  whole <$> exec reObject (stripFences responseText).

(** Where the pattern of the closing fence first matches: the first
    position from which the text is white space and the fence. *)
Fixpoint closingAt (s : string) : option nat :=
  if String.eqb (Str.trimStart s) "```" then Some 0
  else match s with
       | EmptyString => None
       | String _ s' => S <$> closingAt s'
       end.

Definition rollKeys : list string :=
  ["rollNumber"; "onHand"; "maxArea"; "image"; "printName"; "hasReverseSide";
   "pairedRollNumber"].

Definition schemaKeys : list string :=
  ["asin"; "type"; "title"; "price"; "brand"; "description"; "size";
   "quantity"; "dimensions"; "rollLength"; "rollWidth"; "printNames";
   "rolls"; "thumbnail"; "images"; "url"].

(** [x !== undefined ? x : null] *)
Definition orNull (v : value) : value := if isUndefined v then VNull else v.

(** [Array.isArray(x) ? x : (x === null ? null : [])] *)
Definition threeWay (v : value) : value :=
  if isArray v then v else if isNull v then VNull else VArray [].

(** The block phrases looked for once no product data was found. *)
Definition isBlockPage (productHtml : string) : bool :=
  let htmlLower := Str.toLowerCase productHtml in
  Str.includes "continue shopping" htmlLower
  || Str.includes "click the button below" htmlLower.

(** [productData.title || productData.price !== null || productData.brand] *)
Definition hasProductData (productData : object) : bool :=
  truthy (get productData "title")
  || negb (isNull (get productData "price"))
  || truthy (get productData "brand").

(** [index + 1] *)
Definition position (index : nat) : value := VNumber (inject_Z (Z.of_nat index + 1)).

(** The callback of [cleanedData.rolls.map]. *)
Definition coerceRoll (index : nat) (roll : value) : result value :=
  rollNumber ← prop roll "rollNumber";
  onHand ← prop roll "onHand";
  maxArea ← prop roll "maxArea";
  image ← prop roll "image";
  printName ← prop roll "printName";
  hasReverseSide ← prop roll "hasReverseSide";
  pairedRollNumber ← prop roll "pairedRollNumber";
  Ok (VObject
        [("rollNumber", if isNumber rollNumber then rollNumber else position index);
         ("onHand", if isNumber onHand then onHand else VNumber 0);
         ("maxArea", if isNumber maxArea then maxArea else or onHand (VNumber 0));
         ("image", or image VNull);
         ("printName", or printName VNull);
         ("hasReverseSide", if isBoolean hasReverseSide then hasReverseSide else VBool false);
         ("pairedRollNumber", if isNumber pairedRollNumber then pairedRollNumber else VNull)]).

(** [if (cleanedData.rolls && Array.isArray(cleanedData.rolls)) ...] *)
Definition coerceRolls (cleanedData : object) : result object :=
  match get cleanedData "rolls" with
  | VArray rolls =>
      rolls' ← mapIndexed coerceRoll 0 rolls;
      Ok (set cleanedData "rolls" (VArray rolls'))
  | _ => Ok cleanedData
  end.

(** [if (!productData.asin && productAsin) productData.asin = productAsin] *)
Definition ensureAsin (productData : object) (productAsin : value) : object :=
  if negb (truthy (get productData "asin")) && truthy productAsin
  then set productData "asin" productAsin
  else productData.

(** [if (!Array.isArray(productData.images)) productData.images = []] *)
Definition ensureImages (productData : object) : object :=
  if isArray (get productData "images") then productData
  else set productData "images" (VArray []).

(** The fields of the object literal [cleanedData], [url] being the value of
    its last line. *)
Definition cleanedData (productData : object) (url : value) : object :=
  [("asin", or (get productData "asin") VNull);
   ("type", or (get productData "type") VNull);
   ("title", or (get productData "title") VNull);
   ("price", orNull (get productData "price"));
   ("brand", or (get productData "brand") VNull);
   ("description", or (get productData "description") VNull);
   ("size", or (get productData "size") VNull);
   ("quantity", orNull (get productData "quantity"));
   ("dimensions", or (get productData "dimensions") VNull);
   ("rollLength", orNull (get productData "rollLength"));
   ("rollWidth", orNull (get productData "rollWidth"));
   ("printNames", threeWay (get productData "printNames"));
   ("rolls", threeWay (get productData "rolls"));
   ("thumbnail", or (get productData "thumbnail") VNull);
   ("images", if isArray (get productData "images")
              then get productData "images" else VArray []);
   ("url", url)].

(** The value of [rolls] once [coerceRolls] has run, as a relation. *)
Definition rollsLine (productData : object) (rolls : value) : Prop :=
  match threeWay (get productData "rolls") with
  | VArray rs => exists rs', mapIndexed coerceRoll 0 rs = Ok rs' /\ rolls = VArray rs'
  | v => rolls = v
  end.

(** Every roll of the record has a numeric [maxArea]. *)
Definition numericMaxArea (r : object) : Prop :=
  match get r "rolls" with
  | VArray rs => Forall (fun y => isNumber (field y "maxArea") = true) rs
  | _ => True
  end.

(** The fields written [x || null]. *)
Definition truthyOrNull : list string :=
  ["type"; "title"; "brand"; "description"; "size"; "dimensions"; "thumbnail"].

(** The fields written [x !== undefined ? x : null]. *)
Definition definedOrNull : list string :=
  ["price"; "quantity"; "rollLength"; "rollWidth"].

Section Resolve.
Variable Number_toString : Q -> string.
(** [JSON.parse] on a text that starts with a brace: an object, or the
    message of the syntax error. *)
Variable JSON_parse : string -> object + string.

(** The template [https://www.amazon.com/dp/${productAsin}] *)
Definition dpUrl (productAsin : value) : result value :=
  s ← toStringOrThrow Number_toString productAsin;
  Ok (VString ("https://www.amazon.com/dp/" +:+ s)).

Definition ensureUrl (productData : object) (productUrl productAsin : value)
  : result object :=
  if negb (truthy (get productData "url")) && truthy productUrl then
    Ok (set productData "url" productUrl)
  else if negb (truthy (get productData "url")) && truthy productAsin then
    url ← dpUrl productAsin;
    Ok (set productData "url" url)
  else Ok productData.

(** The three statements [Ensure ASIN is set], [Ensure URL is set] and
    [Ensure images array exists]. *)
Definition prepare (productData : object) (productAsin productUrl : value)
  : result object :=
  productData ← ensureUrl (ensureAsin productData productAsin) productUrl productAsin;
  Ok (ensureImages productData).

(** The object literal [cleanedData]; the template of its last line is
    evaluated only when it is reached. *)
Definition cleanData (productData : object) (productAsin : value) : result object :=
  url ← (if truthy (get productData "url") then Ok (get productData "url")
         else if truthy productAsin then dpUrl productAsin
         else Ok VNull);
  Ok (cleanedData productData url).

(** From the parsed object to the returned record: [productAsin],
    [productUrl] and [productHtml] are the variables of that name when the
    completion has been parsed. *)
Definition normalize (productData : object) (productAsin productUrl : value)
    (productHtml : string) : result object :=
  productData ← prepare productData productAsin productUrl;
  validationErrors ← Validator.validateProductData Number_toString productData;
  if negb (hasProductData productData) && isBlockPage productHtml
  then Throw BlockedRequest
  else
    cleanedData ← cleanData productData productAsin;
    coerceRolls cleanedData.

(** The value of the last line of the literal, as a relation. *)
Definition urlLine (productData : object) (productAsin url : value) : Prop :=
  if truthy (get productData "url") then url = get productData "url"
  else if truthy productAsin then dpUrl productAsin = Ok url
  else url = VNull.

(** From the completion text to the returned record. *)
Definition resolve (responseText : string) (productAsin productUrl : value)
    (productHtml : string) : result object :=
  match extractJsonText responseText with
  | None => Throw NoJsonFound
  | Some jsonText =>
      match JSON_parse jsonText with
      | inr message => Throw (MalformedJson message)
      | inl productData => normalize productData productAsin productUrl productHtml
      end
  end.

End Resolve.
End Resolver.

(** ** Page fetcher: [src/amazon-fetcher.js] *)

Module Fetcher.
Import Js Regex.

(** [([A-Z0-9]{10})] *)
Definition asinGroup : list item :=
  ([Open]
   ++ replicate 10 (One (Between [("A"%char, "Z"%char); ("0"%char, "9"%char)]))
   ++ [Close])%list.

(** [/PATH\/([A-Z0-9]{10})/] for a literal PATH *)
Definition pathThenAsin (path : string) : regex :=
  Re false false (lit path ++ lit "/" ++ asinGroup).

(** A pattern that starts with a group of literal alternatives is the list
    of its branches, each followed by the rest of the pattern: at a position
    the matcher takes the alternatives from left to right and goes on to the
    next one when the rest fails.

    [/(?:dp|product|gp\/product)\/([A-Z0-9]{10})/] *)
Definition reAnyPath : list regex :=
  [pathThenAsin "dp"; pathThenAsin "product"; pathThenAsin "gp/product"].

(** [/\/dp\/([A-Z0-9]{10})/] *)
Definition reDp : list regex := [pathThenAsin "/dp"].
(** [/\/product\/([A-Z0-9]{10})/] *)
Definition reProduct : list regex := [pathThenAsin "/product"].
(** [/\/gp\/product\/([A-Z0-9]{10})/] *)
Definition reGpProduct : list regex := [pathThenAsin "/gp/product"].

Definition asinPatterns : list (list regex) :=
  [reAnyPath; reDp; reProduct; reGpProduct].

(** The first alternative that matches at the start of [s]. *)
Fixpoint tryAny (branches : list regex) (s : string) (start : nat) : option found :=
  match branches with
  | [] => None
  | re :: rest =>
      match tryAt re s start with
      | Some m => Some m
      | None => tryAny rest s start
      end
  end.

(** The leftmost match of a pattern given by its alternatives. *)
Fixpoint searchAny (branches : list regex) (s : string) (start : nat) : option found :=
  match tryAny branches s start with
  | Some m => Some m
  | None =>
      match s with
      | String _ s' => searchAny branches s' (S start)
      | EmptyString => None
      end
  end.

(** The loop [for (const pattern of asinPatterns) ...] on a string. *)
Fixpoint firstAsin (patterns : list (list regex)) (url : string) : option string :=
  match patterns with
  | [] => None
  | pattern :: rest =>
      match searchAny pattern url 0 with
      | Some m => if Str.isEmpty (group m) then firstAsin rest url else Some (group m)
      | None => firstAsin rest url
      end
  end.

(** [extractAsin]: a value that is not a string has no [match] method. *)
Definition extractAsin (url : value) : result value :=
  if negb (truthy url) then Ok VNull
  else match url with
       | VString s =>
           Ok (match firstAsin asinPatterns s with
               | Some asin => VString asin
               | None => VNull
               end)
       | _ => Throw TypeError
       end.

(** What [axios.get] makes of the request: the body of an answer whose
    status is from 200 to 399, an answer with another status, no answer, or
    a request that could not be sent. *)
Inductive reply : Type :=
| Page (data : string)
| Status (status : nat) (statusText : string)
| NoAnswer
| NotSent (message : string).

Inductive fetchError : Type :=
| UrlOrAsinRequired                 (* 'Valid URL or ASIN is required' *)
| InvalidAsinFormat                 (* 'Invalid ASIN format. ...' *)
| BadStatus (status : nat) (statusText : string)  (* 'Amazon returned status ...' *)
| ConnectionFailed                  (* 'Failed to connect to Amazon. ...' *)
| RequestError (message : string)   (* 'Error fetching Amazon page: ...' *)
| ConversionError.                  (* a TypeError of the language *)

Section Fetch.
Variable Number_toString : Q -> string.
(** Whether [new URL(s)] returns. *)
Variable URL_valid : string -> bool.
Variable axios_get : string -> reply.

(** The first statement: the trimmed URL, when it is a string that is not
    blank and that parses. *)
Definition givenUrl (url : value) : option string :=
  match url with
  | VString s =>
      if negb (Str.isEmpty s) && negb (Str.isEmpty (Str.trim s)) && URL_valid s
      then Some (Str.trim s) else None
  | _ => None
  end.

(** [fetchUrl] when the request is sent. *)
Definition target (url asin : value) : string + fetchError :=
  match givenUrl url with
  | Some fetchUrl => inl fetchUrl
  | None =>
      if truthy asin then
        match ToString Number_toString asin with
        | Some s => inl ("https://www.amazon.com/dp/" +:+ s)
        | None => inr ConversionError
        end
      else inr UrlOrAsinRequired
  end.

(** [if (asin && !/^[A-Z0-9]{10}$/.test(asin)) throw ...] *)
Definition checkAsin (asin : value) : option fetchError :=
  if truthy asin then
    match ToString Number_toString asin with
    | Some s => if test Validator.reAsin s then None else Some InvalidAsinFormat
    | None => Some ConversionError
    end
  else None.

Definition request (fetchUrl : string) : string + fetchError :=
  match axios_get fetchUrl with
  | Page html => inl html
  | Status status statusText => inr (BadStatus status statusText)
  | NoAnswer => inr ConnectionFailed
  | NotSent message => inr (RequestError message)
  end.

Definition fetchAmazonPage (url asin : value) : string + fetchError :=
  match target url asin with
  | inl fetchUrl =>
      match checkAsin asin with
      | Some e => inr e
      | None => request fetchUrl
      end
  | inr e => inr e
  end.

End Fetch.
End Fetcher.

(** ** The whole of [parseAmazonProduct], and the route that calls it *)

Module Parser.
Import Js Regex.

(** An [Error] as the handler reads it: [code], [message], [cause.code]. *)
Record exception : Type := Exception {
  code : option string;
  message : string;
  causeCode : option string
}.

(** What the call of the client gives. *)
Inductive generated : Type :=
| Completed (response : value)
| Rejected (err : exception).

Inductive failure : Type :=
| Raised (e : error)                   (* thrown by the code modelled above *)
| HtmlRequired                         (* 'HTML content is required. ...' *)
| FetchFailed (e : Fetcher.fetchError) (* 'Failed to fetch Amazon page: ...' *)
| ClientFailed (err : exception).      (* what the handler makes of the client's error *)

Inductive outcome (A : Type) : Type :=
| Done (a : A)
| Failed (f : failure).
Arguments Done {A} a.
Arguments Failed {A} f.

#[export] Instance outcome_ret : MRet outcome := @Done.
#[export] Instance outcome_bind : MBind outcome := fun A B f m =>
  match m with
  | Done a => f a
  | Failed e => Failed e
  end.

Definition lift {A} (r : result A) : outcome A :=
  match r with
  | Ok a => Done a
  | Throw e => Failed (Raised e)
  end.

Definition headersTimeout (e : exception) : bool :=
  bool_decide (code e = Some "UND_ERR_HEADERS_TIMEOUT")
  || Str.includes "Headers Timeout" (message e)
  || bool_decide (causeCode e = Some "UND_ERR_HEADERS_TIMEOUT").

Definition timedOut : string :=
  "Ollama request timed out: The model took too long to respond. " +:+
  "Try again or use a faster model. Original error: ".

(** The handler that ends [parseAmazonProduct]: the error that leaves it. *)
Definition rethrown (e : exception) : exception :=
  if headersTimeout e then Exception None (timedOut +:+ message e) None
  else if Str.includes "Ollama" (message e) || Str.includes "model" (message e)
          || Str.includes "timeout" (message e)
       then Exception None ("Ollama API error: " +:+ message e) None
       else e.

Section Parse.
Variable Number_toString : Q -> string.
Variable JSON_parse : string -> object + string.
(** [JSON.stringify] on a value that is neither [undefined] nor a function. *)
Variable JSON_stringify : value -> string.
Variable URL_valid : string -> bool.
Variable axios_get : string -> Fetcher.reply.
(** The call of the client on the prompt composed for the page, the ASIN
    and the URL.  The text of the prompt is not modelled. *)
Variable generate : string -> value -> value -> generated.

(** [if (!productAsin && productUrl) productAsin = extractAsin(productUrl)] *)
Definition asinFromUrl (asin url : value) : result value :=
  if negb (truthy asin) && truthy url then Fetcher.extractAsin url else Ok asin.

(** [if (!productUrl && productAsin) productUrl = ...] *)
Definition urlFromAsin (url productAsin : value) : result value :=
  if negb (truthy url) && truthy productAsin
  then Resolver.dpUrl Number_toString productAsin else Ok url.

(** [Validate URL format if we have one] *)
Definition checkedUrl (productUrl : value) : value :=
  match productUrl with
  | VString s => if negb (Str.isEmpty s) && negb (URL_valid s) then VNull else productUrl
  | _ => productUrl
  end.

Definition urlToFetch (productUrl : value) : value :=
  match productUrl with
  | VString s =>
      if negb (Str.isEmpty s) && negb (Str.isEmpty (Str.trim s)) then productUrl else VNull
  | _ => VNull
  end.

(** [Fetch HTML if not provided] *)
Definition obtainHtml (productHtml productUrl productAsin : value) : outcome value :=
  if negb (truthy productHtml) && (truthy productUrl || truthy productAsin) then
    match Fetcher.fetchAmazonPage Number_toString URL_valid axios_get
            (urlToFetch productUrl) productAsin with
    | inl html => Done (VString html)
    | inr e => Failed (FetchFailed e)
    end
  else Done productHtml.

(** [if (!productAsin) productAsin = extractAsin(productHtml) || extractAsin(productUrl)] *)
Definition asinFromPage (productAsin productHtml productUrl : value) : result value :=
  if truthy productAsin then Ok productAsin
  else
    fromHtml ← Fetcher.extractAsin productHtml;
    if truthy fromHtml then Ok fromHtml else Fetcher.extractAsin productUrl.

(** [extractProductText(productHtml)]: a value that is not a string has no
    [match] method. *)
Definition pageText (productHtml : value) : result string :=
  match productHtml with
  | VString s => Ok s
  | _ => Throw TypeError
  end.

(** The conversions to a string in the template of [createParsePrompt]:
    [asin || 'extract from URL'], then [url || `...${asin || ''}`]. *)
Definition promptConversions (asin url : value) : result unit :=
  _ ← (if truthy asin then toStringOrThrow Number_toString asin
       else Ok "extract from URL");
  _ ← (if truthy url then toStringOrThrow Number_toString url
       else toStringOrThrow Number_toString (or asin (VString EmptyString)));
  Ok tt.

(** [Extract response text (handle different response formats)] *)
Definition responseTextOf (response : value) : result value :=
  match response with
  | VString _ => Ok response
  | _ =>
      r ← prop response "response";
      if truthy r then Ok r else
      t ← prop response "text";
      if truthy t then Ok t else
      m ← prop response "message";
      if truthy m then
        c ← prop m "content";
        if truthy c then Ok c else Ok (VString (JSON_stringify response))
      else Ok (VString (JSON_stringify response))
  end.

(** [responseText.trim()] needs a string. *)
Definition completionText (response : value) : result string :=
  responseText ← responseTextOf response;
  match responseText with
  | VString s => Ok s
  | _ => Throw TypeError
  end.

Definition parseAmazonProduct (url asin html : value) : outcome object :=
  productAsin ← lift (asinFromUrl asin url);
  productUrl ← lift (urlFromAsin url productAsin);
  let productUrl := checkedUrl productUrl in
  productHtml ← obtainHtml html productUrl productAsin;
  if negb (truthy productHtml) then Failed HtmlRequired
  else
    productAsin ← lift (asinFromPage productAsin productHtml productUrl);
    page ← lift (pageText productHtml);
    _ ← lift (promptConversions productAsin productUrl);
    match generate page productAsin productUrl with
    | Rejected err => Failed (ClientFailed (rethrown err))
    | Completed response =>
        lift (responseText ← completionText response;
              Resolver.resolve Number_toString JSON_parse responseText
                productAsin productUrl page)
    end.

(** The route [POST /parse] of [server.js]. *)
Inductive answer : Type :=
| BadRequest                  (* 400 *)
| Success (data : object)     (* 200 *)
| ServerError (f : failure).  (* 500 *)

(** The log of a success reads [productData.title.substring] when the
    title is truthy. *)
Definition parseRoute (body : object) : answer :=
  let url := get body "url" in
  let asin := get body "asin" in
  let html := get body "html" in
  if negb (truthy url) && negb (truthy asin) && negb (truthy html) then BadRequest
  else
    match parseAmazonProduct url asin html with
    | Done productData =>
        match get productData "title" with
        | VString _ => Success productData
        | title => if truthy title then ServerError (Raised TypeError)
                   else Success productData
        end
    | Failed f => ServerError f
    end.

End Parse.
End Parser.

(** ** The words of the specification

    Definitions written from the specification, to be compared with the ones
    above. *)

Module Spec.

(** The position of the first [c] in [s]. *)
Fixpoint indexOf (c : ascii) (s : string) : option nat :=
  match s with
  | EmptyString => None
  | String x s' => if Ascii.eqb x c then Some 0 else S <$> indexOf c s'
  end.

(** The position of the last [c] in [s]. *)
Fixpoint lastIndexOf (c : ascii) (s : string) : option nat :=
  match s with
  | EmptyString => None
  | String x s' =>
      match lastIndexOf c s' with
      | Some j => Some (S j)
      | None => if Ascii.eqb x c then Some 0 else None
      end
  end.

(** [s] without its prefix [p], when it starts with [p] (letters compared
    without case when [ignoreCase]). *)
Fixpoint dropPrefix (ignoreCase : bool) (p s : string) : option string :=
  match p, s with
  | EmptyString, _ => Some s
  | String x p', String c s' =>
      if Regex.sameChar ignoreCase x c then dropPrefix ignoreCase p' s' else None
  | String _ _, EmptyString => None
  end.

(** [s] without its suffix [suffix], when it ends with [suffix]. *)
Fixpoint dropSuffix (suffix s : string) : option string :=
  if String.eqb s suffix then Some EmptyString
  else match s with
       | EmptyString => None
       | String c s' => String c <$> dropSuffix suffix s'
       end.

(** The trimmed text without an opening fence, with or without the json
    tag, and without a closing fence; the white space after an opening
    fence and before the closing fence goes with them. *)
Definition unfence (text : string) : string :=
  let t := Str.trim text in
  let t := match dropPrefix true "```json" t with
           | Some rest => Str.trimStart rest
           | None => t
           end in
  let t := match dropPrefix true "```" t with
           | Some rest => Str.trimStart rest
           | None => t
           end in
  match dropSuffix "```" t with
  | Some body => Str.trimEnd body
  | None => t
  end.

(** The JSON object span: from the first opening brace through the last
    closing brace, when the one comes before the other. *)
Definition braceSpan (s : string) : option string :=
  match indexOf "{"%char s, lastIndexOf "}"%char s with
  | Some i, Some j => if Nat.ltb i j then Some (Str.slice i (S j) s) else None
  | _, _ => None
  end.

(** "exactly 10 alphanumeric characters", in the alphabet of the code:
    upper-case letters and digits. *)
Definition isAsin (s : string) : bool :=
  Nat.eqb (String.length s) 10 && Str.all (fun c => Str.isUpper c || Str.isDigit c) s.

(** "a number in [0, max]" *)
Definition inRange (v : Js.value) (max : Q) : Prop :=
  exists q, v = Js.VNumber q /\ (0 <= q)%Q /\ (q <= max)%Q.

End Spec.

(** ** Shapes of texts, used to state properties *)

Module Form.

(** Every white-space character of [s] is a space that no white space
    follows. *)
Fixpoint singleSpaced (s : string) : bool :=
  match s with
  | EmptyString => true
  | String c s' =>
      (if Str.isSpace c
       then Ascii.eqb c " " &&
            match s' with
            | String c' _ => negb (Str.isSpace c')
            | EmptyString => true
            end
       else true)
      && singleSpaced s'
  end.

(** [s] has no white space at either end. *)
Definition trimmed (s : string) : Prop := Str.trim s = s.

End Form.

(** ** Inputs of the examples *)

Module Sample.
Import Js.

(** [Number::toString] on the integers that a double holds exactly (below
    2^53 in magnitude): the decimal digits.  The examples convert no other
    number. *)
Definition integerText (q : Q) : string :=
  NilZero.string_of_int (Z.to_int (Qfloor q)).

(** [JSON.parse] on the one text that the examples parse. *)
Definition parseEmptyObject (text : string) : object + string :=
  if String.eqb text "{}" then inl [] else inr "Unexpected token".

(** A product page with a [Brand] row in both detail containers. *)
Definition page : string :=
  "<html><span id='productTitle'> Gift Wrap </span>" +:+
  "<div id='poExpander'><table><tr><td><b>Brand</b></td><td>Acme</td></tr>" +:+
  "<tr><td>Color</td><td>Red</td></tr></table></div>" +:+
  "<DIV class='x' id='prodDetails'><table class='t'>" +:+
  "<tr><td>Brand</td><td> Zenith </td></tr>" +:+
  "<tr><td>Size</td><td>88 sqft</td></tr><tr><td>Only</td></tr></table></div></html>".

Definition primaryBody : string :=
  "<tr><td><b>Brand</b></td><td>Acme</td></tr><tr><td>Color</td><td>Red</td></tr>".

Definition fallbackBody : string :=
  "<tr><td>Brand</td><td> Zenith </td></tr>" +:+
  "<tr><td>Size</td><td>88 sqft</td></tr><tr><td>Only</td></tr>".

(** A completion without ASIN and URL, with two rolls of which the second
    is a string. *)
Definition completion : object :=
  [("title", VString "Gift wrap");
   ("price", VNumber 0);
   ("brand", VString EmptyString);
   ("printNames", VNull);
   ("rolls", VArray [VObject [("onHand", VNumber 22); ("hasReverseSide", VBool true)];
                     VString "roll"])].

Definition fallbackAsin : value := VString "B08XYZ1234".

(** The record returned for [completion]. *)
Definition record : object := Eval vm_compute in
    match Resolver.normalize integerText completion fallbackAsin VNull EmptyString with
    | Ok r => r
    | Throw _ => []
    end.

(** A record with a price of -5 and nothing else. *)
Definition negativePrice : object :=
  [("asin", VNull); ("type", VNull); ("price", VNumber (-5)); ("quantity", VNull);
   ("rollWidth", VNull); ("rollLength", VNull)].

End Sample.

(** ** Inputs of the examples of the fetcher and of the whole run *)

Module Examples.
Import Js.

Definition productUrl : string :=
  "https://www.amazon.com/Holiday-Wrap/dp/B08XYZ1234/ref=sr_1_1".

(** [new URL] on the addresses of the examples: the ones with an http
    scheme parse. *)
Definition hasScheme (s : string) : bool :=
  String.prefix "https://" s || String.prefix "http://" s.

(** The network of the examples: the address composed from the ASIN of
    [Sample.page] answers that page, any other address is not found. *)
Definition network (fetchUrl : string) : Fetcher.reply :=
  if String.eqb fetchUrl "https://www.amazon.com/dp/B08XYZ1234"
  then Fetcher.Page Sample.page
  else Fetcher.Status 404 "Not Found".

(** A client that answers the empty object, in the envelope of [generate]. *)
Definition client (page : string) (asin url : value) : Parser.generated :=
  Parser.Completed (VObject [("response", VString "{}")]).

(** A client whose completion is empty. *)
Definition silentClient (page : string) (asin url : value) : Parser.generated :=
  Parser.Completed (VObject [("response", VString EmptyString)]).

(** [JSON.stringify] on the one envelope that the examples serialise. *)
Definition stringifyEnvelope (v : value) : string :=
  "{" +:+ String Str.dquote ("response" +:+ String Str.dquote
  (":" +:+ String Str.dquote (String Str.dquote "}"))).

(** [JSON.parse] on the texts that the examples parse: the empty object
    and the envelope above. *)
Definition parseSamples (text : string) : object + string :=
  if String.eqb text "{}" then inl []
  else if String.eqb text (stringifyEnvelope VNull)
       then inl [("response", VString EmptyString)]
       else inr "Unexpected token".

(** The record of the run on [productUrl] and [Sample.page] with [client]. *)
Definition parsed : object := Eval vm_compute in
    match Parser.parseAmazonProduct Sample.integerText parseSamples
            stringifyEnvelope hasScheme network client
            (VString productUrl) VUndefined (VString Sample.page) with
    | Parser.Done r => r
    | Parser.Failed _ => []
    end.

(** The product details of [Sample.page]. *)
Definition details : gmap string string :=
  Extractor.storeRows [("Brand", "Zenith"); ("Size", "88 sqft")]
    (Extractor.storeRows [("Brand", "Acme"); ("Color", "Red")] ∅).

(** A page with a price block. *)
Definition pricePage : string :=
  "<div id='coreprice_feature_div'><span> $12.99 </span>  <b>per   roll</b></div>".


(** A completion without product data, and a block page. *)
Definition emptyData : object :=
  [("title", VNull); ("price", VNull); ("brand", VNull)].

Definition blockPage : string :=
  "<html>Click the button below to continue shopping</html>".

(** A page whose two detail containers both have a row headed [__proto__]. *)
Definition protoPage : string :=
  "<div id='poExpander'><table><tr><td>__proto__</td><td>Acme</td></tr>" +:+
  "</table></div><div id='prodDetails'><table>" +:+
  "<tr><td>__proto__</td><td>Zenith</td></tr>" +:+
  "<tr><td>Size</td><td>88 sqft</td></tr></table></div>".

Definition protoPrimaryBody : string :=
  "<tr><td>__proto__</td><td>Acme</td></tr>".

Definition protoFallbackBody : string :=
  "<tr><td>__proto__</td><td>Zenith</td></tr><tr><td>Size</td><td>88 sqft</td></tr>".

End Examples.

(** * Properties *)

(** ** The JSON object span (step 2 of the resolver) *)

Section ObjectSpan.
Import Regex Resolver Spec.

(** After the opening brace, the greedy [[\s\S]*] followed by the closing
    brace stops at the last closing brace. *)
Lemma star_any_close (s : string) (pos : nat) (g : caps) :
  matchHere false [Star Any; One (Chr "}"%char)] s pos g
  = (fun j => (pos + S j, g)) <$> lastIndexOf "}"%char s.
Proof.
  revert pos. induction s as [|c s IH]; intros pos; [reflexivity|].
  cbn -[lastIndexOf Ascii.eqb]. rewrite IH. cbn -[Ascii.eqb].
  destruct (lastIndexOf "}"%char s) as [j|]; cbn -[Ascii.eqb].
  - do 2 f_equal. lia.
  - rewrite Ascii.eqb_sym. destruct (Ascii.eqb c "}"); cbn; [|done].
    do 2 f_equal. lia.
Qed.

Lemma tryAt_object_cons (c : ascii) (s : string) (start : nat) :
  whole <$> tryAt reObject (String c s) start
  = if Ascii.eqb c "{"
    then (fun j => Str.take (S (S j)) (String c s)) <$> lastIndexOf "}"%char s
    else None.
Proof.
  unfold tryAt, reObject. cbn [icase body].
  change (matchHere false (One (Chr "{"%char) :: ?r) (String c s) 0 ?g)
    with (if sameChar false "{" c then matchHere false r s 1 g else None).
  cbn [sameChar]. rewrite Ascii.eqb_sym.
  destruct (Ascii.eqb c "{"); [|reflexivity].
  rewrite star_any_close.
  destruct (lastIndexOf "}"%char s) as [j|]; reflexivity.
Qed.

Lemma lastIndexOf_cons_None (c x : ascii) (s : string) :
  lastIndexOf c (String x s) = None ->
  lastIndexOf c s = None /\ Ascii.eqb x c = false.
Proof.
  cbn -[Ascii.eqb]. destruct (lastIndexOf c s); [done|].
  destruct (Ascii.eqb x c); done.
Qed.

Lemma searchFrom_object_None (s : string) (start : nat) :
  lastIndexOf "}"%char s = None -> searchFrom reObject s start = None.
Proof.
  revert start. induction s as [|c s IH]; intros start Hs; [reflexivity|].
  apply lastIndexOf_cons_None in Hs as [Hs Hc].
  pose proof (tryAt_object_cons c s start) as Ht. rewrite Hs in Ht.
  cbn [searchFrom].
  destruct (tryAt reObject (String c s) start) as [m|].
  - destruct (Ascii.eqb c "{"); discriminate Ht.
  - by apply IH.
Qed.

Lemma braceSpan_skip (c : ascii) (s : string) :
  Ascii.eqb c "{" = false -> braceSpan (String c s) = braceSpan s.
Proof.
  intros Hc. unfold braceSpan. cbn -[Ascii.eqb Nat.ltb Str.slice]. rewrite Hc.
  destruct (indexOf "{"%char s) as [i|]; cbn -[Ascii.eqb Nat.ltb Str.slice];
    [|done].
  destruct (lastIndexOf "}"%char s) as [j|].
  - reflexivity.
  - destruct (Ascii.eqb c "}"); reflexivity.
Qed.

Lemma braceSpan_open (s : string) :
  braceSpan (String "{" s)
  = (fun j => Str.take (S (S j)) (String "{" s)) <$> lastIndexOf "}"%char s.
Proof.
  unfold braceSpan. cbn -[Nat.ltb Str.slice Str.take].
  destruct (lastIndexOf "}"%char s) as [j|]; reflexivity.
Qed.

Lemma indexOf_None (c : ascii) (s : string) :
  lastIndexOf c s = None -> indexOf c s = None.
Proof.
  induction s as [|x s IH]; [done|]. cbn -[Ascii.eqb].
  destruct (lastIndexOf c s); [done|].
  destruct (Ascii.eqb x c); [done|]. intros _. by rewrite IH.
Qed.

Lemma lastIndexOf_Some (c : ascii) (s : string) (j : nat) :
  lastIndexOf c s = Some j ->
  exists mid post,
    s = mid +:+ String c post /\
    Str.take (S j) s = mid +:+ String c EmptyString /\
    indexOf c post = None.
Proof.
  revert j. induction s as [|x s IH]; intros j; [done|]. cbn -[Ascii.eqb Str.take].
  destruct (lastIndexOf c s) as [j'|] eqn:E.
  - intros [= <-]. destruct (IH j' eq_refl) as (mid & post & -> & Ht & Hp).
    exists (String x mid), post. split_and!; [done| |done].
    change (Str.take (S (S j')) (String x (mid +:+ String c post)))
      with (String x (Str.take (S j') (mid +:+ String c post))).
    by rewrite Ht.
  - destruct (Ascii.eqb_spec x c) as [->|]; [|done]. intros [= <-].
    exists EmptyString, s. split_and!; [done..|]. by apply indexOf_None.
Qed.

(** The span of the specification, read on the text: what precedes it has
    no opening brace, what follows it has no closing brace. *)
Lemma braceSpan_Some (s t : string) :
  braceSpan s = Some t ->
  exists pre mid post,
    s = pre +:+ String "{" (mid +:+ String "}" post) /\
    t = String "{" (mid +:+ String "}" EmptyString) /\
    indexOf "{"%char pre = None /\ indexOf "}"%char post = None.
Proof.
  induction s as [|c s IH]; [done|].
  destruct (Ascii.eqb_spec c "{") as [->|Hc].
  - rewrite braceSpan_open.
    destruct (lastIndexOf "}"%char s) as [j|] eqn:E; [|done]. intros [= <-].
    destruct (lastIndexOf_Some _ _ _ E) as (mid & post & -> & Ht & Hp).
    exists EmptyString, mid, post. split_and!; [done| |done..].
    f_equal. exact Ht.
  - apply Ascii.eqb_neq in Hc. rewrite braceSpan_skip by done.
    intros (pre & mid & post & -> & -> & Hpre & Hpost)%IH.
    exists (String c pre), mid, post. split_and!; [done..| |done].
    cbn -[Ascii.eqb]. by rewrite Hc, Hpre.
Qed.

(** The pattern [/\{[\s\S]*\}/] finds the span of the specification. *)
Lemma searchFrom_object (s : string) (start : nat) :
  whole <$> searchFrom reObject s start = braceSpan s.
Proof.
  revert start. induction s as [|c s IH]; intros start; [reflexivity|].
  pose proof (tryAt_object_cons c s start) as Ht.
  cbn [searchFrom].
  destruct (Ascii.eqb_spec c "{") as [->|Hc].
  - rewrite braceSpan_open.
    destruct (tryAt reObject (String "{" s) start) as [m|] eqn:Hm.
    + exact Ht.
    + rewrite <- Ht. symmetry in Ht. apply fmap_None in Ht.
      by rewrite searchFrom_object_None.
  - apply Ascii.eqb_neq in Hc. rewrite braceSpan_skip by done.
    destruct (tryAt reObject (String c s) start); [discriminate Ht|].
    apply IH.
Qed.

Lemma extractJsonText_braceSpan (responseText : string) :
  extractJsonText responseText = braceSpan (stripFences responseText).
Proof. unfold extractJsonText, exec. apply searchFrom_object. Qed.

(** Removing characters from a text creates no occurrence of [c]. *)
Lemma indexOf_app_None (c : ascii) (a b : string) :
  indexOf c a = None -> indexOf c b = None -> indexOf c (a +:+ b) = None.
Proof.
  induction a as [|x a IH]; [done|].
  change (String x a +:+ b) with (String x (a +:+ b)). cbn -[Ascii.eqb].
  destruct (Ascii.eqb x c); [done|]. intros Ha Hb.
  apply fmap_None in Ha. by rewrite IH.
Qed.

Lemma indexOf_take_None (c : ascii) (n : nat) (s : string) :
  indexOf c s = None -> indexOf c (Str.take n s) = None.
Proof.
  revert n. induction s as [|x s IH]; intros [|n]; cbn -[Ascii.eqb]; try done.
  destruct (Ascii.eqb x c); [done|]. intros Hs.
  apply fmap_None in Hs. by rewrite IH.
Qed.

Lemma indexOf_drop_None (c : ascii) (n : nat) (s : string) :
  indexOf c s = None -> indexOf c (Str.drop n s) = None.
Proof.
  revert n. induction s as [|x s IH]; intros [|n]; cbn -[Ascii.eqb]; try done.
  destruct (Ascii.eqb x c); [done|]. intros Hs.
  apply fmap_None in Hs. by apply IH.
Qed.

Lemma indexOf_trimStart_None (c : ascii) (s : string) :
  indexOf c s = None -> indexOf c (Str.trimStart s) = None.
Proof.
  induction s as [|x s IH]; [done|]. cbn -[Ascii.eqb Str.isSpace].
  destruct (Str.isSpace x); [|done].
  destruct (Ascii.eqb x c); [done|]. intros Hs.
  apply fmap_None in Hs. by apply IH.
Qed.

Lemma indexOf_trimEnd_None (c : ascii) (s : string) :
  indexOf c s = None -> indexOf c (Str.trimEnd s) = None.
Proof.
  induction s as [|x s IH]; [done|]. cbn -[Ascii.eqb Str.isSpace].
  destruct (Ascii.eqb x c) eqn:Hx; [done|]. intros Hs.
  apply fmap_None in Hs. specialize (IH Hs).
  destruct (Str.trimEnd s) as [|y t].
  - destruct (Str.isSpace x); cbn -[Ascii.eqb]; [done|]. by rewrite Hx.
  - cbn -[Ascii.eqb] in *. by rewrite Hx, IH.
Qed.

Lemma indexOf_removeFirst_None (c : ascii) (re : regex) (s : string) :
  indexOf c s = None -> indexOf c (removeFirst re s) = None.
Proof.
  intros Hs. unfold removeFirst. destruct (exec re s); [|done].
  apply indexOf_app_None; [by apply indexOf_take_None|by apply indexOf_drop_None].
Qed.

Lemma indexOf_stripFences_None (c : ascii) (responseText : string) :
  indexOf c responseText = None -> indexOf c (stripFences responseText) = None.
Proof.
  intros Hs. unfold stripFences, Str.trim.
  do 3 apply indexOf_removeFirst_None.
  by apply indexOf_trimEnd_None, indexOf_trimStart_None.
Qed.

Lemma lastIndexOf_None (c : ascii) (s : string) :
  indexOf c s = None -> lastIndexOf c s = None.
Proof.
  induction s as [|x s IH]; [done|]. cbn -[Ascii.eqb].
  destruct (Ascii.eqb x c); [done|]. intros Hs.
  apply fmap_None in Hs. by rewrite IH.
Qed.

Lemma braceSpan_no_brace (s : string) :
  indexOf "{"%char s = None \/ indexOf "}"%char s = None -> braceSpan s = None.
Proof.
  unfold braceSpan. intros [->| ->%lastIndexOf_None]; [done|].
  by destruct (indexOf "{"%char s).
Qed.

End ObjectSpan.

(** ** Objects *)

Section Objects.
Import Js.

Lemma get_set_eq (o : object) (k : string) (v : value) : get (set o k v) k = v.
Proof.
  induction o as [|[k' v'] o IH]; cbn.
  - by rewrite String.eqb_refl.
  - destruct (String.eqb k' k) eqn:E; cbn.
    + by rewrite String.eqb_refl.
    + by rewrite E.
Qed.

Lemma get_set_ne (o : object) (k k' : string) (v : value) :
  k <> k' -> get (set o k v) k' = get o k'.
Proof.
  intros Hk. induction o as [|[k0 v0] o IH]; cbn.
  - by apply String.eqb_neq in Hk as ->.
  - destruct (String.eqb_spec k0 k) as [->|E]; cbn.
    + by apply String.eqb_neq in Hk as ->.
    + by rewrite IH.
Qed.

End Objects.

(** ** The shape of the returned record *)

Section Normalize.
Import Js Resolver.
Variable Number_toString : Q -> string.

#[local] Abbreviation dpUrl := (dpUrl Number_toString).
#[local] Abbreviation ensureUrl := (ensureUrl Number_toString).
#[local] Abbreviation prepare := (prepare Number_toString).
#[local] Abbreviation cleanData := (cleanData Number_toString).
#[local] Abbreviation normalize := (normalize Number_toString).
#[local] Abbreviation validateProductData :=
  (Validator.validateProductData Number_toString).


Lemma bind_Ok {A B} (m : result A) (f : A -> result B) (b : B) :
  m ≫= f = Ok b -> exists a, m = Ok a /\ f a = Ok b.
Proof. destruct m as [a|e]; cbn; [eauto|done]. Qed.

Lemma ensureAsin_other (pd : object) (a : value) (k : string) :
  k <> "asin" -> get (ensureAsin pd a) k = get pd k.
Proof.
  intros Hk. unfold ensureAsin.
  destruct (negb (truthy (get pd "asin")) && truthy a); [|done].
  by apply get_set_ne.
Qed.

Lemma ensureAsin_asin (pd : object) (a : value) :
  get (ensureAsin pd a) "asin"
  = if truthy (get pd "asin") then get pd "asin"
    else if truthy a then a else get pd "asin".
Proof.
  unfold ensureAsin.
  destruct (truthy (get pd "asin")), (truthy a); cbn [negb andb];
    try done.
  apply get_set_eq.
Qed.

Lemma ensureUrl_other (pd pd' : object) (u a : value) (k : string) :
  ensureUrl pd u a = Ok pd' -> k <> "url" -> get pd' k = get pd k.
Proof.
  unfold ensureUrl. intros H Hk.
  destruct (negb (truthy (get pd "url")) && truthy u).
  { injection H as <-. by apply get_set_ne. }
  destruct (negb (truthy (get pd "url")) && truthy a).
  - apply bind_Ok in H as (url & _ & H). injection H as <-. by apply get_set_ne.
  - by injection H as <-.
Qed.

Lemma dpUrl_Ok (a url : value) :
  dpUrl a = Ok url ->
  exists s, ToString Number_toString a = Some s
            /\ url = VString ("https://www.amazon.com/dp/" +:+ s).
Proof.
  unfold Resolver.dpUrl, toStringOrThrow.
  destruct (ToString Number_toString a) as [s|]; cbn; [|done].
  intros [= <-]. eauto.
Qed.

Lemma ensureUrl_url (pd pd' : object) (u a : value) :
  ensureUrl pd u a = Ok pd' ->
  if truthy (get pd "url") then get pd' "url" = get pd "url"
  else if truthy u then get pd' "url" = u
  else if truthy a then dpUrl a = Ok (get pd' "url")
  else get pd' "url" = get pd "url".
Proof.
  unfold Resolver.ensureUrl.
  destruct (truthy (get pd "url")) eqn:E, (truthy u), (truthy a);
    cbn [negb andb]; intros H;
    try (injection H as <-; first [done | apply get_set_eq]).
  apply bind_Ok in H as (url & Hurl & H). injection H as <-.
  by rewrite get_set_eq.
Qed.

Lemma ensureImages_other (pd : object) (k : string) :
  k <> "images" -> get (ensureImages pd) k = get pd k.
Proof.
  intros Hk. unfold ensureImages. destruct (isArray (get pd "images")); [done|].
  by apply get_set_ne.
Qed.

Lemma ensureImages_images (pd : object) :
  isArray (get (ensureImages pd) "images") = true.
Proof.
  unfold ensureImages. destruct (isArray (get pd "images")) eqn:E; [done|].
  by rewrite get_set_eq.
Qed.

Lemma prepare_other (pd pd' : object) (a u : value) (k : string) :
  prepare pd a u = Ok pd' ->
  k <> "asin" -> k <> "url" -> k <> "images" -> get pd' k = get pd k.
Proof.
  unfold Resolver.prepare. intros H H1 H2 H3.
  apply bind_Ok in H as (pd1 & E & H). injection H as <-. rewrite ensureImages_other by done.
  rewrite (ensureUrl_other _ _ _ _ _ E) by done. by apply ensureAsin_other.
Qed.

Lemma prepare_asin (pd pd' : object) (a u : value) :
  prepare pd a u = Ok pd' ->
  get pd' "asin"
  = if truthy (get pd "asin") then get pd "asin"
    else if truthy a then a else get pd "asin".
Proof.
  unfold Resolver.prepare. intros H.
  apply bind_Ok in H as (pd1 & E & H). injection H as <-. rewrite ensureImages_other by done.
  rewrite (ensureUrl_other _ _ _ _ _ E) by done. apply ensureAsin_asin.
Qed.

Lemma prepare_url (pd pd' : object) (a u : value) :
  prepare pd a u = Ok pd' ->
  if truthy (get pd "url") then get pd' "url" = get pd "url"
  else if truthy u then get pd' "url" = u
  else if truthy a then dpUrl a = Ok (get pd' "url")
  else get pd' "url" = get pd "url".
Proof.
  unfold Resolver.prepare. intros H.
  apply bind_Ok in H as (pd1 & E & H). injection H as <-. rewrite ensureImages_other by done.
  apply ensureUrl_url in E. by rewrite ensureAsin_other in E.
Qed.

Lemma prepare_images (pd pd' : object) (a u : value) :
  prepare pd a u = Ok pd' -> isArray (get pd' "images") = true.
Proof.
  unfold Resolver.prepare. intros H.
  apply bind_Ok in H as (pd1 & E & H). injection H as <-. apply ensureImages_images.
Qed.

Lemma cleanData_Ok (pd cleaned : object) (a : value) :
  cleanData pd a = Ok cleaned ->
  exists url,
    cleaned = cleanedData pd url /\
    (if truthy (get pd "url") then url = get pd "url"
     else if truthy a then dpUrl a = Ok url
     else url = VNull).
Proof.
  unfold Resolver.cleanData. intros H.
  apply bind_Ok in H as (url & Hurl & H). injection H as <-.
  exists url. split; [done|].
  destruct (truthy (get pd "url")); [by injection Hurl|].
  destruct (truthy a); [done|by injection Hurl].
Qed.

(** What [normalize] went through when it returns a record. *)
Lemma normalize_Ok (pd : object) (a u : value) (h : string) (r : object) :
  normalize pd a u h = Ok r ->
  exists pd' errors cleaned,
    prepare pd a u = Ok pd' /\
    validateProductData pd' = Ok errors /\
    (hasProductData pd' = true \/ isBlockPage h = false) /\
    cleanData pd' a = Ok cleaned /\
    coerceRolls cleaned = Ok r.
Proof.
  unfold Resolver.normalize. intros H.
  apply bind_Ok in H as (pd' & Hp' & H).
  apply bind_Ok in H as (errors & Hv & H).
  destruct (hasProductData pd') eqn:Hp, (isBlockPage h) eqn:Hb;
    cbn [negb andb] in H; try done;
    apply bind_Ok in H as (cleaned & Hc & H);
    exists pd', errors, cleaned; eauto 10.
Qed.

End Normalize.

(** ** The coercion of the rolls *)

Section Rolls.
Import Js Resolver.

Lemma mapIndexed_Ok {A B} (f : nat -> A -> result B) (i : nat)
    (xs : list A) (ys : list B) :
  mapIndexed f i xs = Ok ys ->
  List.length ys = List.length xs /\
  forall j x, xs !! j = Some x -> exists y, ys !! j = Some y /\ f (i + j) x = Ok y.
Proof.
  revert i ys. induction xs as [|x xs IH]; intros i ys; cbn.
  - intros [= <-]. split; [done|]. intros j x Hj. by destruct j.
  - intros H. apply bind_Ok in H as (y & Hy & H).
    apply bind_Ok in H as (ys' & Hys & H). injection H as <-.
    destruct (IH _ _ Hys) as [Hlen Hnth]. split; [cbn; by rewrite Hlen|].
    intros [|j] x' Hj; cbn in *.
    + injection Hj as <-. exists y. by rewrite Nat.add_0_r.
    + destruct (Hnth j x' Hj) as (y' & ? & ?). exists y'.
      by rewrite Nat.add_succ_r.
Qed.

Lemma mapIndexed_total {A B} (f : nat -> A -> result B) (i : nat) (xs : list A) :
  (forall j x, xs !! j = Some x -> exists y, f (i + j) x = Ok y) ->
  exists ys, mapIndexed f i xs = Ok ys.
Proof.
  revert i. induction xs as [|x xs IH]; intros i Hf; cbn; [eauto|].
  destruct (Hf 0 x eq_refl) as [y Hy]. rewrite Nat.add_0_r in Hy. rewrite Hy. cbn.
  destruct (IH (S i)) as [ys Hys].
  { intros j x' Hj. destruct (Hf (S j) x' Hj) as [y' Hy'].
    exists y'. by rewrite Nat.add_succ_r in Hy'. }
  rewrite Hys. cbn. eauto.
Qed.

Lemma prop_field (v : value) (k : string) :
  v <> VNull -> v <> VUndefined -> prop v k = Ok (field v k).
Proof. by destruct v. Qed.

(** The record built for a roll that is neither [null] nor [undefined]. *)
Lemma coerceRoll_Ok (index : nat) (roll y : value) :
  coerceRoll index roll = Ok y ->
  roll <> VNull /\ roll <> VUndefined /\
  y = VObject
        [("rollNumber", if isNumber (field roll "rollNumber")
                        then field roll "rollNumber" else position index);
         ("onHand", if isNumber (field roll "onHand")
                    then field roll "onHand" else VNumber 0);
         ("maxArea", if isNumber (field roll "maxArea")
                     then field roll "maxArea"
                     else or (field roll "onHand") (VNumber 0));
         ("image", or (field roll "image") VNull);
         ("printName", or (field roll "printName") VNull);
         ("hasReverseSide", if isBoolean (field roll "hasReverseSide")
                            then field roll "hasReverseSide" else VBool false);
         ("pairedRollNumber", if isNumber (field roll "pairedRollNumber")
                              then field roll "pairedRollNumber" else VNull)].
Proof.
  unfold coerceRoll. intros H.
  destruct roll; cbn in H; try discriminate H; by injection H as <-.
Qed.

Lemma coerceRoll_total (index : nat) (roll : value) :
  roll <> VNull -> roll <> VUndefined -> exists y, coerceRoll index roll = Ok y.
Proof.
  intros H1 H2. unfold coerceRoll. rewrite !prop_field by done. cbn. eauto.
Qed.

Lemma coerceRoll_throws (index : nat) (roll : value) :
  roll = VNull \/ roll = VUndefined -> coerceRoll index roll = Throw TypeError.
Proof. by intros [-> | ->]. Qed.

(** What [coerceRolls] does to the object literal. *)
Lemma coerceRolls_cleanedData (pd : object) (url : value) (r : object) :
  coerceRolls (cleanedData pd url) = Ok r ->
  exists rolls,
    r = set (cleanedData pd url) "rolls" rolls /\
    match threeWay (get pd "rolls") with
    | VArray rs => exists rs', mapIndexed coerceRoll 0 rs = Ok rs' /\ rolls = VArray rs'
    | v => rolls = v
    end.
Proof.
  unfold coerceRolls.
  change (get (cleanedData pd url) "rolls") with (threeWay (get pd "rolls")).
  destruct (threeWay (get pd "rolls")) as [| |b|q|s|rs|o] eqn:E; intros H;
    try (injection H as <-; eexists; split; [|reflexivity];
         unfold cleanedData; cbn [set String.eqb Ascii.eqb Bool.eqb];
         by rewrite E).
  apply bind_Ok in H as (rs' & Hrs & H). injection H as <-. eauto.
Qed.

End Rolls.

(** ** The fields of the returned record *)

Section Record.
Import Js Resolver.
Variable Number_toString : Q -> string.

#[local] Abbreviation ToString := (ToString Number_toString).
#[local] Abbreviation dpUrl := (dpUrl Number_toString).
#[local] Abbreviation prepare := (prepare Number_toString).
#[local] Abbreviation cleanData := (cleanData Number_toString).
#[local] Abbreviation normalize := (normalize Number_toString).
#[local] Abbreviation validateProductData :=
  (Validator.validateProductData Number_toString).

#[local] Abbreviation urlLine := (urlLine Number_toString).

Lemma normalize_record (pd : object) (a u : value) (h : string) (r : object) :
  normalize pd a u h = Ok r ->
  exists pd' url rolls,
    prepare pd a u = Ok pd' /\
    r = set (cleanedData pd' url) "rolls" rolls /\
    urlLine pd' a url /\ rollsLine pd' rolls /\
    (hasProductData pd' = true \/ isBlockPage h = false).
Proof.
  intros (pd' & errors & cleaned & Hp & _ & Hb & Hc & Hr)%normalize_Ok.
  apply cleanData_Ok in Hc as (url & -> & Hurl).
  apply coerceRolls_cleanedData in Hr as (rolls & -> & Hrolls).
  by exists pd', url, rolls.
Qed.

Lemma threeWay_cases (v : value) :
  match v with
  | VArray items => threeWay v = VArray items
  | VNull => threeWay v = VNull
  | _ => threeWay v = VArray []
  end.
Proof. by destruct v. Qed.

Lemma dpUrl_truthy (a url : value) : dpUrl a = Ok url -> truthy url = true.
Proof. by intros (s & _ & ->)%dpUrl_Ok. Qed.

Lemma record_asin (pd : object) (a u : value) (h : string) (r : object) :
  normalize pd a u h = Ok r ->
  get r "asin" = if truthy (get pd "asin") then get pd "asin"
                 else if truthy a then a else VNull.
Proof.
  intros (pd' & url & rolls & Hp & -> & _)%normalize_record.
  change (get (set (cleanedData pd' url) "rolls" rolls) "asin") with (or (get pd' "asin") VNull).
  rewrite (prepare_asin _ _ _ _ _ Hp). unfold or.
  destruct (truthy (get pd "asin")) eqn:E1; rewrite ?E1; [done|].
  destruct (truthy a) eqn:E2; by rewrite ?E1, ?E2.
Qed.

Lemma record_url (pd : object) (a u : value) (h : string) (r : object) :
  normalize pd a u h = Ok r ->
  if truthy (get pd "url") then get r "url" = get pd "url"
  else if truthy u then get r "url" = u
  else if truthy a then dpUrl a = Ok (get r "url")
  else get r "url" = VNull.
Proof.
  intros (pd' & url & rolls & Hp & -> & Hurl & _)%normalize_record.
  change (get (set (cleanedData pd' url) "rolls" rolls) "url") with url.
  pose proof (prepare_url _ _ _ _ _ Hp) as H. unfold Resolver.urlLine in Hurl.
  destruct (truthy (get pd "url")) eqn:E1.
  { rewrite H, E1 in Hurl. congruence. }
  destruct (truthy u) eqn:E2.
  { rewrite H, E2 in Hurl. congruence. }
  destruct (truthy a) eqn:E3.
  { rewrite (dpUrl_truthy _ _ H) in Hurl. by rewrite Hurl. }
  by rewrite H, E1 in Hurl.
Qed.

Lemma record_truthyOrNull (pd : object) (a u : value) (h : string) (r : object)
    (k : string) :
  normalize pd a u h = Ok r -> k ∈ truthyOrNull ->
  get r k = if truthy (get pd k) then get pd k else VNull.
Proof.
  intros (pd' & url & rolls & Hp & -> & _)%normalize_record Hk.
  unfold truthyOrNull in Hk. set_unfold in Hk.
  destruct_or! Hk; subst k;
    (rewrite <- (prepare_other _ _ _ _ _ _ Hp) by done); reflexivity.
Qed.

Lemma record_definedOrNull (pd : object) (a u : value) (h : string) (r : object)
    (k : string) :
  normalize pd a u h = Ok r -> k ∈ definedOrNull ->
  get r k = if isUndefined (get pd k) then VNull else get pd k.
Proof.
  intros (pd' & url & rolls & Hp & -> & _)%normalize_record Hk.
  unfold definedOrNull in Hk. set_unfold in Hk.
  destruct_or! Hk; subst k;
    (rewrite <- (prepare_other _ _ _ _ _ _ Hp) by done); reflexivity.
Qed.

Lemma record_printNames (pd : object) (a u : value) (h : string) (r : object) :
  normalize pd a u h = Ok r ->
  get r "printNames" = threeWay (get pd "printNames").
Proof.
  intros (pd' & url & rolls & Hp & -> & _)%normalize_record.
  rewrite <- (prepare_other _ _ _ _ _ _ Hp) by done. reflexivity.
Qed.

Lemma record_images (pd : object) (a u : value) (h : string) (r : object) :
  normalize pd a u h = Ok r ->
  get r "images" = if isArray (get pd "images") then get pd "images" else VArray [].
Proof.
  intros (pd' & url & rolls & Hp & -> & _)%normalize_record.
  change (get (set (cleanedData pd' url) "rolls" rolls) "images")
    with (if isArray (get pd' "images") then get pd' "images" else VArray []).
  revert Hp. unfold Resolver.prepare. intros Hp.
  apply bind_Ok in Hp as (pd1 & E & Hp). injection Hp as <-.
  rewrite ensureImages_images. unfold ensureImages.
  rewrite (ensureUrl_other _ _ _ _ _ _ E), ensureAsin_other by done.
  destruct (isArray (get pd "images")) eqn:Hi.
  - by rewrite (ensureUrl_other _ _ _ _ _ _ E), ensureAsin_other.
  - by rewrite get_set_eq.
Qed.

Lemma record_rolls (pd : object) (a u : value) (h : string) (r : object) :
  normalize pd a u h = Ok r ->
  match get pd "rolls" with
  | VArray rs =>
      exists rs', mapIndexed coerceRoll 0 rs = Ok rs' /\ get r "rolls" = VArray rs'
  | VNull => get r "rolls" = VNull
  | _ => get r "rolls" = VArray []
  end.
Proof.
  intros (pd' & url & rolls & Hp & -> & _ & Hrolls & _)%normalize_record.
  change (get (set (cleanedData pd' url) "rolls" rolls) "rolls") with rolls. unfold rollsLine in Hrolls.
  rewrite (prepare_other _ _ _ _ _ _ Hp) in Hrolls by done.
  destruct (get pd "rolls") as [| |b|q|s|rs|o]; cbn in Hrolls; try done.
  all: destruct Hrolls as (rs' & Hrs & ->); injection Hrs as <-; done.
Qed.

Lemma record_keys (pd : object) (a u : value) (h : string) (r : object) :
  normalize pd a u h = Ok r -> keys r = schemaKeys.
Proof. by intros (pd' & url & rolls & Hp & -> & _)%normalize_record. Qed.

End Record.

(** ** Claims about the normalised record *)

Section RecordClaims.
Import Js Resolver.
Variable Number_toString : Q -> string.

#[local] Abbreviation ToString := (ToString Number_toString).
#[local] Abbreviation prepare := (prepare Number_toString).
#[local] Abbreviation cleanData := (cleanData Number_toString).
#[local] Abbreviation normalize := (normalize Number_toString).

(** C2, as the code has it.  In the returned record, [price], [quantity],
    [rollLength] and [rollWidth] are the parsed value whenever it is not
    [undefined] (zero, false, the empty string and [null] included) and
    [null] otherwise; [type], [title], [brand], [description], [size],
    [dimensions] and [thumbnail] are the parsed value when it is truthy and
    [null] otherwise; [asin] and [url] are the parsed value when it is
    truthy, else the caller's fallback, else (for [url]) the address made
    from the fallback ASIN, else [null]. *)
Theorem scalar_fields_normalized (pd : object) (a u : value) (h : string)
    (r : object) :
  normalize pd a u h = Ok r ->
  (forall k, k ∈ definedOrNull ->
     get r k = if isUndefined (get pd k) then VNull else get pd k) /\
  (forall k, k ∈ truthyOrNull ->
     get r k = if truthy (get pd k) then get pd k else VNull) /\
  get r "asin" = (if truthy (get pd "asin") then get pd "asin"
                  else if truthy a then a else VNull) /\
  (if truthy (get pd "url") then get r "url" = get pd "url"
   else if truthy u then get r "url" = u
   else if truthy a
        then exists s, ToString a = Some s /\
                       get r "url" = VString ("https://www.amazon.com/dp/" +:+ s)
        else get r "url" = VNull).
Proof.
  intros H. repeat split.
  - intros k Hk. by eapply record_definedOrNull.
  - intros k Hk. by eapply record_truthyOrNull.
  - by eapply record_asin.
  - pose proof (record_url _ _ _ _ _ _ H) as Hu.
    destruct (truthy (get pd "url")); [done|].
    destruct (truthy u); [done|]. destruct (truthy a); [|done].
    by apply dpUrl_Ok in Hu.
Qed.

(** C9.  When the parsed object has no (truthy) [asin] and the caller gave
    an ASIN, the record's [asin] is the caller's; when the object has no
    [url] either, the record's [url] is the caller's URL if there is one and
    else [https://www.amazon.com/dp/] followed by the ASIN. *)
Theorem asin_and_url_backfilled (pd : object) (a u : value) (h : string)
    (r : object) :
  normalize pd a u h = Ok r ->
  truthy (get pd "asin") = false -> truthy a = true ->
  get r "asin" = a /\
  (truthy (get pd "url") = false ->
   (truthy u = true -> get r "url" = u) /\
   (truthy u = false ->
    exists s, ToString a = Some s /\
              get r "url" = VString ("https://www.amazon.com/dp/" +:+ s))).
Proof.
  intros H Hasin Ha. split.
  - by rewrite (record_asin _ _ _ _ _ _ H), Hasin, Ha.
  - intros Hurl. pose proof (record_url _ _ _ _ _ _ H) as Hu.
    rewrite Hurl in Hu. split; intros E; rewrite E in Hu; [done|].
    rewrite Ha in Hu. by apply dpUrl_Ok in Hu.
Qed.

Lemma or_null_defined (v : value) : or v VNull <> VUndefined.
Proof. unfold or. destruct (truthy v) eqn:E; [|done]. by intros ->. Qed.

Lemma orNull_defined (v : value) : orNull v <> VUndefined.
Proof. by destruct v. Qed.

Lemma threeWay_array_or_null (v : value) :
  threeWay v = VNull \/ isArray (threeWay v) = true.
Proof. destruct v; cbn; auto. Qed.

Lemma rollsLine_array_or_null (pd' : object) (rolls : value) :
  rollsLine pd' rolls -> rolls = VNull \/ isArray rolls = true.
Proof.
  unfold rollsLine. pose proof (threeWay_array_or_null (get pd' "rolls")) as Ht.
  destruct (threeWay (get pd' "rolls")); try (intros ->; done).
  intros (rs' & _ & ->). by right.
Qed.

Lemma urlLine_defined (pd' : object) (a url : value) :
  urlLine Number_toString pd' a url -> url <> VUndefined.
Proof.
  unfold Resolver.urlLine. destruct (truthy (get pd' "url")) eqn:E.
  - intros -> Hu. by rewrite Hu in E.
  - destruct (truthy a).
    + by intros (s & _ & ->)%dpUrl_Ok.
    + by intros ->.
Qed.

(** C10, as the code has it.  A returned record has exactly the sixteen keys
    of the schema, in the order of the schema; none of them is bound to
    [undefined]; [images] is an array, and [printNames] and [rolls] are
    [null] or an array.  (The other fields hold whatever JSON value the
    completion gave them, an object included.) *)
Theorem record_has_schema_keys (pd : object) (a u : value) (h : string)
    (r : object) :
  normalize pd a u h = Ok r ->
  keys r = schemaKeys /\
  (forall k, k ∈ schemaKeys -> get r k <> VUndefined) /\
  isArray (get r "images") = true /\
  (forall k, k = "printNames" \/ k = "rolls" ->
     get r k = VNull \/ isArray (get r k) = true).
Proof.
  intros H. split; [by eapply record_keys|].
  destruct (normalize_record _ _ _ _ _ _ H)
    as (pd' & url & rolls & Hp & -> & Hurl & Hrolls & _).
  apply urlLine_defined in Hurl. apply rollsLine_array_or_null in Hrolls.
  pose proof (prepare_images _ _ _ _ _ Hp) as Hi.
  pose proof (threeWay_array_or_null (get pd' "printNames")) as Hn.
  repeat split.
  - intros k Hk. unfold schemaKeys in Hk. set_unfold in Hk.
    destruct_or! Hk; subst k;
      first [ apply or_null_defined | apply orNull_defined | exact Hurl | idtac ].
    + change (threeWay (get pd' "printNames") <> VUndefined).
      by destruct Hn as [->|Hn]; [|intros E; rewrite E in Hn].
    + change (rolls <> VUndefined).
      by destruct Hrolls as [->|Hr]; [|intros E; rewrite E in Hr].
    + change ((if isArray (get pd' "images") then get pd' "images" else VArray [])
              <> VUndefined).
      rewrite Hi. intros E. by rewrite E in Hi.
  - change (isArray (if isArray (get pd' "images") then get pd' "images"
                     else VArray []) = true).
    by rewrite Hi.
  - intros k [-> | ->]; [exact Hn | exact Hrolls].
Qed.

(** C6.  The object literal [cleanedData] binds [printNames] and [rolls] by
    the three-way rule: an array of the parsed object is kept as it is,
    [null] is kept, and anything else (a value of another type, [undefined],
    a missing key) becomes the empty array.  [printNames] reaches the
    returned record unchanged, and so does a [rolls] that is not an array;
    the elements of a [rolls] array are then coerced one by one, which
    keeps their number. *)
Theorem printNames_and_rolls_three_way (pd : object) (a u : value) (h : string)
    (r : object) :
  normalize pd a u h = Ok r ->
  exists pd' cleaned,
    prepare pd a u = Ok pd' /\ cleanData pd' a = Ok cleaned /\
    coerceRolls cleaned = Ok r /\
    (forall k, k = "printNames" \/ k = "rolls" ->
       match get pd k with
       | VArray items => get cleaned k = VArray items
       | VNull => get cleaned k = VNull
       | _ => get cleaned k = VArray []
       end) /\
    get r "printNames" = get cleaned "printNames" /\
    match get pd "rolls" with
    | VArray items =>
        exists items', get r "rolls" = VArray items' /\
                       List.length items' = List.length items
    | _ => get r "rolls" = get cleaned "rolls"
    end.
Proof.
  intros H.
  destruct (normalize_Ok _ _ _ _ _ _ H)
    as (pd' & errors & cleaned & Hp & _ & _ & Hc & Hr).
  exists pd', cleaned. split_and!; try done.
  - apply cleanData_Ok in Hc as (url & -> & _).
    intros k [-> | ->].
    + change (get (cleanedData pd' url) "printNames")
        with (threeWay (get pd' "printNames")).
      rewrite (prepare_other _ _ _ _ _ _ Hp) by done. apply threeWay_cases.
    + change (get (cleanedData pd' url) "rolls")
        with (threeWay (get pd' "rolls")).
      rewrite (prepare_other _ _ _ _ _ _ Hp) by done. apply threeWay_cases.
  - apply cleanData_Ok in Hc as (url & -> & _).
    apply coerceRolls_cleanedData in Hr as (rolls & -> & _). reflexivity.
  - pose proof (record_rolls _ _ _ _ _ _ H) as Hrolls.
    apply cleanData_Ok in Hc as (url & -> & _).
    change (get (cleanedData pd' url) "rolls") with (threeWay (get pd' "rolls")).
    rewrite (prepare_other _ _ _ _ _ _ Hp) by done.
    destruct (get pd "rolls") as [| |b|q|t|items|o]; try exact Hrolls.
    destruct Hrolls as (items' & Hmap & Hget). exists items'.
    split; [exact Hget|]. by apply mapIndexed_Ok in Hmap as [Hlen _].
Qed.

End RecordClaims.

(** ** The validator *)

Section ValidatorFacts.
Import Js Regex Validator Spec.

Lemma matchHere_run (cls : atom) (n : nat) (s : string) (pos : nat) (g : caps) :
  matchHere false (replicate n (One cls) ++ [Eos]) s pos g
  = if Nat.eqb (String.length s) n && Str.all (accepts false cls) s
    then Some (pos + n, g) else None.
Proof.
  revert s pos. induction n as [|n IH]; intros [|c s] pos; cbn; try done.
  - by rewrite Nat.add_0_r.
  - destruct (accepts false cls c); [|by rewrite andb_false_r].
    rewrite IH. cbn. rewrite Nat.add_succ_r. done.
Qed.

Lemma accepts_asin_class (c : ascii) :
  accepts false (Between [("A"%char, "Z"%char); ("0"%char, "9"%char)]) c
  = Str.isUpper c || Str.isDigit c.
Proof.
  unfold accepts, inRanges, Str.isUpper, Str.isDigit. cbn [existsb fst snd andb].
  change (Str.code "A") with 65. change (Str.code "Z") with 90.
  change (Str.code "0") with 48. change (Str.code "9") with 57.
  by rewrite !orb_false_r.
Qed.

Lemma all_ext (p q : ascii -> bool) (s : string) :
  (forall c, p c = q c) -> Str.all p s = Str.all q s.
Proof. intros E. induction s as [|c s IH]; cbn; [done|]. by rewrite E, IH. Qed.

(** The pattern [/^[A-Z0-9]{10}$/] accepts the texts of [isAsin]. *)
Lemma test_reAsin (s : string) : test reAsin s = isAsin s.
Proof.
  unfold test, exec, tryAt, reAsin. cbn [bol icase body].
  rewrite matchHere_run, (all_ext _ _ _ accepts_asin_class). unfold isAsin.
  by destruct (_ && _).
Qed.

Lemma Qltb_true (a b : Q) : Qltb a b = true <-> ~ (b <= a)%Q.
Proof.
  unfold Qltb. rewrite negb_true_iff, <- not_true_iff_false, Qle_bool_iff. done.
Qed.

(** A range check fails on everything but [null] and the numbers of the
    range. *)
Lemma checkRange_fails (v : value) (max : Q) :
  negb (isNull v) && notInRange v max = true <-> v <> VNull /\ ~ inRange v max.
Proof.
  unfold inRange. destruct v as [| |b|q|s|l|o]; cbn;
    try (split; [intros _; split; [done|by intros (q' & ? & _)] | done]).
  - split; [done|by intros [? _]].
  - rewrite orb_true_iff, !Qltb_true. split.
    + intros H. split; [done|]. intros (q' & [= <-] & H1 & H2). tauto.
    + intros [_ H].
      destruct (Qlt_le_dec q 0) as [H0|H0]; [left; by apply Qlt_not_le|].
      destruct (Qlt_le_dec max q) as [H1|H1]; [right; by apply Qlt_not_le|].
      exfalso. apply H. eauto.
Qed.

Lemma checkType_fails (type : value) :
  truthy type && negb (isProductType type) = true
  <-> truthy type = true /\ forall t, t ∈ productTypes -> type <> VString t.
Proof.
  rewrite andb_true_iff, negb_true_iff. apply and_iff_compat_l.
  unfold isProductType. destruct type as [| |b|q|s|l|o];
    try (split; [by intros _ t _|done]).
  rewrite bool_decide_eq_false. split.
  - intros H t Ht [= ->]. done.
  - intros H Hs. by apply (H s).
Qed.

Section WithNumbers.
Variable Number_toString : Q -> string.
#[local] Abbreviation ToString := (ToString Number_toString).
#[local] Abbreviation validateProductData := (validateProductData Number_toString).

#[local] Abbreviation asinRejected := (asinRejected Number_toString).

Lemma asinRejected_true (asin : value) :
  asinRejected asin = true
  <-> truthy asin = true /\ exists s, ToString asin = Some s /\ isAsin s = false.
Proof.
  unfold Validator.asinRejected. rewrite andb_true_iff. apply and_iff_compat_l.
  destruct (ToString asin) as [s|]; rewrite ?test_reAsin.
  - rewrite negb_true_iff. split; [eauto|]. by intros (s' & [= <-] & ?).
  - split; [done|]. by intros (s' & ? & _).
Qed.

Lemma validateProductData_Ok (data : object) (errors : list string) :
  validateProductData data = Ok errors ->
  errors = report (asinRejected (get data "asin"))
                  (truthy (get data "type") && negb (isProductType (get data "type")))
                  (negb (isNull (get data "price")) && notInRange (get data "price") 100000)
                  (negb (isNull (get data "quantity")) && notInRange (get data "quantity") 100000)
                  (negb (isNull (get data "rollWidth")) && notInRange (get data "rollWidth") 100)
                  (negb (isNull (get data "rollLength")) && notInRange (get data "rollLength") 100).
Proof.
  unfold Validator.validateProductData, checkAsin, Validator.asinRejected,
    toStringOrThrow.
  intros H. apply bind_Ok in H as (asinErrors & Ha & H). injection H as <-.
  unfold report, checkType, checkRange. f_equal.
  destruct (truthy (get data "asin")); [|by injection Ha as <-].
  destruct (ToString (get data "asin")) as [s|]; [|done].
  cbn in Ha. injection Ha as <-. by destruct (test reAsin s).
Qed.

Lemma validateProductData_total (data : object) :
  (truthy (get data "asin") = true -> ToString (get data "asin") <> None) ->
  exists errors, validateProductData data = Ok errors.
Proof.
  unfold Validator.validateProductData, checkAsin, toStringOrThrow. intros H.
  destruct (truthy (get data "asin")); [|cbn; eauto].
  destruct (ToString (get data "asin")) as [s|]; [cbn; eauto|].
  by destruct H.
Qed.

Lemma validateProductData_throws (data : object) :
  truthy (get data "asin") = true -> ToString (get data "asin") = None ->
  validateProductData data = Throw TypeError.
Proof.
  unfold Validator.validateProductData, checkAsin, toStringOrThrow.
  by intros -> ->.
Qed.

End WithNumbers.

(** Each message is in the report exactly when its check fails, once, and
    nothing else is. *)
Lemma report_exact (b1 b2 b3 b4 b5 b6 : bool) :
  let errors := report b1 b2 b3 b4 b5 b6 in
  bool_decide (asinMessage ∈ errors) = b1 /\
  bool_decide (typeMessage ∈ errors) = b2 /\
  bool_decide (priceMessage ∈ errors) = b3 /\
  bool_decide (quantityMessage ∈ errors) = b4 /\
  bool_decide (rollWidthMessage ∈ errors) = b5 /\
  bool_decide (rollLengthMessage ∈ errors) = b6 /\
  bool_decide (NoDup errors) = true /\
  bool_decide (errors ⊆ allMessages) = true.
Proof.
  destruct b1, b2, b3, b4, b5, b6; vm_compute; repeat split.
Qed.

End ValidatorFacts.

(** ** Claims about the validator, the rolls and the block check *)

Section PipelineClaims.
Import Js Resolver Validator Spec.
Variable Number_toString : Q -> string.

#[local] Abbreviation ToString := (ToString Number_toString).
#[local] Abbreviation normalize := (normalize Number_toString).
#[local] Abbreviation validateProductData := (validateProductData Number_toString).

Lemma decided {P : Prop} `{Decision P} (b : bool) :
  bool_decide P = b -> (P <-> b = true).
Proof. intros <-. symmetry. apply bool_decide_eq_true. Qed.

(** C7, as the code has it.  The validator raises only when a truthy [asin]
    has no string conversion; otherwise it returns, each at most once and
    nothing else, the message of every failed check:
    - [asin], when truthy, is not ten characters among A-Z and 0-9 once
      converted to a string;
    - [type], when truthy, is none of the five types;
    - [price] and [quantity], when not [null], are not numbers in
      [0, 100000] (an absent field is not [null]);
    - [rollWidth] and [rollLength], when not [null], are not numbers in
      [0, 100].
    On a record whose other checked fields are null, a price of -5 gives
    the price message alone and a null price gives no message. *)
Theorem validator_reports_failed_checks (data : object) :
  ((truthy (get data "asin") = true -> ToString (get data "asin") <> None) ->
   exists errors, validateProductData data = Ok errors) /\
  forall errors, validateProductData data = Ok errors ->
    (asinMessage ∈ errors <->
       truthy (get data "asin") = true /\
       exists s, ToString (get data "asin") = Some s /\ isAsin s = false) /\
    (typeMessage ∈ errors <->
       truthy (get data "type") = true /\
       forall t, t ∈ productTypes -> get data "type" <> VString t) /\
    (priceMessage ∈ errors <->
       get data "price" <> VNull /\ ~ inRange (get data "price") 100000) /\
    (quantityMessage ∈ errors <->
       get data "quantity" <> VNull /\ ~ inRange (get data "quantity") 100000) /\
    (rollWidthMessage ∈ errors <->
       get data "rollWidth" <> VNull /\ ~ inRange (get data "rollWidth") 100) /\
    (rollLengthMessage ∈ errors <->
       get data "rollLength" <> VNull /\ ~ inRange (get data "rollLength") 100) /\
    NoDup errors /\ errors ⊆ allMessages /\
    (truthy (get data "asin") = false -> truthy (get data "type") = false ->
     get data "quantity" = VNull -> get data "rollWidth" = VNull ->
     get data "rollLength" = VNull ->
     (get data "price" = VNumber (-5) -> errors = [priceMessage]) /\
     (get data "price" = VNull -> errors = [])).
Proof.
  split; [apply validateProductData_total|].
  intros errors H. pose proof (validateProductData_Ok _ _ _ H) as E.
  match type of E with _ = report ?b1 ?b2 ?b3 ?b4 ?b5 ?b6 =>
    destruct (report_exact b1 b2 b3 b4 b5 b6)
      as (H1 & H2 & H3 & H4 & H5 & H6 & H7 & H8)
  end.
  cbv zeta in *. rewrite <- E in *.
  split_and!.
  - by rewrite (decided _ H1), asinRejected_true.
  - by rewrite (decided _ H2), checkType_fails.
  - by rewrite (decided _ H3), checkRange_fails.
  - by rewrite (decided _ H4), checkRange_fails.
  - by rewrite (decided _ H5), checkRange_fails.
  - by rewrite (decided _ H6), checkRange_fails.
  - by apply bool_decide_eq_true in H7.
  - by apply bool_decide_eq_true in H8.
  - intros Ha Ht Hq Hw Hl. rewrite E. unfold Validator.asinRejected.
    rewrite Ha, Ht, Hq, Hw, Hl. by split; intros ->.
Qed.

Lemma or_zero_sameNumber (onHand : value) :
  isNumber onHand = true \/ truthy onHand = false ->
  sameNumber (or onHand (VNumber 0))
             (if isNumber onHand then onHand else VNumber 0).
Proof.
  unfold or. intros [H|H].
  - destruct onHand as [| |b|q|s|l|o]; try done. cbn.
    destruct (Qeq_bool q 0) eqn:E; cbn; [|by left].
    right. exists 0%Q, q. repeat split. symmetry. by apply Qeq_bool_iff.
  - rewrite H. destruct onHand as [| |b|q|s|l|o]; cbn in *; try by left.
    right. exists 0%Q, q. repeat split. symmetry.
    apply Qeq_bool_iff. by destruct (Qeq_bool q 0).
Qed.

(** C4, as the code has it.  When a record is returned for a parsed object
    whose [rolls] is an array, its [rolls] is an array of the same length
    and its element number [i] is an object with the seven keys of a roll
    in which, reading the fields of the given element (all [undefined] when
    it is not an object):
    - [rollNumber] is the given number, else [i + 1];
    - [onHand] is the given number, else 0;
    - [maxArea] is the given number; else, when the given [onHand] is a
      number or is falsy, it equals the record's [onHand];
    - [image] and [printName] are the given value when it is truthy, else
      [null];
    - [hasReverseSide] is the given boolean, else false;
    - [pairedRollNumber] is the given number, else [null]. *)
Theorem rolls_coerced (pd : object) (a u : value) (h : string) (r : object)
    (rs : list value) :
  normalize pd a u h = Ok r -> get pd "rolls" = VArray rs ->
  exists rs',
    get r "rolls" = VArray rs' /\ List.length rs' = List.length rs /\
    forall i roll, rs !! i = Some roll ->
      exists roll',
        rs' !! i = Some (VObject roll') /\ keys roll' = rollKeys /\
        get roll' "rollNumber"
          = (if isNumber (field roll "rollNumber") then field roll "rollNumber"
             else position i) /\
        get roll' "onHand"
          = (if isNumber (field roll "onHand") then field roll "onHand"
             else VNumber 0) /\
        (isNumber (field roll "maxArea") = true ->
         get roll' "maxArea" = field roll "maxArea") /\
        (isNumber (field roll "maxArea") = false ->
         isNumber (field roll "onHand") = true \/ truthy (field roll "onHand") = false ->
         sameNumber (get roll' "maxArea") (get roll' "onHand")) /\
        get roll' "image"
          = (if truthy (field roll "image") then field roll "image" else VNull) /\
        get roll' "printName"
          = (if truthy (field roll "printName") then field roll "printName"
             else VNull) /\
        get roll' "hasReverseSide"
          = (if isBoolean (field roll "hasReverseSide")
             then field roll "hasReverseSide" else VBool false) /\
        get roll' "pairedRollNumber"
          = (if isNumber (field roll "pairedRollNumber")
             then field roll "pairedRollNumber" else VNull).
Proof.
  intros H Hrs. pose proof (record_rolls _ _ _ _ _ _ H) as Hr.
  rewrite Hrs in Hr. destruct Hr as (rs' & Hmap & Hget).
  apply mapIndexed_Ok in Hmap as [Hlen Hnth].
  exists rs'. repeat split; [done..|].
  intros i roll Hi. destruct (Hnth i roll Hi) as (y & Hy & Hc).
  apply coerceRoll_Ok in Hc as (_ & _ & ->). eexists. split; [exact Hy|].
  repeat split.
  - cbn. by intros ->.
  - intros Hm Ho. cbn. rewrite Hm. by apply or_zero_sameNumber.
Qed.

(** A roll that is [null] makes the whole normalisation throw. *)
Lemma null_roll_throws (pd : object) (a u : value) (h : string) (r : object)
    (rs : list value) :
  normalize pd a u h = Ok r -> get pd "rolls" = VArray rs ->
  (VNull ∉ rs) /\ (VUndefined ∉ rs).
Proof.
  intros H Hrs. pose proof (record_rolls _ _ _ _ _ _ H) as Hr.
  rewrite Hrs in Hr. destruct Hr as (rs' & Hmap & _).
  apply mapIndexed_Ok in Hmap as [_ Hnth].
  split; intros (i & Hi)%list_elem_of_lookup;
    destruct (Hnth i _ Hi) as (y & _ & Hy);
    apply coerceRoll_Ok in Hy as (? & ? & _); done.
Qed.

(** C3 at the input where the code leaves the claim: the parsed object has
    no [price] key and null [title] and [brand]; the page is a block page.
    The test [price !== null] holds of the missing price, the block phrases
    are not looked for, and the empty record is returned. *)
Theorem missing_price_skips_block_check :
  let productData := [("title", VNull); ("brand", VNull)] in
  let productHtml := "<html><body>Click the button below to continue shopping</body></html>" in
  isBlockPage productHtml = true /\
  hasProductData productData = true /\
  normalize productData VNull VNull productHtml
  = Ok (cleanedData [("images", VArray [])] VNull) /\
  get (cleanedData [("images", VArray [])] VNull) "title" = VNull /\
  get (cleanedData [("images", VArray [])] VNull) "price" = VNull /\
  get (cleanedData [("images", VArray [])] VNull) "brand" = VNull.
Proof. repeat split. Qed.

(** The same page with an explicit null price: the request is reported as
    blocked. *)
Lemma null_price_is_blocked :
  normalize [("title", VNull); ("price", VNull); ("brand", VNull)] VNull VNull
            "<html><body>Click the button below to continue shopping</body></html>"
  = Throw BlockedRequest.
Proof. reflexivity. Qed.

(** Everything but the block check throws a [TypeError]. *)
Lemma toStringOrThrow_throws (v : value) (e : error) :
  toStringOrThrow Number_toString v = Throw e -> e = TypeError.
Proof. unfold toStringOrThrow. destruct (ToString v); congruence. Qed.

Lemma prepare_throws (pd : object) (a u : value) (e : error) :
  prepare Number_toString pd a u = Throw e -> e = TypeError.
Proof.
  unfold prepare, ensureUrl, Resolver.dpUrl.
  repeat case_match; cbn; try congruence.
  destruct (toStringOrThrow Number_toString a) eqn:E; cbn; [congruence|].
  intros [= <-]. by eapply toStringOrThrow_throws.
Qed.

Lemma validateProductData_throws_TypeError (data : object) (e : error) :
  validateProductData data = Throw e -> e = TypeError.
Proof.
  unfold Validator.validateProductData, checkAsin.
  case_match; cbn; [|congruence].
  destruct (toStringOrThrow Number_toString _) eqn:E; cbn; [congruence|].
  intros [= <-]. by eapply toStringOrThrow_throws.
Qed.

Lemma cleanData_throws (pd : object) (a : value) (e : error) :
  cleanData Number_toString pd a = Throw e -> e = TypeError.
Proof.
  unfold cleanData, Resolver.dpUrl. repeat case_match; cbn; try congruence.
  destruct (toStringOrThrow Number_toString a) eqn:E; cbn; [congruence|].
  intros [= <-]. by eapply toStringOrThrow_throws.
Qed.

Lemma mapIndexed_coerceRoll_throws (i : nat) (rs : list value) (e : error) :
  mapIndexed coerceRoll i rs = Throw e -> e = TypeError.
Proof.
  revert i. induction rs as [|x rs IH]; intros i; cbn; [done|].
  destruct (coerceRoll i x) as [y|e0] eqn:Ey; cbn.
  - destruct (mapIndexed coerceRoll (S i) rs) eqn:El; cbn; [done|].
    intros [= <-]. by eapply IH.
  - intros [= <-]. destruct x; cbn in Ey; congruence.
Qed.

Lemma coerceRolls_throws (cleaned : object) (e : error) :
  coerceRolls cleaned = Throw e -> e = TypeError.
Proof.
  unfold coerceRolls. case_match; try congruence.
  destruct (mapIndexed coerceRoll 0 _) eqn:E; cbn; [congruence|].
  intros [= <-]. by eapply mapIndexed_coerceRoll_throws.
Qed.

Lemma hasProductData_prepare (pd pd' : object) (a u : value) :
  prepare Number_toString pd a u = Ok pd' -> hasProductData pd' = hasProductData pd.
Proof.
  intros H. unfold hasProductData.
  by rewrite !(prepare_other _ _ _ _ _ _ H).
Qed.

(** When the pipeline reports a blocked request. *)
Lemma normalize_blocked (pd : object) (a u : value) (h : string) :
  normalize pd a u h = Throw BlockedRequest <->
  (exists pd' errors,
     prepare Number_toString pd a u = Ok pd' /\
     validateProductData pd' = Ok errors) /\
  truthy (get pd "title") = false /\ get pd "price" = VNull /\
  truthy (get pd "brand") = false /\ isBlockPage h = true.
Proof.
  unfold Resolver.normalize.
  destruct (prepare Number_toString pd a u) as [pd'|e] eqn:E; cbn.
  2:{ apply prepare_throws in E as ->. split; [done|]. by intros [(? & ? & ? & _) _]. }
  destruct (validateProductData pd') as [errors|e] eqn:Ev; cbn.
  2:{ pose proof (validateProductData_throws_TypeError _ _ Ev) as ->.
      split; [done|]. intros [(? & ? & [= <-] & ?) _]. congruence. }
  rewrite (hasProductData_prepare _ _ _ _ E).
  assert (negb (hasProductData pd) && isBlockPage h = true <->
          truthy (get pd "title") = false /\ get pd "price" = VNull /\
          truthy (get pd "brand") = false /\ isBlockPage h = true) as Hb.
  { unfold hasProductData.
    rewrite andb_true_iff, negb_true_iff, !orb_false_iff, negb_false_iff.
    destruct (get pd "price"); cbn; intuition congruence. }
  destruct (negb (hasProductData pd) && isBlockPage h).
  - split; [|done]. intros _. split; [eauto|]. by apply Hb.
  - split; [|intros [_ H]; by apply Hb in H].
    destruct (cleanData Number_toString pd' a) as [cleaned|e] eqn:Ec; cbn;
      [|apply cleanData_throws in Ec as ->; done].
    destruct (coerceRolls cleaned) as [r|e] eqn:Er; [done|].
    apply coerceRolls_throws in Er as ->; done.
Qed.

(** No object without an explicit null price is ever reported as blocked. *)
Lemma never_blocked_without_null_price (pd : object) (a u : value) (h : string) :
  get pd "price" <> VNull -> normalize pd a u h <> Throw BlockedRequest.
Proof. intros Hp H. apply normalize_blocked in H. tauto. Qed.

(** When a record is returned: the conversions to a string succeed, the
    request is not reported as blocked, and no roll is [null] or
    [undefined]. *)
Lemma normalize_total (pd : object) (a u : value) (h : string) :
  ToString a <> None -> ToString (get pd "asin") <> None ->
  hasProductData pd = true \/ isBlockPage h = false ->
  (forall rs, get pd "rolls" = VArray rs -> (VNull ∉ rs) /\ (VUndefined ∉ rs)) ->
  exists r, normalize pd a u h = Ok r.
Proof.
  intros Ha Hasin Hblock Hrolls.
  destruct (ToString a) as [sa|] eqn:Esa; [clear Ha|done].
  assert (dpUrl Number_toString a
          = Ok (VString ("https://www.amazon.com/dp/" +:+ sa))) as Hdp.
  { unfold dpUrl, toStringOrThrow. by rewrite Esa. }
  assert (exists pd', prepare Number_toString pd a u = Ok pd') as [pd' Hp].
  { unfold prepare, ensureUrl. rewrite Hdp.
    repeat case_match; cbn; eauto. }
  assert (exists errors, validateProductData pd' = Ok errors) as [errors Hv].
  { apply validateProductData_total. intros _.
    rewrite (prepare_asin _ _ _ _ _ Hp).
    repeat case_match; congruence. }
  assert (exists cleaned url, cleanData Number_toString pd' a = Ok cleaned
                              /\ cleaned = cleanedData pd' url)
    as (cleaned & url & Hc & ->).
  { unfold cleanData. rewrite Hdp. repeat case_match; cbn; eauto. }
  unfold Resolver.normalize. rewrite Hp. cbn [mbind result_bind].
  rewrite Hv. cbn [mbind result_bind].
  rewrite (hasProductData_prepare _ _ _ _ Hp).
  assert (negb (hasProductData pd) && isBlockPage h = false) as ->.
  { destruct Hblock as [-> | ->]; [done|apply andb_false_r]. }
  rewrite Hc. cbn [mbind result_bind]. unfold coerceRolls.
  change (get (cleanedData pd' url) "rolls") with (threeWay (get pd' "rolls")).
  rewrite (prepare_other _ _ _ _ _ "rolls" Hp) by done.
  destruct (get pd "rolls") as [| |b|q|s|rs|o] eqn:Er; cbn; eauto.
  destruct (Hrolls rs eq_refl) as [Hn Hu].
  destruct (mapIndexed_total coerceRoll 0 rs) as [rs' ->]; [|cbn; eauto].
  intros j x Hj. apply coerceRoll_total; intros ->;
    [apply Hn|apply Hu]; by eapply list_elem_of_lookup_2.
Qed.

(** C5 at an input where the code leaves the claim: a roll whose [onHand]
    is the string 22.  The first pass sets [onHand] to 0 but takes [maxArea]
    from the uncoerced [onHand]; the second pass, on the record of the
    first, turns that [maxArea] into 0. *)
Theorem renormalizing_changes_maxArea :
  let productData :=
    [("title", VString "Gift wrap");
     ("rolls", VArray [VObject [("onHand", VString "22")]])] in
  exists first second roll1 roll2,
    normalize productData VNull VNull EmptyString = Ok first /\
    normalize first VNull VNull EmptyString = Ok second /\
    get first "rolls" = VArray [VObject roll1] /\
    get second "rolls" = VArray [VObject roll2] /\
    get roll1 "onHand" = VNumber 0 /\ get roll1 "maxArea" = VString "22" /\
    get roll2 "onHand" = VNumber 0 /\ get roll2 "maxArea" = VNumber 0 /\
    first <> second.
Proof.
  cbv zeta. do 4 eexists. repeat split; try reflexivity. discriminate.
Qed.

End PipelineClaims.

(** ** Normalising a returned record again *)

Section Renormalize.
Import Js Resolver Validator.
Variable Number_toString : Q -> string.

#[local] Abbreviation ToString := (ToString Number_toString).
#[local] Abbreviation prepare := (prepare Number_toString).
#[local] Abbreviation cleanData := (cleanData Number_toString).
#[local] Abbreviation normalize := (normalize Number_toString).
#[local] Abbreviation validateProductData := (validateProductData Number_toString).

Lemma or_null_idem (v : value) : or (or v VNull) VNull = or v VNull.
Proof. unfold or. destruct (truthy v) eqn:E; [by rewrite E|done]. Qed.

Lemma orNull_idem (v : value) : orNull (orNull v) = orNull v.
Proof. by destruct v. Qed.

Lemma threeWay_idem (v : value) : threeWay (threeWay v) = threeWay v.
Proof. by destruct v. Qed.

Lemma images_idem (v : value) :
  let images := if isArray v then v else VArray [] in
  (if isArray images then images else VArray []) = images.
Proof. by destruct v. Qed.

Lemma ensureAsin_id (pd : object) (a : value) :
  truthy (get pd "asin") = true \/ truthy a = false -> ensureAsin pd a = pd.
Proof. unfold ensureAsin. intros [-> | ->]; [done|by rewrite andb_false_r]. Qed.

Lemma ensureUrl_id (pd : object) (u a : value) :
  truthy (get pd "url") = true \/ (truthy u = false /\ truthy a = false) ->
  ensureUrl Number_toString pd u a = Ok pd.
Proof.
  unfold ensureUrl. intros [-> | [-> ->]]; [done|by rewrite !andb_false_r].
Qed.

Lemma ensureImages_id (pd : object) :
  isArray (get pd "images") = true -> ensureImages pd = pd.
Proof. unfold ensureImages. by intros ->. Qed.

Lemma rollsLine_threeWay (pd' : object) (rolls : value) :
  rollsLine pd' rolls -> threeWay rolls = rolls.
Proof.
  intros [-> | H]%rollsLine_array_or_null; [done|]. by destruct rolls.
Qed.

(** A coerced roll whose [maxArea] is a number is left as it is. *)
Lemma coerceRoll_again (i j : nat) (roll y : value) :
  coerceRoll i roll = Ok y -> isNumber (field y "maxArea") = true ->
  coerceRoll j y = Ok y.
Proof.
  intros (_ & _ & ->)%coerceRoll_Ok. cbn -[or]. intros Hm.
  unfold coerceRoll. cbn -[or]. rewrite Hm, !or_null_idem. do 3 f_equal.
  { by destruct (isNumber (field roll "rollNumber")) eqn:E; rewrite ?E. }
  f_equal. { by destruct (isNumber (field roll "onHand")) eqn:E; rewrite ?E. }
  do 4 f_equal.
  { by destruct (isBoolean (field roll "hasReverseSide")) eqn:E; rewrite ?E. }
  f_equal.
  by destruct (isNumber (field roll "pairedRollNumber")) eqn:E; rewrite ?E.
Qed.

Lemma mapIndexed_coerceRoll_again (i : nat) (rs rs' : list value) :
  mapIndexed coerceRoll i rs = Ok rs' ->
  Forall (fun y => isNumber (field y "maxArea") = true) rs' ->
  mapIndexed coerceRoll i rs' = Ok rs'.
Proof.
  revert i rs'. induction rs as [|x rs IH]; intros i rs'; cbn.
  - by intros [= <-].
  - intros H. apply bind_Ok in H as (y & Hy & H).
    apply bind_Ok in H as (ys & Hys & H). injection H as <-.
    intros [Hm Hrest]%Forall_cons. cbn.
    rewrite (coerceRoll_again _ _ _ _ Hy Hm). cbn.
    by rewrite (IH _ _ Hys Hrest).
Qed.

(** X20. Outside the two defects met above (a [maxArea] taken from an
    [onHand] that is not a number; a missing [price] on a block page),
    normalising a returned record again returns the same record. *)
Lemma renormalize_same (pd : object) (a u : value) (h : string) (r : object) :
  normalize pd a u h = Ok r ->
  numericMaxArea r ->
  hasProductData r = true \/ isBlockPage h = false ->
  normalize r a u h = Ok r.
Proof.
  intros H Hmax Hblock.
  destruct (normalize_Ok _ _ _ _ _ _ H)
    as (pd' & errors & cleaned & Hp & Hv & _ & _ & _).
  destruct (normalize_record _ _ _ _ _ _ H)
    as (pd0 & url & rolls & Hp0 & -> & Hurl & Hrolls & _).
  rewrite Hp in Hp0. injection Hp0 as <-.
  set (R := set (cleanedData pd' url) "rolls" rolls) in *.
  pose proof (prepare_asin _ _ _ _ _ Hp) as Hasin.
  pose proof (prepare_url _ _ _ _ _ Hp) as Hu.
  (* the fallbacks leave the record alone *)
  assert (truthy (get pd' "asin") = false -> truthy a = false) as Ha.
  { intros E. destruct (truthy a) eqn:Ea; [|done]. revert Hasin.
    destruct (truthy (get pd "asin")) eqn:E1; congruence. }
  assert (truthy url = false ->
          truthy a = false /\ truthy u = false /\ url = VNull) as Hnull.
  { intros E. unfold Resolver.urlLine in Hurl. revert Hurl Hu.
    destruct (truthy (get pd' "url")) eqn:E1; [congruence|].
    destruct (truthy a) eqn:Ea.
    { intros Hurl%dpUrl_truthy. congruence. }
    intros -> Hu. split_and!; [done| |done]. revert Hu.
    destruct (truthy (get pd "url")) eqn:E2; [congruence|].
    destruct (truthy u) eqn:Eu; [congruence|done]. }
  assert (prepare R a u = Ok R) as HpR.
  { unfold Resolver.prepare. rewrite ensureAsin_id, ensureUrl_id.
    - cbn [mbind result_bind]. rewrite ensureImages_id; [done|].
      change (get R "images")
        with (if isArray (get pd' "images") then get pd' "images" else VArray []).
      pose proof (prepare_images _ _ _ _ _ Hp) as Hi. by rewrite Hi.
    - change (get R "url") with url.
      destruct (truthy url) eqn:E; [by left|]. right.
      by destruct (Hnull eq_refl) as (-> & -> & _).
    - change (get R "asin") with (or (get pd' "asin") VNull). unfold or.
      destruct (truthy (get pd' "asin")) eqn:E; [left; by rewrite E|].
      right. by apply Ha. }
  assert (exists errors', validateProductData R = Ok errors') as [errors' HvR].
  { apply validateProductData_total.
    change (get R "asin") with (or (get pd' "asin") VNull). unfold or.
    destruct (truthy (get pd' "asin")) eqn:E; [|done]. intros _ Hn.
    by rewrite (validateProductData_throws _ _ E Hn) in Hv. }
  assert (cleanData R a = Ok R) as HcR.
  { unfold Resolver.cleanData. change (get R "url") with url.
    assert ((if truthy url then Ok url
             else if truthy a then dpUrl Number_toString a else Ok VNull)
            = Ok url) as ->.
    { destruct (truthy url) eqn:E; [done|].
      by destruct (Hnull eq_refl) as (-> & _ & ->). }
    cbn [mbind result_bind]. f_equal. unfold cleanedData at 1.
    change (get R "asin") with (or (get pd' "asin") VNull).
    change (get R "type") with (or (get pd' "type") VNull).
    change (get R "title") with (or (get pd' "title") VNull).
    change (get R "price") with (orNull (get pd' "price")).
    change (get R "brand") with (or (get pd' "brand") VNull).
    change (get R "description") with (or (get pd' "description") VNull).
    change (get R "size") with (or (get pd' "size") VNull).
    change (get R "quantity") with (orNull (get pd' "quantity")).
    change (get R "dimensions") with (or (get pd' "dimensions") VNull).
    change (get R "rollLength") with (orNull (get pd' "rollLength")).
    change (get R "rollWidth") with (orNull (get pd' "rollWidth")).
    change (get R "printNames") with (threeWay (get pd' "printNames")).
    change (get R "rolls") with rolls.
    change (get R "thumbnail") with (or (get pd' "thumbnail") VNull).
    change (get R "images")
      with (if isArray (get pd' "images") then get pd' "images" else VArray []).
    rewrite !or_null_idem, !orNull_idem, threeWay_idem, images_idem.
    by rewrite (rollsLine_threeWay _ _ Hrolls). }
  unfold Resolver.normalize. rewrite HpR. cbn [mbind result_bind].
  rewrite HvR. cbn [mbind result_bind].
  assert (negb (hasProductData R) && isBlockPage h = false) as ->.
  { destruct Hblock as [-> | ->]; [done|apply andb_false_r]. }
  rewrite HcR. cbn [mbind result_bind].
  unfold coerceRolls. change (get R "rolls") with rolls.
  unfold Resolver.numericMaxArea in Hmax. change (get R "rolls") with rolls in Hmax.
  unfold rollsLine in Hrolls.
  destruct (threeWay (get pd' "rolls")) eqn:Et;
    try (rewrite Hrolls; done).
  destruct Hrolls as (rs' & Hmap & ->).
  by rewrite (mapIndexed_coerceRoll_again _ _ _ Hmap Hmax).
Qed.

End Renormalize.

(** ** The product details of the section extractor *)

Section DetailsClaims.
Import Extractor.

Lemma storeRows_lookup (heading : string) (rows : list (string * string))
    (m : gmap string string) :
  heading <> "__proto__" ->
  storeRows rows m !! heading
  = match lastValue heading rows with
    | Some v => Some v
    | None => m !! heading
    end.
Proof.
  intros Hh. revert m. induction rows as [|[k v] rows IH]; intros m; [done|].
  unfold storeRows in *. cbn [foldl lastValue fst snd]. rewrite IH.
  destruct (lastValue heading rows) as [v'|]; [done|].
  unfold setDetail. destruct (String.eqb_spec k "__proto__") as [->|Hk].
  - by destruct (String.eqb_spec "__proto__" heading) as [<-|].
  - destruct (String.eqb_spec k heading) as [->|Hne].
    + apply lookup_insert_eq.
    + by apply lookup_insert_ne.
Qed.

Lemma lastValue_elem_of (heading v : string) (rows : list (string * string)) :
  lastValue heading rows = Some v -> (heading, v) ∈ rows.
Proof.
  induction rows as [|[k w] rows IH]; cbn; [done|].
  destruct (lastValue heading rows) as [v'|].
  - intros [= <-]. right. by apply IH.
  - destruct (String.eqb_spec k heading) as [->|]; [|done].
    intros [= <-]. left.
Qed.

Lemma lastValue_is_Some (heading v : string) (rows : list (string * string)) :
  (heading, v) ∈ rows -> is_Some (lastValue heading rows).
Proof.
  induction rows as [|[k w] rows IH]; [by intros ?%elem_of_nil|].
  intros [[= <- <-]|H]%elem_of_cons; cbn.
  - destruct (lastValue heading rows); [eauto|]. rewrite String.eqb_refl. eauto.
  - destruct (IH H) as [v' ->]. eauto.
Qed.

(** A row headed [__proto__] stores nothing. *)
Lemma storeRows_proto (rows : list (string * string)) (m : gmap string string) :
  storeRows rows m !! "__proto__" = m !! "__proto__".
Proof.
  revert m. induction rows as [|[k v] rows IH]; intros m; [done|].
  unfold storeRows in *. cbn [foldl fst snd]. rewrite IH.
  unfold setDetail. destruct (String.eqb_spec k "__proto__") as [->|Hk]; [done|].
  by apply lookup_insert_ne.
Qed.

(** C1, as the code has it.  When both containers are found, the fallback
    table is stored after the primary one into the same mapping, and a later
    row overwrites an earlier row of the same heading: a heading of the
    fallback table, other than [__proto__], is bound to the value of its
    last fallback row, whatever the primary table gave it; only a heading
    that the fallback table does not have keeps the value of the primary
    table.  The heading [__proto__] is the exception: a row of that heading
    stores nothing, in either table, and the mapping never binds it. *)
Theorem fallback_rows_overwrite_primary (html t1 t2 heading : string) :
  primaryTable html = Some t1 -> fallbackTable html = Some t2 ->
  exists m,
    productDetails (extractProductText html) = Some m /\
    m !! heading = (if String.eqb heading "__proto__" then None
                    else match lastValue heading (tableRows t2) with
                         | Some v => Some v
                         | None => lastValue heading (tableRows t1)
                         end) /\
    (heading <> "__proto__" ->
     forall v1 v2,
       (heading, v1) ∈ tableRows t1 -> (heading, v2) ∈ tableRows t2 ->
       exists v, (heading, v) ∈ tableRows t2 /\ m !! heading = Some v).
Proof.
  intros H1 H2. cbn [extractProductText productDetails].
  unfold extractProductDetails. rewrite H1, H2. cbn [fmap option_fmap option_map default].
  eexists. split; [reflexivity|]. unfold id.
  destruct (String.eqb_spec heading "__proto__") as [->|Hh].
  { split; [|done]. by rewrite !storeRows_proto, lookup_empty. }
  rewrite storeRows_lookup by done.
  rewrite storeRows_lookup, lookup_empty by done.
  split; [by destruct (lastValue heading (tableRows t1))|].
  intros _ v1 v2 _ [v Hv]%lastValue_is_Some. rewrite Hv.
  exists v. split; [by apply lastValue_elem_of|done].
Qed.

End DetailsClaims.

(** ** The fences around the completion (step 1 of the resolver) *)

Section Fences.
Import Regex Resolver Spec.

Lemma drop_add (a b : nat) (s : string) : Str.drop (a + b) s = Str.drop b (Str.drop a s).
Proof.
  revert s. induction a as [|a IH]; intros s; [done|].
  destruct s as [|c s]; cbn; [by destruct b|]. apply IH.
Qed.

Lemma drop_length (s : string) : Str.drop (String.length s) s = EmptyString.
Proof. induction s as [|c s IH]; [done|]. exact IH. Qed.

Lemma drop_leading (s : string) : Str.drop (Str.leading s) s = Str.trimStart s.
Proof.
  induction s as [|c s IH]; [done|]. cbn -[Str.isSpace].
  by destruct (Str.isSpace c).
Qed.

Lemma append_empty_r (s : string) : s +:+ EmptyString = s.
Proof. induction s as [|c s IH]; [done|]. by rewrite <- IH at 2. Qed.

Lemma dropPrefix_drop (i : bool) (p s rest : string) :
  dropPrefix i p s = Some rest -> Str.drop (String.length p) s = rest.
Proof.
  revert s. induction p as [|x p IH]; intros [|c s]; cbn -[sameChar];
    try congruence.
  destruct (sameChar i x c); [apply IH|done].
Qed.

(** A literal at the head of a pattern consumes that prefix of the text. *)
Lemma matchHere_lit (i : bool) (p : string) (r : list item) (s : string)
    (pos : nat) (g : caps) :
  matchHere i (lit p ++ r) s pos g
  = match dropPrefix i p s with
    | Some rest => matchHere i r rest (pos + String.length p) g
    | None => None
    end.
Proof.
  revert s pos. induction p as [|x p IH]; intros s pos.
  - cbn. by rewrite Nat.add_0_r.
  - destruct s as [|c s]; [done|].
    change (matchHere i (lit (String x p) ++ r) (String c s) pos g)
      with (if sameChar i x c then matchHere i (lit p ++ r) s (S pos) g else None).
    cbn -[sameChar]. destruct (sameChar i x c); [|done].
    rewrite IH. by rewrite Nat.add_succ_r.
Qed.

(** A final [\s*] consumes the white space at the start of the text. *)
Lemma matchHere_spaces (i : bool) (s : string) (pos : nat) (g : caps) :
  matchHere i [Star Space] s pos g = Some (pos + Str.leading s, g).
Proof.
  revert pos. induction s as [|c s IH]; intros pos.
  - cbn. by rewrite Nat.add_0_r.
  - cbn -[Str.isSpace]. rewrite IH. destruct (Str.isSpace c).
    + by rewrite Nat.add_succ_r.
    + by rewrite Nat.add_0_r.
Qed.

(** What [replace] with an anchored fence pattern does. *)
Lemma removeFirst_opening (tag : string) (s : string) :
  removeFirst (Re true true (lit tag ++ [Star Space])) s
  = match dropPrefix true tag s with
    | Some rest => Str.trimStart rest
    | None => s
    end.
Proof.
  unfold removeFirst, exec, tryAt. cbn [bol icase body].
  rewrite matchHere_lit.
  destruct (dropPrefix true tag s) as [rest|] eqn:E; [|done].
  rewrite matchHere_spaces. cbn. rewrite drop_add.
  by rewrite (dropPrefix_drop _ _ _ _ E), drop_leading.
Qed.

Lemma space_not_backtick (c : ascii) :
  Str.isSpace c = true -> sameChar true "`" c = false.
Proof.
  destruct c as [[] [] [] [] [] [] [] []]; vm_compute; congruence.
Qed.

Lemma sameChar_backtick (c : ascii) : sameChar true "`" c = Ascii.eqb c "`".
Proof. destruct c as [[] [] [] [] [] [] [] []]; reflexivity. Qed.

(** The text is exactly the closing fence. *)
Lemma matchHere_fence_end (t : string) (pos : nat) (g : caps) :
  matchHere true (lit "```" ++ [Eos]) t pos g
  = if String.eqb t "```" then Some (pos + 3, g) else None.
Proof.
  rewrite matchHere_lit.
  destruct t as [|c1 [|c2 [|c3 t]]]; cbn -[sameChar Ascii.eqb]; try done;
    rewrite ?sameChar_backtick;
    repeat (destruct (Ascii.eqb _ "`"); [|done]); try done.
  by destruct t.
Qed.

(** The closing pattern matches a text made of white space and the fence. *)
Lemma matchHere_closing (s : string) (pos : nat) (g : caps) :
  matchHere true ([Star Space] ++ lit "```" ++ [Eos]) s pos g
  = if String.eqb (Str.trimStart s) "```"
    then Some (pos + String.length s, g) else None.
Proof.
  revert pos. induction s as [|c s IH]; intros pos; [done|].
  change (matchHere true ([Star Space] ++ lit "```" ++ [Eos]) (String c s) pos g)
    with (if Str.isSpace c
          then match matchHere true ([Star Space] ++ lit "```" ++ [Eos]) s (S pos) g with
               | Some m => Some m
               | None => matchHere true (lit "```" ++ [Eos]) (String c s) pos g
               end
          else matchHere true (lit "```" ++ [Eos]) (String c s) pos g).
  cbn [Str.trimStart]. destruct (Str.isSpace c) eqn:Hc.
  - rewrite IH. destruct (String.eqb (Str.trimStart s) "```").
    + cbn. by rewrite Nat.add_succ_r.
    + rewrite matchHere_lit. cbn -[sameChar]. by rewrite space_not_backtick.
  - rewrite matchHere_fence_end.
    destruct (String.eqb_spec (String c s) "```") as [->|]; done.
Qed.

Lemma searchFrom_closing (s : string) (start : nat) :
  (fun m => (index m, stop m)) <$> searchFrom reFenceClose s start
  = (fun k => (start + k, start + String.length s)) <$> closingAt s.
Proof.
  revert start. induction s as [|c s IH]; intros start.
  - reflexivity.
  - cbn [searchFrom closingAt]. unfold tryAt, reFenceClose. cbn [icase body].
    rewrite matchHere_closing.
    destruct (String.eqb (Str.trimStart (String c s)) "```").
    + cbn. by rewrite Nat.add_0_r.
    + cbn [fmap option_fmap option_map]. fold reFenceClose. rewrite IH.
      destruct (closingAt s) as [k|]; cbn; [|done].
      do 2 f_equal; lia.
Qed.

Lemma removeFirst_closing (s : string) :
  removeFirst reFenceClose s
  = match closingAt s with
    | Some k => Str.take k s
    | None => s
    end.
Proof.
  unfold removeFirst, exec. cbn [bol reFenceClose].
  pose proof (searchFrom_closing s 0) as H.
  destruct (searchFrom reFenceClose s 0) as [m|], (closingAt s) as [k|];
    try discriminate H; [|done].
  injection H as -> ->. by rewrite drop_length, append_empty_r.
Qed.

Lemma trimStart_fence (s : string) :
  Str.trimStart s = "```" ->
  dropSuffix "```" s = Some (Str.take (Str.leading s) s) /\
  Str.trimEnd (Str.take (Str.leading s) s) = EmptyString.
Proof.
  induction s as [|c s IH]; [done|]. cbn -[Str.isSpace String.eqb].
  destruct (Str.isSpace c) eqn:Hc.
  - intros H. destruct (IH H) as [H1 H2].
    destruct (String.eqb_spec (String c s) "```") as [E|_].
    { injection E as -> _. vm_compute in Hc. discriminate Hc. }
    rewrite H1. cbn -[Str.isSpace]. by rewrite H2, Hc.
  - intros ->. done.
Qed.

Lemma dropSuffix_cons (c : ascii) (s : string) :
  String c s <> "```" ->
  dropSuffix "```" (String c s) = String c <$> dropSuffix "```" s.
Proof.
  intros H. cbn -[String.eqb]. by destruct (String.eqb_spec (String c s) "```").
Qed.

Lemma dropSuffix_spaces (s body : string) :
  dropSuffix "```" s = Some body -> Str.trimEnd body = EmptyString ->
  Str.trimStart s = "```".
Proof.
  revert body. induction s as [|c s IH]; intros body.
  - done.
  - cbn -[String.eqb Str.isSpace].
    destruct (String.eqb_spec (String c s) "```") as [E|_].
    { injection E as -> ->. intros _ _. reflexivity. }
    destruct (dropSuffix "```" s) as [b|] eqn:Hb; [|done].
    intros [= <-]. cbn -[Str.isSpace].
    destruct (Str.trimEnd b) eqn:Hte; [|done].
    destruct (Str.isSpace c); [|done]. intros _. by eapply IH.
Qed.

(** The closing fence, in the words of [unfence]. *)
Lemma closingAt_dropSuffix (s : string) :
  match closingAt s with
  | Some k => Str.take k s
  | None => s
  end
  = match dropSuffix "```" s with
    | Some body => Str.trimEnd body
    | None => s
    end.
Proof.
  induction s as [|c s IH]; [done|].
  cbn [closingAt].
  destruct (String.eqb_spec (Str.trimStart (String c s)) "```") as [E|E].
  - destruct (trimStart_fence _ E) as [-> ->]. done.
  - assert (String c s <> "```") as Hne.
    { intros H. rewrite H in E. done. }
    rewrite dropSuffix_cons by done.
    destruct (closingAt s) as [k|], (dropSuffix "```" s) as [body|] eqn:Hb;
      cbn -[Str.isSpace] in *.
    + rewrite IH. destruct (Str.trimEnd body) eqn:Hte; [|done].
      destruct (Str.isSpace c) eqn:Hc; [|done].
      exfalso. apply E. by eapply dropSuffix_spaces.
    + by rewrite IH.
    + rewrite <- IH. destruct s; [discriminate Hb|done].
    + done.
Qed.

(** The three replacements remove the fences of [unfence]. *)
Lemma stripFences_unfence (responseText : string) :
  stripFences responseText = unfence responseText.
Proof.
  unfold stripFences, unfence, reFenceJson, reFenceOpen.
  by rewrite removeFirst_closing, closingAt_dropSuffix, !removeFirst_opening.
Qed.

End Fences.

(** ** Claims about the completion text *)

Section TextClaims.
Import Js Regex Resolver Spec.
Variable Number_toString : Q -> string.
Variable JSON_parse : string -> object + string.

#[local] Abbreviation normalize := (normalize Number_toString).
#[local] Abbreviation resolve := (resolve Number_toString JSON_parse).

(** C8.  Once the response is trimmed and its fences (an opening one with
    or without the json tag, a closing one) are removed, the text handed to
    the parser is the span from the first opening brace through the last
    closing brace; when there is no such span, and in particular when the
    response has no opening or no closing brace at all, the resolution
    fails with the no-JSON-found error. *)
Theorem json_span_first_to_last_brace (responseText : string)
    (productAsin productUrl : value) (productHtml : string) :
  extractJsonText responseText = braceSpan (unfence responseText) /\
  (forall jsonText, braceSpan (unfence responseText) = Some jsonText ->
     resolve responseText productAsin productUrl productHtml
     = match JSON_parse jsonText with
       | inl productData => normalize productData productAsin productUrl productHtml
       | inr message => Throw (MalformedJson message)
       end) /\
  (braceSpan (unfence responseText) = None ->
     resolve responseText productAsin productUrl productHtml = Throw NoJsonFound) /\
  (indexOf "{"%char responseText = None \/ indexOf "}"%char responseText = None ->
     resolve responseText productAsin productUrl productHtml = Throw NoJsonFound).
Proof.
  pose proof (extractJsonText_braceSpan responseText) as E.
  rewrite <- stripFences_unfence.
  split_and!; [done|..]; unfold Resolver.resolve; rewrite E.
  - by intros jsonText ->.
  - by intros ->.
  - intros H. rewrite braceSpan_no_brace; [done|].
    destruct H as [H|H]; [left|right]; by apply indexOf_stripFences_None.
Qed.

End TextClaims.

(** ** Concrete runs *)

Section Runs.
Import Js Regex Extractor Validator Resolver Spec Sample.

#[local] Abbreviation normalize := (normalize integerText).
#[local] Abbreviation validateProductData := (validateProductData integerText).

(** A fenced completion is parsed after the fences are removed. *)
Example fenced_completion :
  let fence := "```" in
  let text := fence +:+ "json" +:+ String Str.LF ("{}" +:+ String Str.LF fence) in
  extractJsonText text = Some "{}" /\
  resolve integerText parseEmptyObject text fallbackAsin VNull EmptyString
  = normalize [] fallbackAsin VNull EmptyString.
Proof. split; reflexivity. Qed.

Example span_is_greedy :
  extractJsonText "Here it is: {a{b}c} and } more" = Some "{a{b}c} and }".
Proof. reflexivity. Qed.

(** C1 fails on [Sample.page]: both containers have a [Brand] row, and the
    mapping holds the value of the fallback container, not the value of the
    primary one. *)
Lemma primary_value_is_overwritten :
  tableRows <$> primaryTable page = Some [("Brand", "Acme"); ("Color", "Red")] /\
  tableRows <$> fallbackTable page = Some [("Brand", "Zenith"); ("Size", "88 sqft")] /\
  productDetails (extractProductText page) ≫= (.!! "Brand") = Some "Zenith" /\
  productDetails (extractProductText page) ≫= (.!! "Brand") <> Some "Acme".
Proof. vm_compute. split_and!; [reflexivity..|discriminate]. Qed.

Lemma fallback_rows_overwrite_primary_witness :
  primaryTable page = Some primaryBody /\
  fallbackTable page = Some fallbackBody /\
  "Brand" <> "__proto__" /\
  (exists m, productDetails (extractProductText page) = Some m /\
             m !! "Brand" = Some "Zenith") /\
  primaryTable Examples.protoPage = Some Examples.protoPrimaryBody /\
  fallbackTable Examples.protoPage = Some Examples.protoFallbackBody /\
  tableRows Examples.protoFallbackBody
  = [("__proto__", "Zenith"); ("Size", "88 sqft")] /\
  exists m, productDetails (extractProductText Examples.protoPage) = Some m /\
            m !! "__proto__" = None /\ m !! "Size" = Some "88 sqft".
Proof.
  assert (primaryTable page = Some primaryBody) as H1 by (vm_compute; reflexivity).
  assert (fallbackTable page = Some fallbackBody) as H2 by (vm_compute; reflexivity).
  assert ("Brand" <> "__proto__") as H3 by discriminate.
  assert (primaryTable Examples.protoPage = Some Examples.protoPrimaryBody) as P1
    by (vm_compute; reflexivity).
  assert (fallbackTable Examples.protoPage = Some Examples.protoFallbackBody) as P2
    by (vm_compute; reflexivity).
  split_and!; [exact H1|exact H2|exact H3| |exact P1|exact P2|vm_compute; reflexivity|].
  - destruct (fallback_rows_overwrite_primary page primaryBody fallbackBody "Brand"
                H1 H2) as (m & Hm & Hv & _).
    exists m. split; [exact Hm|]. rewrite Hv. vm_compute. reflexivity.
  - destruct (fallback_rows_overwrite_primary Examples.protoPage
                Examples.protoPrimaryBody Examples.protoFallbackBody "__proto__"
                P1 P2) as (m & Hm & Hv & _).
    exists m. split_and!; [exact Hm|exact Hv|].
    destruct (fallback_rows_overwrite_primary Examples.protoPage
                Examples.protoPrimaryBody Examples.protoFallbackBody "Size"
                P1 P2) as (m' & Hm' & Hv' & _).
    rewrite Hm in Hm'. injection Hm' as <-. rewrite Hv'. vm_compute. reflexivity.
Defined.

(** C2 fails on a present but empty [title], which becomes [null], and on an
    absent [asin] when the caller gave one, which does not become [null]. *)
Lemma empty_title_becomes_null :
  let productData := [("title", VString EmptyString); ("price", VNumber 0)] in
  hasOwn productData "title" = true /\
  get productData "title" = VString EmptyString /\
  (fun r => get r "title") <$> normalize productData VNull VNull EmptyString
  = Ok VNull /\
  hasOwn productData "asin" = false /\
  (fun r => get r "asin") <$> normalize productData fallbackAsin VNull EmptyString
  = Ok (VString "B08XYZ1234").
Proof. split_and!; reflexivity. Qed.

Lemma normalize_completion :
  normalize completion fallbackAsin VNull EmptyString = Ok record.
Proof. vm_compute. reflexivity. Defined.

Lemma scalar_fields_normalized_witness :
  normalize completion fallbackAsin VNull EmptyString = Ok record /\
  get record "price" = VNumber 0 /\ get record "brand" = VNull /\
  get record "asin" = VString "B08XYZ1234".
Proof.
  destruct (scalar_fields_normalized integerText completion fallbackAsin VNull
              EmptyString record normalize_completion) as (Hd & Ht & Ha & _).
  split_and!.
  - exact normalize_completion.
  - exact (Hd "price" ltac:(unfold definedOrNull; set_solver)).
  - exact (Ht "brand" ltac:(unfold truthyOrNull; set_solver)).
  - exact Ha.
Defined.

Lemma asin_and_url_backfilled_witness :
  normalize completion fallbackAsin VNull EmptyString = Ok record /\
  truthy (get completion "asin") = false /\ truthy fallbackAsin = true /\
  get record "asin" = VString "B08XYZ1234" /\
  exists s, ToString integerText fallbackAsin = Some s /\
            get record "url" = VString ("https://www.amazon.com/dp/" +:+ s).
Proof.
  destruct (asin_and_url_backfilled integerText completion fallbackAsin VNull
              EmptyString record normalize_completion eq_refl eq_refl)
    as (Ha & Hu).
  split_and!; [exact normalize_completion|reflexivity|reflexivity|exact Ha|].
  exact (proj2 (Hu eq_refl) eq_refl).
Defined.

(** C10 fails on a [title] that is an object: the record binds [title] to
    that object, which is neither null, a boolean, a number, a string nor an
    array. *)
Lemma object_title_is_kept :
  let productData := [("title", VObject [("en", VString "Gift wrap")])] in
  (fun r => get r "title") <$> normalize productData VNull VNull EmptyString
  = Ok (VObject [("en", VString "Gift wrap")]) /\
  (fun r => isObject (get r "title"))
    <$> normalize productData VNull VNull EmptyString
  = Ok true.
Proof. split; reflexivity. Qed.

Lemma record_has_schema_keys_witness :
  normalize completion fallbackAsin VNull EmptyString = Ok record /\
  keys record = schemaKeys /\ isArray (get record "images") = true.
Proof.
  destruct (record_has_schema_keys integerText completion fallbackAsin VNull
              EmptyString record normalize_completion) as (Hk & _ & Hi & _).
  split_and!; [exact normalize_completion|exact Hk|exact Hi].
Defined.

Lemma printNames_and_rolls_three_way_witness :
  normalize completion fallbackAsin VNull EmptyString = Ok record /\
  exists cleaned,
    get cleaned "printNames" = VNull /\
    get cleaned "rolls" = get completion "rolls" /\
    get record "printNames" = get cleaned "printNames".
Proof.
  split; [exact normalize_completion|].
  destruct (printNames_and_rolls_three_way integerText completion fallbackAsin
              VNull EmptyString record normalize_completion)
    as (pd' & cleaned & _ & _ & _ & Hk & Hp & _).
  exists cleaned. split_and!.
  - exact (Hk "printNames" (or_introl eq_refl)).
  - exact (Hk "rolls" (or_intror eq_refl)).
  - exact Hp.
Defined.

(** C4 fails on these rolls.  For the first array, the empty [image] given
    is replaced by [null], and [maxArea] is the uncoerced [onHand], which is
    neither a number nor the [onHand] of the record.  For the second, the
    null element makes the normalisation throw: no record is returned. *)
Lemma rolls_not_coerced_as_stated :
  (fun r => get r "rolls")
    <$> normalize [("rolls", VArray [VObject [("onHand", VString "22");
                                              ("image", VString EmptyString)]])]
                  VNull VNull EmptyString
  = Ok (VArray [VObject [("rollNumber", VNumber 1); ("onHand", VNumber 0);
                         ("maxArea", VString "22"); ("image", VNull);
                         ("printName", VNull); ("hasReverseSide", VBool false);
                         ("pairedRollNumber", VNull)]]) /\
  normalize [("rolls", VArray [VNull])] VNull VNull EmptyString = Throw TypeError.
Proof. split; reflexivity. Qed.

Lemma rolls_coerced_witness :
  normalize completion fallbackAsin VNull EmptyString = Ok record /\
  exists rs roll',
    get record "rolls" = VArray rs /\ List.length rs = 2 /\
    rs !! 1 = Some (VObject roll') /\
    get roll' "rollNumber" = VNumber 2 /\ get roll' "onHand" = VNumber 0.
Proof.
  split; [exact normalize_completion|].
  destruct (rolls_coerced integerText completion fallbackAsin VNull EmptyString
              record _ normalize_completion eq_refl) as (rs & Hr & Hl & Hn).
  destruct (Hn 1 (VString "roll") eq_refl) as (roll' & H1 & _ & H2 & H3 & _).
  exists rs, roll'. split_and!; [exact Hr|exact Hl|exact H1|exact H2|exact H3].
Defined.

(** C7 fails on these records: an empty [asin] is not [null] and is not ten
    alphanumeric characters, yet nothing is reported; ten lower-case
    alphanumeric characters are reported; an [asin] that is an object with a
    [toString] property makes the validator raise. *)
Lemma validator_not_as_stated :
  let others := [("type", VNull); ("price", VNull); ("quantity", VNull);
                 ("rollWidth", VNull); ("rollLength", VNull)] in
  validateProductData (("asin", VString EmptyString) :: others) = Ok [] /\
  VString EmptyString <> VNull /\ String.length EmptyString <> 10 /\
  validateProductData (("asin", VString "b08xyz1234") :: others) = Ok [asinMessage] /\
  String.length "b08xyz1234" = 10 /\
  Str.all (fun c => Str.isLower c || Str.isUpper c || Str.isDigit c) "b08xyz1234" = true /\
  validateProductData (("asin", VObject [("toString", VNull)]) :: others)
  = Throw TypeError.
Proof. split_and!; first [reflexivity | discriminate]. Qed.

Lemma validator_reports_failed_checks_witness :
  validateProductData negativePrice = Ok [priceMessage] /\
  (priceMessage ∈ [priceMessage] <->
   get negativePrice "price" <> VNull /\ ~ inRange (get negativePrice "price") 100000).
Proof.
  assert (validateProductData negativePrice = Ok [priceMessage]) as H
    by reflexivity.
  split; [exact H|].
  exact (proj1 (proj2 (proj2
           (proj2 (validator_reports_failed_checks integerText negativePrice)
                  [priceMessage] H)))).
Defined.

Lemma json_span_first_to_last_brace_witness :
  indexOf "{"%char "Sorry, I cannot help with that." = None /\
  resolve integerText parseEmptyObject "Sorry, I cannot help with that."
          fallbackAsin VNull EmptyString
  = Throw NoJsonFound.
Proof.
  split; [reflexivity|].
  exact (proj2 (proj2 (proj2
           (json_span_first_to_last_brace integerText parseEmptyObject
              "Sorry, I cannot help with that." fallbackAsin VNull EmptyString)))
         (or_introl eq_refl)).
Defined.

End Runs.

(** ** ASIN extraction: [extractAsin] of [src/amazon-fetcher.js] *)

Section AsinPatterns.
Import Js Regex Fetcher Spec.

Lemma append_assoc (a b c : string) : (a +:+ b) +:+ c = a +:+ (b +:+ c).
Proof.
  induction a as [|x a IH]; [done|].
  change (String x ((a +:+ b) +:+ c) = String x (a +:+ (b +:+ c))).
  by rewrite IH.
Qed.

Lemma take_drop (n : nat) (s : string) : Str.take n s +:+ Str.drop n s = s.
Proof.
  revert s. induction n as [|n IH]; intros [|c s]; try done.
  change (String c (Str.take n s +:+ Str.drop n s) = String c s).
  by rewrite IH.
Qed.

Lemma length_take (n : nat) (s : string) :
  String.length (Str.take n s) = Nat.min n (String.length s).
Proof.
  revert s. induction n as [|n IH]; intros [|c s]; try done.
  cbn. by rewrite IH.
Qed.

Lemma lit_app (a b : string) : lit (a +:+ b) = (lit a ++ lit b)%list.
Proof.
  induction a as [|x a IH]; [done|].
  change (One (Chr x) :: lit (a +:+ b) = One (Chr x) :: (lit a ++ lit b)%list).
  by rewrite IH.
Qed.

Lemma dropPrefix_exact (p s rest : string) :
  dropPrefix false p s = Some rest -> s = p +:+ rest.
Proof.
  revert s. induction p as [|x p IH]; intros s.
  - cbn. by intros [= <-].
  - destruct s as [|c s]; cbn; [done|].
    destruct (Ascii.eqb_spec x c) as [->|]; [|done].
    intros H. change (String c s = String c (p +:+ rest)). by rewrite (IH _ H).
Qed.

Lemma dropPrefix_append (p rest : string) :
  dropPrefix false p (p +:+ rest) = Some rest.
Proof.
  induction p as [|x p IH]; [done|].
  change (dropPrefix false (String x p) (String x (p +:+ rest)) = Some rest).
  cbn. by rewrite Ascii.eqb_refl.
Qed.

(** A run of [n] characters of one class at the head of a pattern. *)
Lemma matchHere_class_run (cls : atom) (n : nat) (r : list item) (s : string)
    (pos : nat) (g : caps) :
  matchHere false (replicate n (One cls) ++ r) s pos g
  = if Nat.leb n (String.length s) && Str.all (accepts false cls) (Str.take n s)
    then matchHere false r (Str.drop n s) (pos + n) g else None.
Proof.
  revert s pos. induction n as [|n IH]; intros s pos.
  - cbn. by rewrite Nat.add_0_r.
  - destruct s as [|c s]; [done|].
    change (matchHere false (replicate (S n) (One cls) ++ r) (String c s) pos g)
      with (if accepts false cls c
            then matchHere false (replicate n (One cls) ++ r) s (S pos) g else None).
    cbn -[accepts]. destruct (accepts false cls c); [|by rewrite andb_false_r].
    rewrite IH. by rewrite Nat.add_succ_r.
Qed.

(** The group [([A-Z0-9]{10})] takes the next ten characters when they are
    upper-case letters and digits. *)
Lemma asinGroup_match (s : string) (pos : nat) (g : caps) :
  matchHere false asinGroup s pos g
  = if isAsin (Str.take 10 s)
    then Some (pos + 10, Caps pos (Some (pos, pos + 10))) else None.
Proof.
  unfold asinGroup.
  change (matchHere false ([Open] ++ ?r) s pos g)
    with (matchHere false r s pos (Caps pos (span g))).
  rewrite matchHere_class_run, (all_ext _ _ _ accepts_asin_class).
  unfold isAsin. rewrite length_take.
  assert (Nat.leb 10 (String.length s)
          = Nat.eqb (Nat.min 10 (String.length s)) 10) as ->.
  { destruct (Nat.leb_spec 10 (String.length s)) as [H|H]; symmetry;
      [apply Nat.eqb_eq|apply Nat.eqb_neq]; lia. }
  by destruct (_ && _).
Qed.

(** Where a pattern [PATH/ASIN] matches at the start of a text. *)
Lemma tryAt_pathThenAsin (path s : string) (start : nat) :
  tryAt (pathThenAsin path) s start
  = match dropPrefix false (path +:+ "/") s with
    | Some rest =>
        if isAsin (Str.take 10 rest)
        then Some (Found (Str.take (String.length (path +:+ "/") + 10) s)
                         (Str.take 10 rest) start
                         (start + (String.length (path +:+ "/") + 10)))
        else None
    | None => None
    end.
Proof.
  unfold tryAt, pathThenAsin. cbn [icase body].
  rewrite app_assoc, <- lit_app, matchHere_lit.
  destruct (dropPrefix false (path +:+ "/") s) as [rest|] eqn:E; [|done].
  rewrite asinGroup_match. destruct (isAsin (Str.take 10 rest)); [|done].
  cbn. unfold Str.slice. rewrite (dropPrefix_drop _ _ _ _ E).
  by replace (String.length (path +:+ "/") + 10 - String.length (path +:+ "/"))
    with 10 by lia.
Qed.

(** A match of [PATH/ASIN]: its group is a well-formed ASIN and follows the
    path in the text. *)
Lemma tryAt_pathThenAsin_Some (path s : string) (start : nat) (m : found) :
  tryAt (pathThenAsin path) s start = Some m ->
  isAsin (group m) = true /\
  exists post, s = path +:+ "/" +:+ group m +:+ post.
Proof.
  rewrite tryAt_pathThenAsin.
  destruct (dropPrefix false (path +:+ "/") s) as [rest|] eqn:E; [|done].
  destruct (isAsin (Str.take 10 rest)) eqn:Ea; [|done].
  intros H.
  assert (group m = Str.take 10 rest) as -> by (by injection H as <-).
  split; [done|]. exists (Str.drop 10 rest).
  rewrite take_drop, <- append_assoc. by apply dropPrefix_exact.
Qed.

Lemma tryAt_pathThenAsin_append (path a post : string) (start : nat) :
  isAsin a = true ->
  exists m, tryAt (pathThenAsin path) (path +:+ "/" +:+ a +:+ post) start = Some m
            /\ group m = a.
Proof.
  intros Ha. rewrite tryAt_pathThenAsin, <- append_assoc, dropPrefix_append.
  assert (Str.take 10 (a +:+ post) = a) as ->.
  { unfold isAsin in Ha. apply andb_true_iff in Ha as [Hl%Nat.eqb_eq _].
    do 11 (destruct a as [|? a]; try done). }
  rewrite Ha. eauto.
Qed.

Lemma isAsin_not_empty (a : string) : isAsin a = true -> Str.isEmpty a = false.
Proof. by destruct a. Qed.

Lemma tryAny_Some (bs : list regex) (s : string) (start : nat) (m : found) :
  tryAny bs s start = Some m -> exists re, re ∈ bs /\ tryAt re s start = Some m.
Proof.
  induction bs as [|re bs IH]; [done|]. cbn.
  destruct (tryAt re s start) as [m'|] eqn:E.
  - intros [= <-]. exists re. split; [left|done].
  - intros (re' & ? & ?)%IH. exists re'. split; [by right|done].
Qed.

Lemma tryAny_elem (bs : list regex) (re : regex) (s : string) (k k' : nat)
    (m : found) :
  re ∈ bs -> tryAt re s k = Some m -> exists m', tryAny bs s k' = Some m'.
Proof.
  intros Hin Hm. induction Hin as [re bs|re re' bs Hin IH]; cbn.
  - unfold tryAt in *. destruct (matchHere _ _ _ _ _); [cbn; eauto|done].
  - destruct (tryAt re' s k'); eauto.
Qed.

Lemma searchAny_Some (bs : list regex) (s : string) (start : nat) (m : found) :
  searchAny bs s start = Some m ->
  exists pre rest re, s = pre +:+ rest /\ re ∈ bs /\
                      tryAt re rest (start + String.length pre) = Some m.
Proof.
  revert start. induction s as [|c s IH]; intros start; cbn.
  - destruct (tryAny bs EmptyString start) as [m'|] eqn:E; [|done].
    intros [= <-]. apply tryAny_Some in E as (re & ? & ?).
    exists EmptyString, EmptyString, re. by rewrite Nat.add_0_r.
  - destruct (tryAny bs (String c s) start) as [m'|] eqn:E.
    + intros [= <-]. apply tryAny_Some in E as (re & ? & ?).
      exists EmptyString, (String c s), re. by rewrite Nat.add_0_r.
    + intros (pre & rest & re & -> & ? & H)%IH.
      exists (String c pre), rest, re. split_and!; [done..|].
      cbn. by rewrite Nat.add_succ_r.
Qed.

Lemma searchAny_here (bs : list regex) (s : string) (k : nat) (m : found) :
  tryAny bs s k = Some m -> searchAny bs s k = Some m.
Proof. intros H. destruct s; cbn; by rewrite H. Qed.

Lemma searchAny_later (bs : list regex) (c : ascii) (s : string) (k k' : nat)
    (m : found) :
  searchAny bs s k = Some m -> exists m', searchAny bs (String c s) k' = Some m'.
Proof.
  intros H. cbn. destruct (tryAny bs (String c s) k') as [m'|]; [eauto|].
  clear -H. revert k k' H. induction s as [|x s IH]; intros k k'; cbn.
  - destruct (tryAny bs EmptyString k) as [m0|] eqn:E; [|done]. intros _.
    apply tryAny_Some in E as (re & Hin & E).
    destruct (tryAny_elem _ _ _ _ (S k') _ Hin E) as [m' ->]. eauto.
  - destruct (tryAny bs (String x s) k) as [m0|] eqn:E.
    + intros _. apply tryAny_Some in E as (re & Hin & E).
      destruct (tryAny_elem _ _ _ _ (S k') _ Hin E) as [m' ->]. eauto.
    + intros H. destruct (tryAny bs (String x s) (S k')); [eauto|].
      by eapply IH.
Qed.

(** What the search for [/PATH/ASIN] finds, the search for [PATH/ASIN] finds
    too (not later). *)
Lemma searchAny_without_slash (bs : list regex) (path s : string) (k k' : nat)
    (m : found) :
  pathThenAsin path ∈ bs ->
  searchAny [pathThenAsin (String "/" path)] s k = Some m ->
  exists m', searchAny bs s k' = Some m'.
Proof.
  intros Hin. revert k k'. induction s as [|c s IH]; intros k k'.
  - cbn [searchAny tryAny]. by rewrite tryAt_pathThenAsin.
  - change (searchAny [pathThenAsin (String "/" path)] (String c s) k)
      with (match tryAny [pathThenAsin (String "/" path)] (String c s) k with
            | Some m => Some m
            | None => searchAny [pathThenAsin (String "/" path)] s (S k)
            end).
    destruct (tryAny _ (String c s) k) as [m0|] eqn:E.
    + intros _. apply tryAny_Some in E as (re & ->%list_elem_of_singleton & E).
      rewrite tryAt_pathThenAsin in E.
      change (dropPrefix false (String "/" path +:+ "/") (String c s))
        with (if Ascii.eqb "/" c then dropPrefix false (path +:+ "/") s else None)
        in E.
      destruct (Ascii.eqb "/" c); [|done].
      destruct (dropPrefix false (path +:+ "/") s) as [rest|] eqn:Ep; [|done].
      destruct (isAsin (Str.take 10 rest)) eqn:Ea; [|done].
      assert (exists m1, tryAt (pathThenAsin path) s (S k') = Some m1) as [m1 H1].
      { rewrite tryAt_pathThenAsin, Ep, Ea. eauto. }
      destruct (tryAny_elem _ _ _ _ (S k') _ Hin H1) as [m2 H2].
      eapply searchAny_later, searchAny_here, H2.
    + intros (m' & H)%(IH _ (S k')). by eapply searchAny_later.
Qed.

(** X1. Whatever [extractAsin] returns is [null] or a well-formed ASIN: ten
    upper-case letters and digits, which the pattern of the validator and
    of [fetchAmazonPage] accepts. *)
Theorem extractAsin_is_wellformed (url v : value) :
  extractAsin url = Ok v ->
  v = VNull \/
  exists asin, v = VString asin /\ isAsin asin = true /\
               test Validator.reAsin asin = true.
Proof.
  unfold extractAsin. destruct (truthy url); cbn [negb]; [|intros [= <-]; by left].
  destruct url as [| | | |s| |]; try done.
  destruct (firstAsin asinPatterns s) as [a|] eqn:E; intros [= <-]; [right|by left].
  exists a. rewrite test_reAsin. split; [done|].
  assert (isAsin a = true) as ->; [|done].
  assert (forall bs, bs ∈ asinPatterns ->
                     forall re, re ∈ bs -> exists path, re = pathThenAsin path) as Hall.
  { intros bs Hbs re Hre. unfold asinPatterns in Hbs. set_unfold.
    destruct_or! Hbs; subst bs; set_unfold; destruct_or! Hre; subst re; eauto. }
  revert E Hall. generalize asinPatterns. intros ps.
  induction ps as [|bs ps IH]; [done|]. intros E Hall. cbn in E.
  assert (forall m, searchAny bs s 0 = Some m -> isAsin (group m) = true) as Hm.
  { intros m (pre & rest & re & _ & Hre & Ht)%searchAny_Some.
    destruct (Hall bs (list_elem_of_here _ _) re Hre) as [path ->].
    by apply tryAt_pathThenAsin_Some in Ht as [? _]. }
  destruct (searchAny bs s 0) as [m|].
  - rewrite (isAsin_not_empty _ (Hm m eq_refl)) in E. injection E as <-. by apply Hm.
  - apply IH; [done|]. intros bs' Hbs'. apply Hall. by right.
Qed.

(** X2. The ASIN that [extractAsin] returns stands in the URL right after
    [dp/] or [product/]. *)
Theorem extractAsin_follows_path (url asin : string) :
  extractAsin (VString url) = Ok (VString asin) ->
  exists pre path post,
    path ∈ ["dp"; "product"] /\ url = pre +:+ path +:+ "/" +:+ asin +:+ post.
Proof.
  unfold extractAsin. destruct (truthy (VString url)); [cbn [negb]|done].
  destruct (firstAsin asinPatterns url) as [a|] eqn:E; [|done].
  intros H. assert (a = asin) as -> by congruence. clear H. rename asin into a.
  assert (exists bs m, bs ∈ asinPatterns /\ searchAny bs url 0 = Some m
                       /\ group m = a) as (bs & m & Hbs & Hm & <-).
  { revert E. generalize asinPatterns. intros ps.
    induction ps as [|bs ps IH]; [done|]. cbn.
    destruct (searchAny bs url 0) as [m|] eqn:Em.
    - destruct (Str.isEmpty (group m)).
      + intros (bs' & m' & ? & ?)%IH. exists bs', m'. split; [by right|done].
      + intros [= <-]. exists bs, m. split; [left|done].
    - intros (bs' & m' & ? & ?)%IH. exists bs', m'. split; [by right|done]. }
  apply searchAny_Some in Hm as (pre & rest & re & -> & Hre & Ht).
  assert (exists before path, path ∈ ["dp"; "product"] /\
                              re = pathThenAsin (before +:+ path))
    as (before & path & Hpath & ->).
  { unfold asinPatterns in Hbs. set_unfold.
    destruct_or! Hbs; subst bs; set_unfold; destruct_or! Hre; subst re.
    - exists EmptyString, "dp". split; [|done]. set_solver.
    - exists EmptyString, "product". split; [|done]. set_solver.
    - exists "gp/", "product". split; [|done]. set_solver.
    - exists "/", "dp". split; [|done]. set_solver.
    - exists "/", "product". split; [|done]. set_solver.
    - exists "/gp/", "product". split; [|done]. set_solver. }
  apply tryAt_pathThenAsin_Some in Ht as [_ [post ->]].
  exists (pre +:+ before), path, post. split; [done|].
  by rewrite !append_assoc.
Qed.

(** X3. The last three patterns of [extractAsin] never decide: a URL in
    which the first pattern finds nothing has no match of the others, so
    the result is that of the first pattern alone. *)
Theorem extractAsin_first_pattern_decides (url : string) :
  firstAsin asinPatterns url = firstAsin [reAnyPath] url.
Proof.
  unfold asinPatterns. cbn [firstAsin].
  destruct (searchAny reAnyPath url 0) as [m|] eqn:E.
  { apply searchAny_Some in E as (pre & rest & re & _ & Hre & Ht).
    assert (exists path, re = pathThenAsin path) as [path ->].
    { unfold reAnyPath in Hre. set_unfold. destruct_or! Hre; subst re; eauto. }
    apply tryAt_pathThenAsin_Some in Ht as [Ha _].
    by rewrite (isAsin_not_empty _ Ha). }
  assert (forall path, pathThenAsin path ∈ reAnyPath ->
            searchAny [pathThenAsin (String "/" path)] url 0 = None) as Hnone.
  { intros path Hin.
    destruct (searchAny [pathThenAsin (String "/" path)] url 0) as [m|] eqn:Em;
      [|done].
    destruct (searchAny_without_slash _ _ _ _ 0 _ Hin Em) as [m' Hm'].
    congruence. }
  unfold reDp, reProduct, reGpProduct.
  rewrite (Hnone "dp"), (Hnone "product"), (Hnone "gp/product");
    unfold reAnyPath; set_solver.
Qed.

Lemma firstAsin_canonical (asin rest : string) :
  isAsin asin = true ->
  firstAsin asinPatterns ("https://www.amazon.com/dp/" +:+ asin +:+ rest) = Some asin.
Proof.
  intros Ha.
  destruct (tryAt_pathThenAsin_append "dp" asin rest 23 Ha) as (m & Hm & Hg).
  unfold asinPatterns. cbn [firstAsin].
  assert (searchAny reAnyPath ("https://www.amazon.com/dp/" +:+ asin +:+ rest) 0
          = searchAny reAnyPath ("dp" +:+ "/" +:+ asin +:+ rest) 23) as -> by done.
  rewrite (searchAny_here _ _ _ m).
  - by rewrite Hg, (isAsin_not_empty _ Ha).
  - unfold reAnyPath. cbn [tryAny]. by rewrite Hm.
Qed.

(** X4. Round trip: the address that the code composes for a well-formed
    ASIN, with anything after it, gives that ASIN back. *)
Theorem extractAsin_of_canonical_url (Number_toString : Q -> string)
    (asin rest : string) :
  isAsin asin = true ->
  Resolver.dpUrl Number_toString (VString asin)
  = Ok (VString ("https://www.amazon.com/dp/" +:+ asin)) /\
  extractAsin (VString ("https://www.amazon.com/dp/" +:+ asin +:+ rest))
  = Ok (VString asin).
Proof.
  intros Ha. split; [done|]. unfold extractAsin.
  by rewrite (firstAsin_canonical _ _ Ha).
Qed.

End AsinPatterns.

(** ** The page fetcher: [fetchAmazonPage] of [src/amazon-fetcher.js] *)

Section FetchFacts.
Import Js Regex Fetcher Spec.
Variable Number_toString : Q -> string.
Variable URL_valid : string -> bool.
Variable axios_get : string -> reply.

#[local] Abbreviation ToString := (ToString Number_toString).
#[local] Abbreviation target := (target Number_toString URL_valid).
#[local] Abbreviation checkAsin := (checkAsin Number_toString).
#[local] Abbreviation fetchAmazonPage :=
  (fetchAmazonPage Number_toString URL_valid axios_get).

Lemma checkAsin_malformed (asin : value) (s : string) :
  truthy asin = true -> ToString asin = Some s -> isAsin s = false ->
  checkAsin asin = Some InvalidAsinFormat.
Proof.
  intros Ht Hs Ha. unfold Fetcher.checkAsin. by rewrite Ht, Hs, test_reAsin, Ha.
Qed.

Lemma checkAsin_None (asin : value) :
  checkAsin asin = None ->
  truthy asin = true -> exists a, ToString asin = Some a /\ isAsin a = true.
Proof.
  unfold Fetcher.checkAsin. intros H Ht. rewrite Ht in H.
  destruct (ToString asin) as [a|]; [|done]. rewrite test_reAsin in H.
  exists a. by destruct (isAsin a).
Qed.

Lemma givenUrl_Some (url : value) (fetchUrl : string) :
  givenUrl URL_valid url = Some fetchUrl ->
  exists s, url = VString s /\ URL_valid s = true /\ fetchUrl = Str.trim s /\
            Str.isEmpty fetchUrl = false.
Proof.
  destruct url as [| | | |s| |]; try done. cbn [givenUrl].
  destruct (Str.isEmpty s); [done|].
  destruct (Str.isEmpty (Str.trim s)) eqn:Et; [done|].
  destruct (URL_valid s) eqn:Ev; [|done]. intros [= <-]. by exists s.
Qed.

(** X5. A malformed ASIN stops [fetchAmazonPage] before the request, also
    when the URL given with it is valid: the answer does not depend on the
    URL nor on the network. *)
Theorem malformed_asin_stops_fetch (url asin : value) (s : string) :
  truthy asin = true -> ToString asin = Some s -> isAsin s = false ->
  fetchAmazonPage url asin = inr InvalidAsinFormat.
Proof.
  intros Ht Hs Ha. unfold Fetcher.fetchAmazonPage.
  rewrite (checkAsin_malformed _ _ Ht Hs Ha).
  unfold Fetcher.target. rewrite Ht, Hs. by destruct (givenUrl URL_valid url).
Qed.

(** X6. A page that [fetchAmazonPage] returns is the body answered for one
    of two addresses: the trimmed URL of the caller, which then parses, or
    the address composed from the ASIN, from which [extractAsin] gives the
    ASIN back.  An ASIN given with the URL is well formed. *)
Theorem fetched_page_source (url asin : value) (html : string) :
  fetchAmazonPage url asin = inl html ->
  (exists fetchUrl,
     axios_get fetchUrl = Page html /\
     ((exists s, url = VString s /\ URL_valid s = true /\ fetchUrl = Str.trim s) \/
      (exists a, ToString asin = Some a /\
                 fetchUrl = "https://www.amazon.com/dp/" +:+ a /\
                 extractAsin (VString fetchUrl) = Ok (VString a)))) /\
  (truthy asin = true -> exists a, ToString asin = Some a /\ isAsin a = true).
Proof.
  unfold Fetcher.fetchAmazonPage.
  destruct (target url asin) as [fetchUrl|e] eqn:Et; [|done].
  destruct (checkAsin asin) as [e|] eqn:Ec; [done|].
  pose proof (checkAsin_None _ Ec) as Hasin.
  unfold request. destruct (axios_get fetchUrl) as [data| | |] eqn:Eg; try done.
  intros [= <-]. split; [|done]. exists fetchUrl. split; [done|].
  unfold Fetcher.target in Et.
  destruct (givenUrl URL_valid url) as [u|] eqn:Eu.
  - injection Et as <-. left.
    apply givenUrl_Some in Eu as (s & ? & ? & ? & _). by exists s.
  - destruct (truthy asin) eqn:Ea; [|done].
    destruct (Hasin eq_refl) as (a & Hs & Hw). rewrite Hs in Et.
    injection Et as <-. right. exists a. split_and!; [done..|].
    unfold extractAsin. cbn [truthy negb Str.isEmpty].
    pose proof (firstAsin_canonical a EmptyString Hw) as H.
    rewrite append_empty_r in H. by rewrite H.
Qed.

End FetchFacts.

(** ** The whole run: [parseAmazonProduct] of [src/parser.js] and the route
    of [server.js] *)

Section ParseFacts.
Import Js Regex Fetcher Parser Resolver Spec.
Variable Number_toString : Q -> string.
Variable JSON_parse : string -> object + string.
Variable JSON_stringify : value -> string.
Variable URL_valid : string -> bool.

#[local] Abbreviation ToString := (ToString Number_toString).
#[local] Abbreviation normalize := (normalize Number_toString).
#[local] Abbreviation resolve := (resolve Number_toString JSON_parse).
#[local] Abbreviation urlFromAsin := (urlFromAsin Number_toString).
#[local] Abbreviation checkedUrl := (checkedUrl URL_valid).
#[local] Abbreviation promptConversions := (promptConversions Number_toString).
#[local] Abbreviation completionText := (completionText JSON_stringify).

Lemma resolve_Ok (text : string) (a u : value) (h : string) (r : object) :
  resolve text a u h = Ok r -> exists pd, normalize pd a u h = Ok r.
Proof.
  unfold Resolver.resolve. destruct (extractJsonText text) as [j|]; [|done].
  destruct (JSON_parse j) as [pd|]; [eauto|done].
Qed.

Lemma firstAsin_not_empty (ps : list (list regex)) (s a : string) :
  firstAsin ps s = Some a -> Str.isEmpty a = false.
Proof.
  induction ps as [|bs ps IH]; [done|]. cbn.
  destruct (searchAny bs s 0) as [m|]; [|done].
  destruct (Str.isEmpty (group m)) eqn:E; [done|]. by intros [= <-].
Qed.

Lemma extractAsin_found (s a : string) :
  firstAsin asinPatterns s = Some a ->
  extractAsin (VString s) = Ok (VString a) /\ truthy (VString a) = true.
Proof.
  intros H. pose proof (firstAsin_not_empty _ _ _ H) as Ha.
  unfold extractAsin. rewrite H. cbn [truthy]. rewrite Ha.
  by destruct s.
Qed.

Lemma checkedUrl_falsy (url : value) :
  truthy url = false -> truthy (checkedUrl url) = false.
Proof. destruct url as [| | | |s| |]; try done. by destruct s. Qed.

Section Run.
Variable axios_get : string -> reply.
Variable generate : string -> value -> value -> generated.

#[local] Abbreviation obtainHtml := (obtainHtml Number_toString URL_valid axios_get).
#[local] Abbreviation parseAmazonProduct :=
  (parseAmazonProduct Number_toString JSON_parse JSON_stringify URL_valid
     axios_get generate).
#[local] Abbreviation parseRoute :=
  (parseRoute Number_toString JSON_parse JSON_stringify URL_valid axios_get generate).

(** The stages that a run which returns a record went through. *)
Lemma parseAmazonProduct_Done (url asin html : value) (r : object) :
  parseAmazonProduct url asin html = Done r ->
  exists a1 u1 h productAsin page response text,
    asinFromUrl asin url = Ok a1 /\
    urlFromAsin url a1 = Ok u1 /\
    obtainHtml html (checkedUrl u1) a1 = Done h /\
    truthy h = true /\
    asinFromPage a1 h (checkedUrl u1) = Ok productAsin /\
    pageText h = Ok page /\
    promptConversions productAsin (checkedUrl u1) = Ok tt /\
    generate page productAsin (checkedUrl u1) = Completed response /\
    completionText response = Ok text /\
    resolve text productAsin (checkedUrl u1) page = Ok r.
Proof.
  unfold Parser.parseAmazonProduct.
  destruct (asinFromUrl asin url) as [a1|] eqn:E1; [|done].
  cbn [lift mbind outcome_bind].
  destruct (urlFromAsin url a1) as [u1|] eqn:E2; [|done].
  cbn [lift mbind outcome_bind].
  destruct (obtainHtml html (checkedUrl u1) a1) as [h|] eqn:E3; [|done].
  cbn [mbind outcome_bind].
  destruct (truthy h) eqn:E4; [|done]. cbn [negb].
  destruct (asinFromPage a1 h (checkedUrl u1)) as [productAsin|] eqn:E5; [|done].
  cbn [lift mbind outcome_bind].
  destruct (pageText h) as [page|] eqn:E6; [|done]. cbn [lift mbind outcome_bind].
  destruct (promptConversions productAsin (checkedUrl u1)) as [[]|] eqn:E7; [|done].
  cbn [lift mbind outcome_bind].
  destruct (generate page productAsin (checkedUrl u1)) as [response|] eqn:E8; [|done].
  destruct (completionText response) as [text|] eqn:E9; [|done].
  cbn [lift mbind result_bind].
  destruct (resolve text productAsin (checkedUrl u1) page) as [r'|] eqn:E10; [|done].
  intros [= <-]. exists a1, u1, h, productAsin, page, response, text. done.
Qed.

(** X7. When an ASIN is known, the record has an ASIN and a URL: the
    ASIN may be given, stand in the given URL, or stand in the given page. *)
Theorem known_asin_reaches_record (url asin html : value) (r : object) :
  parseAmazonProduct url asin html = Done r ->
  truthy asin = true
  \/ (exists u a, url = VString u /\ firstAsin asinPatterns u = Some a)
  \/ (exists h a, html = VString h /\ firstAsin asinPatterns h = Some a) ->
  truthy (get r "asin") = true /\ truthy (get r "url") = true.
Proof.
  intros (a1 & u1 & h & productAsin & page & response & text & E1 & E2 & E3 & E4
          & E5 & _ & _ & _ & _ & (pd & Hn)%resolve_Ok)%parseAmazonProduct_Done
         Hknown.
  assert (truthy productAsin = true) as Ha.
  { unfold asinFromPage in E5. destruct (truthy a1) eqn:Ea1; [congruence|].
    unfold asinFromUrl in E1. destruct (truthy asin) eqn:Ea.
    { cbn in E1. congruence. }
    destruct Hknown as [?|[(u & a & -> & Hu)|(p & a & -> & Hp)]]; [done|..].
    - apply extractAsin_found in Hu as [Hu Ht].
      assert (truthy (VString u) = true) as Hu' by (destruct u; done).
      rewrite Hu' in E1. cbn [negb andb] in E1. congruence.
    - apply extractAsin_found in Hp as [Hp Ht].
      assert (truthy (VString p) = true) as Hp' by (destruct p; done).
      unfold Parser.obtainHtml in E3. rewrite Hp' in E3. cbn [negb andb] in E3.
      injection E3 as <-. rewrite Hp in E5. cbn [mbind result_bind] in E5.
      rewrite Ht in E5. congruence. }
  pose proof (record_asin _ _ _ _ _ _ Hn) as Hasin.
  pose proof (record_url _ _ _ _ _ _ Hn) as Hurl. rewrite Ha in Hasin.
  split.
  - rewrite Hasin. by destruct (truthy (get pd "asin")) eqn:E.
  - destruct (truthy (get pd "url")) eqn:Eu; [by rewrite Hurl|].
    destruct (truthy (checkedUrl u1)) eqn:Ec; [by rewrite Hurl|].
    rewrite Ha in Hurl. by eapply dpUrl_truthy.
Qed.

(** X8. Without a page, without an ASIN, and with a URL that is absent or
    that neither parses nor holds an ASIN, the run fails with [HTML content
    is required]: nothing is requested and the client is not called. *)
Theorem nothing_to_fetch_is_an_error (url asin html : value) :
  truthy html = false -> truthy asin = false ->
  truthy url = false
  \/ (exists u, url = VString u /\ URL_valid u = false
                /\ firstAsin asinPatterns u = None) ->
  parseAmazonProduct url asin html = Failed HtmlRequired.
Proof.
  intros Hh Ha Hu. unfold Parser.parseAmazonProduct.
  assert (asinFromUrl asin url = Ok (if truthy url then VNull else asin)
          /\ truthy (checkedUrl url) = false) as [E1 E2].
  { destruct Hu as [Hu|(u & -> & Hv & Hn)].
    - unfold asinFromUrl. rewrite Ha, Hu. split; [done|]. by apply checkedUrl_falsy.
    - unfold asinFromUrl, extractAsin. rewrite Ha, Hn. cbn [checkedUrl]. rewrite Hv.
      by destruct u. }
  rewrite E1. cbn [lift mbind outcome_bind].
  assert (truthy (if truthy url then VNull else asin) = false) as Ha1
    by (by destruct (truthy url)).
  unfold Parser.urlFromAsin. rewrite Ha1, andb_false_r. cbn [lift mbind outcome_bind].
  unfold Parser.obtainHtml. rewrite E2, Ha1, andb_false_r.
  cbn [mbind outcome_bind]. by rewrite Hh.
Qed.

(** X9. When the page has to be fetched, a malformed ASIN ends the run as a
    fetch failure, whatever the URL: no request is sent and the client is
    not called. *)
Theorem malformed_asin_is_a_fetch_failure (url asin : value) (html : value)
    (s : string) :
  truthy html = false ->
  truthy asin = true -> ToString asin = Some s -> isAsin s = false ->
  parseAmazonProduct url asin html = Failed (FetchFailed InvalidAsinFormat).
Proof.
  intros Hh Ha Hs Hw. unfold Parser.parseAmazonProduct, asinFromUrl.
  rewrite Ha. cbn [negb andb lift mbind outcome_bind].
  assert (exists u1, urlFromAsin url asin = Ok u1) as [u1 ->].
  { unfold Parser.urlFromAsin, dpUrl, toStringOrThrow. rewrite Ha, Hs.
    destruct (truthy url); cbn; eauto. }
  cbn [lift mbind outcome_bind]. unfold Parser.obtainHtml.
  rewrite Hh, Ha, orb_true_r. cbn [negb andb].
  unfold fetchAmazonPage. rewrite (checkAsin_malformed _ _ _ Ha Hs Hw).
  unfold target. rewrite Ha, Hs.
  by destruct (givenUrl URL_valid _).
Qed.

(** X10. The route [POST /parse] answers 400 exactly when the body holds
    neither a URL, an ASIN nor a page; and it answers 200 only with a record
    whose title is [null] or a string: for a record with another title the
    log of the success throws, and the answer is 500. *)
Theorem route_answers (body : object) :
  (parseRoute body = BadRequest <->
   truthy (get body "url") = false /\ truthy (get body "asin") = false /\
   truthy (get body "html") = false) /\
  (forall data, parseRoute body = Success data ->
     parseAmazonProduct (get body "url") (get body "asin") (get body "html")
     = Done data /\
     (get data "title" = VNull
      \/ exists s, get data "title" = VString s /\ s <> EmptyString)).
Proof.
  unfold Parser.parseRoute. split.
  - destruct (truthy (get body "url")), (truthy (get body "asin")),
      (truthy (get body "html")); cbn [negb andb];
      (split; [|by intros (? & ? & ?)]); try done;
      destruct (parseAmazonProduct _ _ _) as [r|]; try done;
      destruct (get r "title") as [| |[]|q|s|l|o]; try done;
      by destruct (truthy (VNumber q)).
  - intros data.
    destruct (negb _ && negb _ && negb _); [done|].
    destruct (parseAmazonProduct _ _ _) as [r|] eqn:E; [|done].
    apply parseAmazonProduct_Done in E
      as (? & ? & ? & ? & ? & ? & ? & _ & _ & _ & _ & _ & _ & _ & _ & _
          & (pd & Hn)%resolve_Ok).
    pose proof (record_truthyOrNull _ _ _ _ _ _ "title" Hn
                  ltac:(unfold truthyOrNull; set_solver)) as Ht.
    intros H. destruct (truthy (get pd "title")) eqn:Ep; rewrite Ht in H.
    + destruct (get pd "title") as [| |b|q|s|l|o] eqn:Et; try done.
      * by destruct b.
      * by rewrite Ep in H.
      * injection H as <-. split; [done|]. right. exists s. split; [done|].
        by intros ->.
    + injection H as <-. split; [done|]. by left.
Qed.

End Run.

(** X11. When a page is given, nothing is fetched: the outcome is the same
    whatever the network would answer. *)
Theorem given_page_is_not_fetched (axios_get axios_get' : string -> reply)
    (generate : string -> value -> value -> generated) (url asin html : value) :
  truthy html = true ->
  parseAmazonProduct Number_toString JSON_parse JSON_stringify URL_valid
    axios_get generate url asin html
  = parseAmazonProduct Number_toString JSON_parse JSON_stringify URL_valid
      axios_get' generate url asin html.
Proof.
  intros Hh. unfold Parser.parseAmazonProduct.
  destruct (asinFromUrl asin url) as [a1|]; [|done].
  cbn [lift mbind outcome_bind].
  destruct (urlFromAsin url a1) as [u1|]; [|done]. cbn [lift mbind outcome_bind].
  unfold Parser.obtainHtml. by rewrite Hh.
Qed.

(** X22. An ASIN that has no conversion to a string never reaches the
    client: the run fails with a type error, or as a fetch failure when the
    page has to be fetched, whatever the client would answer. *)
Theorem unconvertible_asin_never_reaches_client (axios_get : string -> reply)
    (url asin html : value) :
  truthy asin = true -> ToString asin = None ->
  exists f,
    (f = Raised TypeError \/ f = FetchFailed ConversionError) /\
    forall generate,
      parseAmazonProduct Number_toString JSON_parse JSON_stringify URL_valid
        axios_get generate url asin html = Failed f.
Proof.
  intros Ha Hs. unfold Parser.parseAmazonProduct, asinFromUrl.
  rewrite Ha. cbn [negb andb lift mbind outcome_bind].
  assert (Resolver.dpUrl Number_toString asin = Throw TypeError) as Hdp
    by (unfold dpUrl, toStringOrThrow; by rewrite Hs).
  unfold Parser.urlFromAsin. rewrite Ha, andb_true_r.
  destruct (truthy url) eqn:Eu; cbn [negb]; [|rewrite Hdp; eauto].
  cbn [lift mbind outcome_bind]. unfold Parser.obtainHtml.
  rewrite Ha, orb_true_r, andb_true_r.
  destruct (truthy html) eqn:Eh; cbn [negb mbind outcome_bind].
  - rewrite Eh. cbn [negb]. unfold asinFromPage. rewrite Ha.
    cbn [lift mbind outcome_bind].
    destruct (pageText html) as [page|e] eqn:Ep; cbn [lift mbind outcome_bind].
    + unfold Parser.promptConversions, toStringOrThrow. rewrite Ha, Hs.
      cbn [lift mbind result_bind outcome_bind]. eauto.
    + destruct html; try done; injection Ep as <-; eauto.
  - exists (FetchFailed ConversionError). split; [by right|]. intros generate.
    unfold fetchAmazonPage, target, checkAsin. rewrite Ha, Hs.
    by destruct (givenUrl URL_valid _).
Qed.

End ParseFacts.

(** ** The section extractor: [extractProductText] of [src/parser.js] *)

Section ExtractorFacts.
Import Regex Extractor Spec Form.

Lemma trimEnd_head (c : ascii) (s : string) :
  Str.isSpace c = false -> exists t, Str.trimEnd (String c s) = String c t.
Proof. intros Hc. cbn -[Str.isSpace]. rewrite Hc. destruct (Str.trimEnd s); eauto. Qed.

Lemma trimStart_head (s : string) :
  Str.trimStart s = EmptyString
  \/ exists c t, Str.trimStart s = String c t /\ Str.isSpace c = false.
Proof.
  induction s as [|c s IH]; [by left|]. cbn -[Str.isSpace].
  destruct (Str.isSpace c) eqn:E; [done|]. right. eauto.
Qed.

Lemma trimEnd_idem (s : string) : Str.trimEnd (Str.trimEnd s) = Str.trimEnd s.
Proof.
  induction s as [|c s IH]; [done|]. cbn -[Str.isSpace].
  destruct (Str.trimEnd s) as [|x t] eqn:E.
  - destruct (Str.isSpace c) eqn:Ec; [done|]. cbn -[Str.isSpace]. by rewrite Ec.
  - change (Str.trimEnd (String c (String x t)))
      with (match Str.trimEnd (String x t) with
            | EmptyString => if Str.isSpace c then EmptyString else String c EmptyString
            | u => String c u
            end).
    by rewrite IH.
Qed.

(** [trim] leaves no white space at either end. *)
Lemma trim_trimmed (s : string) : trimmed (Str.trim s).
Proof.
  unfold trimmed, Str.trim.
  destruct (trimStart_head s) as [->|(c & t & -> & Hc)]; [done|].
  destruct (trimEnd_head c t Hc) as [u Hu]. rewrite Hu.
  cbn -[Str.isSpace Str.trimEnd]. rewrite Hc, <- Hu. apply trimEnd_idem.
Qed.

(** *** A page without markup *)

Lemma sameChar_lt (c : ascii) : sameChar true "<" c = Ascii.eqb c "<".
Proof. by destruct c as [[] [] [] [] [] [] [] []]. Qed.

Lemma searchFrom_needs_lt (re : regex) (rest : list item) (s : string)
    (start : nat) :
  icase re = true -> body re = One (Chr "<") :: rest ->
  indexOf "<" s = None -> searchFrom re s start = None.
Proof.
  intros Hi Hb. revert start. induction s as [|c s IH]; intros start.
  - intros _. cbn. unfold tryAt. by rewrite Hb.
  - cbn [indexOf]. destruct (Ascii.eqb c "<") eqn:Ec; [done|].
    intros Hs. cbn [searchFrom]. unfold tryAt at 1. rewrite Hb, Hi.
    cbn [matchHere accepts]. rewrite sameChar_lt, Ec. cbn [fmap option_fmap option_map].
    apply IH. by destruct (indexOf "<" s).
Qed.

Lemma exec_needs_lt (re : regex) (rest : list item) (s : string) :
  icase re = true -> bol re = false -> body re = One (Chr "<") :: rest ->
  indexOf "<" s = None -> exec re s = None.
Proof.
  intros Hi Hbol Hb Hs. unfold exec. rewrite Hbol.
  by eapply searchFrom_needs_lt.
Qed.

(** X12. A page in which no tag opens yields nothing: no title, no
    description, no price, no details. *)
Theorem no_markup_no_sections (html : string) :
  indexOf "<" html = None ->
  extractProductText html = Extracted None None None None.
Proof.
  intros Hs.
  assert (forall id, exec (divById id) html = None) as Hdiv
    by (intros id; by eapply exec_needs_lt).
  unfold extractProductText, extractTitle, extractDescription, extractPrice,
    extractProductDetails, primaryTable, fallbackTable.
  rewrite !Hdiv.
  rewrite (exec_needs_lt reProductTitle _ html eq_refl eq_refl eq_refl Hs).
  rewrite (exec_needs_lt reH1Title _ html eq_refl eq_refl eq_refl Hs).
  by rewrite (exec_needs_lt reProductDetailsTable _ html eq_refl eq_refl eq_refl Hs).
Qed.

(** *** The detail rows *)

Lemma cleanText_trimmed (x : string) : trimmed (cleanText x).
Proof. apply trim_trimmed. Qed.

Lemma rowCells_Some (tr heading value : string) :
  rowCells tr = Some (heading, value) ->
  heading <> EmptyString /\ value <> EmptyString /\
  trimmed heading /\ trimmed value.
Proof.
  unfold rowCells. destruct (matchAll (element "td") tr) as [|h [|v cells]]; try done.
  destruct (Str.isEmpty (cleanText h)) eqn:Eh; [done|].
  destruct (Str.isEmpty (cleanText v)) eqn:Ev; [done|].
  intros [= <- <-]. split_and!; try apply cleanText_trimmed.
  - by destruct (cleanText h).
  - by destruct (cleanText v).
Qed.

Lemma tableRows_elem (table heading value : string) :
  (heading, value) ∈ tableRows table ->
  heading <> EmptyString /\ value <> EmptyString /\
  trimmed heading /\ trimmed value.
Proof.
  unfold tableRows. intros (tr & _ & H)%list_elem_of_omap.
  by eapply rowCells_Some.
Qed.

Lemma storeRows_binding (rows : list (string * string)) (m : gmap string string)
    (heading value : string) :
  storeRows rows m !! heading = Some value ->
  m !! heading = Some value
  \/ ((heading, value) ∈ rows /\ heading <> "__proto__").
Proof.
  revert m. induction rows as [|[k w] rows IH]; intros m; [by left|].
  unfold storeRows in *. cbn [foldl fst snd].
  intros [H|[H Hp]]%IH; [|right; split; [by right|done]].
  unfold setDetail in H. destruct (String.eqb_spec k "__proto__") as [->|Hk];
    [by left|].
  destruct (decide (k = heading)) as [->|Hne].
  - rewrite lookup_insert_eq in H. injection H as ->. right. split; [left|done].
  - rewrite lookup_insert_ne in H by done. by left.
Qed.

(** X13. Every product detail that is extracted has a heading and a value
    that are not empty and carry no white space at either end; the heading
    is never [__proto__]. *)
Theorem details_are_clean (html : string) (m : gmap string string)
    (heading value : string) :
  productDetails (extractProductText html) = Some m ->
  m !! heading = Some value ->
  heading <> EmptyString /\ value <> EmptyString /\
  trimmed heading /\ trimmed value /\ heading <> "__proto__".
Proof.
  cbn [extractProductText productDetails]. unfold extractProductDetails.
  intros Hm Hv.
  assert (exists table, (heading, value) ∈ tableRows table /\ heading <> "__proto__")
    as (table & Hrow & Hp).
  { destruct (fallbackTable html) as [t2|], (primaryTable html) as [t1|];
      cbn [fmap option_fmap option_map default] in Hm; try done;
      injection Hm as <-.
    - apply storeRows_binding in Hv as [Hv|[? ?]]; [|eauto].
      apply storeRows_binding in Hv as [Hv|[? ?]]; [|eauto].
      by rewrite lookup_empty in Hv.
    - apply storeRows_binding in Hv as [Hv|[? ?]]; [|eauto].
      by rewrite lookup_empty in Hv.
    - apply storeRows_binding in Hv as [Hv|[? ?]]; [|eauto].
      by rewrite lookup_empty in Hv. }
  destruct (tableRows_elem _ _ _ Hrow) as (? & ? & ? & ?). done.
Qed.

(** *** The title and the feature bullets *)


(** *** The price text *)

Lemma tryAt_spaces (c : ascii) (s : string) :
  tryAt reSpaces (String c s) 0
  = if Str.isSpace c
    then Some (Found (Str.take (1 + Str.leading s) (String c s)) EmptyString 0
                     (1 + Str.leading s))
    else None.
Proof.
  unfold tryAt, reSpaces. cbn [icase body].
  change (matchHere false [One Space; Star Space] (String c s) 0 (Caps 0 None))
    with (if Str.isSpace c then matchHere false [Star Space] s 1 (Caps 0 None)
          else None).
  destruct (Str.isSpace c); [|done]. by rewrite matchHere_spaces.
Qed.

Lemma subst_leading (re : regex) (rep s : string) :
  subst re rep s (Str.leading s) = subst re rep (Str.trimStart s) 0.
Proof.
  induction s as [|c s IH]; [done|]. cbn -[Str.isSpace subst].
  destruct (Str.isSpace c); [|done]. exact IH.
Qed.

(** What [replace(/\s+/g, ' ')] does at the head of a text. *)
Lemma collapse_cons (c : ascii) (s : string) :
  replaceAll reSpaces " " (String c s)
  = if Str.isSpace c
    then String " " (replaceAll reSpaces " " (Str.trimStart s))
    else String c (replaceAll reSpaces " " s).
Proof.
  unfold replaceAll. cbn [subst]. rewrite tryAt_spaces.
  destruct (Str.isSpace c); [|done]. cbn [stop Nat.add].
  by rewrite subst_leading.
Qed.

Lemma length_trimStart (s : string) :
  String.length (Str.trimStart s) <= String.length s.
Proof.
  induction s as [|c s IH]; [done|]. cbn -[Str.isSpace].
  destruct (Str.isSpace c); cbn; lia.
Qed.

Lemma collapse_singleSpaced (s : string) :
  singleSpaced (replaceAll reSpaces " " s) = true.
Proof.
  remember (String.length s) as n eqn:Hn.
  assert (String.length s <= n) as Hle by lia. clear Hn.
  revert s Hle. induction n as [|n IH]; intros [|c s] Hle; try done.
  { cbn in Hle. lia. }
  cbn in Hle. rewrite collapse_cons. destruct (Str.isSpace c) eqn:Ec.
  - cbn [singleSpaced]. rewrite IH by (pose proof (length_trimStart s); lia).
    destruct (trimStart_head s) as [->|(x & t & -> & Hx)]; [done|].
    rewrite collapse_cons, Hx. by rewrite Hx.
  - cbn [singleSpaced]. rewrite Ec. apply IH. lia.
Qed.

Lemma singleSpaced_tail (c : ascii) (s : string) :
  singleSpaced (String c s) = true -> singleSpaced s = true.
Proof. cbn [singleSpaced]. by intros [_ ?]%andb_true_iff. Qed.

Lemma singleSpaced_trimStart (s : string) :
  singleSpaced s = true -> singleSpaced (Str.trimStart s) = true.
Proof.
  induction s as [|c s IH]; [done|]. intros H. cbn -[Str.isSpace singleSpaced].
  destruct (Str.isSpace c); [|done]. by eapply IH, singleSpaced_tail.
Qed.

Lemma singleSpaced_trimEnd (s : string) :
  singleSpaced s = true -> singleSpaced (Str.trimEnd s) = true.
Proof.
  induction s as [|c s IH]; [done|]. intros H.
  pose proof (IH (singleSpaced_tail _ _ H)) as IH'.
  cbn -[Str.isSpace singleSpaced].
  destruct (Str.trimEnd s) as [|x t] eqn:E.
  - destruct (Str.isSpace c) eqn:Ec; [done|]. cbn -[Str.isSpace]. by rewrite Ec.
  - assert (exists t', s = String x t') as [t' ->].
    { destruct s as [|y s]; [done|]. cbn -[Str.isSpace] in E.
      destruct (Str.trimEnd s); [destruct (Str.isSpace y)|]; try done;
        injection E as -> _; eauto. }
    change (singleSpaced (String c (String x t)))
      with ((if Str.isSpace c then Ascii.eqb c " " && negb (Str.isSpace x) else true)
            && singleSpaced (String x t)).
    rewrite IH', andb_true_r.
    change (singleSpaced (String c (String x t')))
      with ((if Str.isSpace c then Ascii.eqb c " " && negb (Str.isSpace x) else true)
            && singleSpaced (String x t')) in H.
    by apply andb_true_iff in H as [H _].
Qed.

(** X14. The price text that is extracted is normalised: it has no white
    space at either end, and inside it every run of white space is one
    space. *)
Theorem price_text_is_normalised (html price : string) :
  Extractor.price (extractProductText html) = Some price ->
  trimmed price /\ singleSpaced price = true.
Proof.
  cbn [extractProductText Extractor.price]. unfold extractPrice.
  destruct (exec (divById "coreprice_feature_div") html) as [priceDiv|]; [|done].
  intros [= <-]. split; [apply trim_trimmed|].
  apply singleSpaced_trimEnd, singleSpaced_trimStart, collapse_singleSpaced.
Qed.

End ExtractorFacts.

(** ** The completion text: fences and the response envelope *)

Section FenceFacts.
Import Js Regex Resolver Spec.

Lemma length_append (a b : string) :
  String.length (a +:+ b) = String.length a + String.length b.
Proof.
  induction a as [|x a IH]; [done|].
  change (S (String.length (a +:+ b)) = S (String.length a + String.length b)).
  by rewrite IH.
Qed.

Lemma take_length (s : string) : Str.take (String.length s) s = s.
Proof. induction s as [|c s IH]; [done|]. cbn. by rewrite IH. Qed.

Lemma trimEnd_app (a b : string) :
  Str.trimEnd b <> EmptyString -> Str.trimEnd (a +:+ b) = a +:+ Str.trimEnd b.
Proof.
  intros Hb. induction a as [|x a IH]; [done|].
  change (String x a +:+ b) with (String x (a +:+ b)).
  cbn -[Str.isSpace]. rewrite IH.
  change (String x a +:+ Str.trimEnd b) with (String x (a +:+ Str.trimEnd b)).
  destruct a; [by destruct (Str.trimEnd b)|done].
Qed.

Lemma trimEnd_spaces (ws : string) :
  Str.all Str.isSpace ws = true -> Str.trimEnd ws = EmptyString.
Proof.
  induction ws as [|c ws IH]; [done|]. cbn -[Str.isSpace].
  intros [Hc ->%IH]%andb_true_iff. by rewrite Hc.
Qed.

Lemma trimEnd_app_spaces (a ws : string) :
  Str.all Str.isSpace ws = true -> Str.trimEnd (a +:+ ws) = Str.trimEnd a.
Proof.
  intros Hws. induction a as [|x a IH]; [by apply trimEnd_spaces|].
  change (String x a +:+ ws) with (String x (a +:+ ws)).
  cbn -[Str.isSpace]. by rewrite IH.
Qed.

Lemma trimStart_app_spaces (ws s : string) :
  Str.all Str.isSpace ws = true -> Str.trimStart (ws +:+ s) = Str.trimStart s.
Proof.
  induction ws as [|c ws IH]; [done|]. cbn -[Str.isSpace].
  intros [Hc H]%andb_true_iff.
  change (Str.trimStart (String c (ws +:+ s)) = Str.trimStart s).
  cbn -[Str.isSpace]. rewrite Hc. by apply IH.
Qed.

Lemma sameChar_refl (i : bool) (c : ascii) : sameChar i c c = true.
Proof. unfold sameChar. destruct i; apply Ascii.eqb_refl. Qed.

Lemma dropPrefix_app (i : bool) (p rest : string) :
  dropPrefix i p (p +:+ rest) = Some rest.
Proof.
  induction p as [|x p IH]; [done|].
  change (dropPrefix i (String x p) (String x (p +:+ rest)) = Some rest).
  cbn -[sameChar]. by rewrite sameChar_refl.
Qed.

Lemma space_not_j (c : ascii) : Str.isSpace c = true -> sameChar true "j" c = false.
Proof. destruct c as [[] [] [] [] [] [] [] []]; vm_compute; congruence. Qed.

(** After an opening fence without tag come white space or the brace, not
    the tag. *)
Lemma no_tag_after_fence (ws rest : string) :
  Str.all Str.isSpace ws = true ->
  dropPrefix true "```json" ("```" +:+ ws +:+ String "{" rest) = None.
Proof.
  intros Hws.
  change (dropPrefix true "json" (ws +:+ String "{" rest) = None).
  destruct ws as [|c ws]; [done|]. cbn [Str.all] in Hws.
  apply andb_true_iff in Hws as [Hc _].
  change (dropPrefix true "json" (String c (ws +:+ String "{" rest)) = None).
  cbn -[sameChar]. by rewrite (space_not_j _ Hc).
Qed.

Lemma dropSuffix_app (s : string) : dropSuffix "```" (s +:+ "```") = Some s.
Proof.
  induction s as [|c s IH]; [done|].
  change (dropSuffix "```" (String c (s +:+ "```")) = Some (String c s)).
  rewrite dropSuffix_cons, IH; [done|].
  intros H%(f_equal String.length). cbn in H. rewrite length_append in H.
  cbn in H. lia.
Qed.

Lemma lastIndexOf_app_end (c : ascii) (s : string) :
  lastIndexOf c (s +:+ String c EmptyString) = Some (String.length s).
Proof.
  induction s as [|x s IH].
  - change (lastIndexOf c (String c EmptyString) = Some 0).
    cbn -[Ascii.eqb]. by rewrite Ascii.eqb_refl.
  - change (lastIndexOf c (String x (s +:+ String c EmptyString))
            = Some (S (String.length s))).
    cbn -[Ascii.eqb]. by rewrite IH.
Qed.

Lemma braceSpan_object (mid : string) :
  braceSpan (String "{" (mid +:+ "}")) = Some (String "{" (mid +:+ "}")).
Proof.
  rewrite braceSpan_open, lastIndexOf_app_end. cbn [fmap option_fmap option_map].
  change (Str.take (S (S (String.length mid))) (String "{" (mid +:+ "}")))
    with (String "{" (Str.take (S (String.length mid)) (mid +:+ "}"))).
  replace (S (String.length mid)) with (String.length (mid +:+ "}"))
    by (rewrite length_append; cbn; lia).
  by rewrite take_length.
Qed.

(** X15. A brace-delimited text that is wrapped in a fence, with or
    without the json tag, with any white space after the opening and before
    the closing fence, is recovered as it was: it is what the fence removal
    leaves, and it is the text handed to [JSON.parse]. *)
Theorem fenced_object_is_recovered (tagged : bool) (ws1 ws2 mid : string) :
  Str.all Str.isSpace ws1 = true -> Str.all Str.isSpace ws2 = true ->
  let body := String "{" (mid +:+ "}") in
  let text := "```" +:+ (if tagged then "json" else EmptyString) +:+ ws1 +:+ body
              +:+ ws2 +:+ "```" in
  stripFences text = body /\ extractJsonText text = Some body.
Proof.
  intros H1 H2 body text.
  assert (stripFences text = body) as Hs.
  { rewrite stripFences_unfence. unfold unfence.
    assert (Str.trim text = text) as ->.
    { unfold Str.trim, text. destruct tagged.
      - change (Str.trimStart ("```" +:+ ?x)) with ("```" +:+ x).
        rewrite <- !append_assoc. by rewrite trimEnd_app.
      - change (Str.trimStart ("```" +:+ ?x)) with ("```" +:+ x).
        rewrite <- !append_assoc. by rewrite trimEnd_app. }
    assert (Str.trimStart (ws1 +:+ body +:+ ws2 +:+ "```") = body +:+ ws2 +:+ "```")
      as Hbody by (by rewrite trimStart_app_spaces).
    assert (match dropPrefix true "```" (body +:+ ws2 +:+ "```") with
            | Some rest => Str.trimStart rest
            | None => body +:+ ws2 +:+ "```"
            end = body +:+ ws2 +:+ "```") as Hopen by done.
    assert (match dropSuffix "```" (body +:+ ws2 +:+ "```") with
            | Some b => Str.trimEnd b
            | None => body +:+ ws2 +:+ "```"
            end = body) as Hclose.
    { rewrite <- append_assoc, dropSuffix_app, trimEnd_app_spaces by done.
      unfold body. change (String "{" (mid +:+ "}")) with (String "{" mid +:+ "}").
      by rewrite trimEnd_app. }
    unfold text. destruct tagged.
    - change ("```" +:+ "json" +:+ ?x) with ("```json" +:+ x).
      rewrite dropPrefix_app, Hbody, Hopen. exact Hclose.
    - change ("```" +:+ EmptyString +:+ ?x) with ("```" +:+ x).
      assert (dropPrefix true "```json" ("```" +:+ ws1 +:+ body +:+ ws2 +:+ "```")
              = None) as ->
        by exact (no_tag_after_fence ws1 ((mid +:+ "}") +:+ ws2 +:+ "```") H1).
      rewrite dropPrefix_app, Hbody. exact Hclose. }
  split; [exact Hs|]. rewrite extractJsonText_braceSpan, Hs. apply braceSpan_object.
Qed.

End FenceFacts.

(** ** The response envelope *)

Section EnvelopeFacts.
Import Js Regex Resolver Parser Spec.
Variable Number_toString : Q -> string.
Variable JSON_parse : string -> object + string.
Variable JSON_stringify : value -> string.

#[local] Abbreviation normalize := (normalize Number_toString).
#[local] Abbreviation resolve := (resolve Number_toString JSON_parse).
#[local] Abbreviation completionText := (completionText JSON_stringify).

Lemma dropSuffix_brace (s : string) : dropSuffix "```" (s +:+ "}") = None.
Proof.
  induction s as [|c s IH]; [done|].
  change (dropSuffix "```" (String c (s +:+ "}")) = None).
  rewrite dropSuffix_cons, IH; [done|].
  by destruct s as [|? [|? [|? ?]]].
Qed.

(** A text from a brace to a brace has no fence to remove and is its own
    span. *)
Lemma extractJsonText_object (mid : string) :
  extractJsonText (String "{" (mid +:+ "}")) = Some (String "{" (mid +:+ "}")).
Proof.
  rewrite extractJsonText_braceSpan, stripFences_unfence.
  assert (unfence (String "{" (mid +:+ "}")) = String "{" (mid +:+ "}")) as ->;
    [|apply braceSpan_object].
  unfold unfence.
  assert (Str.trim (String "{" (mid +:+ "}")) = String "{" (mid +:+ "}")) as ->.
  { unfold Str.trim. change (Str.trimStart (String "{" ?x)) with (String "{" x).
    change (String "{" (mid +:+ "}")) with (String "{" mid +:+ "}").
    by rewrite trimEnd_app. }
  change (match dropSuffix "```" (String "{" mid +:+ "}") with
          | Some body => Str.trimEnd body
          | None => String "{" (mid +:+ "}")
          end = String "{" (mid +:+ "}")).
  by rewrite dropSuffix_brace.
Qed.

(** X16. An envelope without completion text is read as the completion
    itself: when [response], [text] and [message.content] are all falsy,
    the serialised envelope is the text that is resolved, and its own
    properties become the product data; the no-JSON error is not raised. *)
Theorem empty_completion_reads_envelope (o : object) (mid : string)
    (productAsin productUrl : value) (page : string) :
  truthy (get o "response") = false -> truthy (get o "text") = false ->
  truthy (get o "message") = false
  \/ truthy (field (get o "message") "content") = false ->
  JSON_stringify (VObject o) = String "{" (mid +:+ "}") ->
  completionText (VObject o) = Ok (JSON_stringify (VObject o)) /\
  (responseText ← completionText (VObject o);
   resolve responseText productAsin productUrl page)
  = match JSON_parse (JSON_stringify (VObject o)) with
    | inl productData => normalize productData productAsin productUrl page
    | inr message => Throw (MalformedJson message)
    end.
Proof.
  intros Hr Ht Hm Hs.
  assert (completionText (VObject o) = Ok (JSON_stringify (VObject o))) as Hc.
  { unfold Parser.completionText, responseTextOf. cbn [prop mbind result_bind].
    rewrite Hr, Ht. destruct (truthy (get o "message")) eqn:Em; [|done].
    destruct Hm as [?|Hm]; [done|].
    rewrite prop_field by (by intros E; rewrite E in Em).
    cbn [mbind result_bind]. by rewrite Hm. }
  split; [exact Hc|]. rewrite Hc. cbn [mbind result_bind].
  unfold Resolver.resolve. by rewrite Hs, extractJsonText_object.
Qed.

End EnvelopeFacts.

(** ** When the normaliser returns, and what it raises *)

Section NormalizeOutcome.
Import Js Regex Validator Resolver Spec.
Variable Number_toString : Q -> string.

#[local] Abbreviation ToString := (ToString Number_toString).
#[local] Abbreviation prepare := (prepare Number_toString).
#[local] Abbreviation cleanData := (cleanData Number_toString).
#[local] Abbreviation normalize := (normalize Number_toString).
#[local] Abbreviation validateProductData := (validateProductData Number_toString).
#[local] Abbreviation asinRejected := (asinRejected Number_toString).

Lemma falsy_ToString (v : value) : truthy v = false -> ToString v <> None.
Proof. destruct v as [| |[]| | | |]; done. Qed.

(** A productAsin that is never converted can be replaced by [null]. *)
Lemma normalize_unused_asin (pd : object) (a u : value) (h : string) :
  truthy (get pd "asin") = true ->
  truthy (get pd "url") = true \/ truthy u = true ->
  normalize pd a u h = normalize pd VNull u h.
Proof.
  intros Hasin Hurl. unfold Resolver.normalize.
  assert (prepare pd a u = prepare pd VNull u) as Hp.
  { unfold Resolver.prepare. rewrite !ensureAsin_id by auto.
    unfold ensureUrl. destruct Hurl as [-> | ->]; [done|].
    by destruct (truthy (get pd "url")). }
  rewrite Hp. destruct (prepare pd VNull u) as [pd'|] eqn:E; [|done].
  cbn [mbind result_bind].
  destruct (validateProductData pd') as [errors|]; [|done].
  cbn [mbind result_bind].
  assert (truthy (get pd' "url") = true) as Hu.
  { pose proof (prepare_url _ _ _ _ _ E) as H.
    destruct (truthy (get pd "url")) eqn:E1; [by rewrite H|].
    destruct Hurl as [?|Hu]; [done|]. rewrite Hu in H. by rewrite H. }
  unfold Resolver.cleanData. by rewrite Hu.
Qed.

(** X17. The normaliser returns a record exactly when no conversion to a
    string fails (of a productAsin that is used: for the ASIN of the object
    or for its URL; of the ASIN of the object), the request is not taken
    as blocked, and no roll is [null] or [undefined]. *)
Theorem normalize_returns_exactly_when (pd : object) (a u : value) (h : string) :
  (exists r, normalize pd a u h = Ok r) <->
  (truthy a = true -> ToString a = None ->
     truthy (get pd "asin") = true /\
     (truthy (get pd "url") = true \/ truthy u = true)) /\
  (truthy (get pd "asin") = true -> ToString (get pd "asin") <> None) /\
  (hasProductData pd = true \/ isBlockPage h = false) /\
  (forall rs, get pd "rolls" = VArray rs -> (VNull ∉ rs) /\ (VUndefined ∉ rs)).
Proof.
  split.
  - intros [r H].
    destruct (normalize_Ok _ _ _ _ _ _ H)
      as (pd' & errors & cleaned & Hp & Hv & Hb & _ & _).
    pose proof (prepare_asin _ _ _ _ _ Hp) as Hasin.
    pose proof (prepare_url _ _ _ _ _ Hp) as Hurl.
    split_and!.
    + intros Ha Hs. destruct (truthy (get pd "asin")) eqn:E1.
      * split; [done|]. destruct (truthy (get pd "url")); [by left|].
        destruct (truthy u); [by right|]. rewrite Ha in Hurl.
        apply dpUrl_Ok in Hurl as (s & ? & _). congruence.
      * rewrite Ha in Hasin.
        rewrite (validateProductData_throws Number_toString pd') in Hv;
          [done|by rewrite Hasin..].
    + intros E1 Hs. rewrite E1 in Hasin.
      rewrite (validateProductData_throws Number_toString pd') in Hv;
        [done|by rewrite Hasin..].
    + by rewrite <- (hasProductData_prepare _ _ _ _ _ Hp).
    + intros rs Hrs. by eapply null_roll_throws.
  - intros (Ha & Hasin & Hb & Hrolls).
    assert (ToString (get pd "asin") <> None) as Hasin'.
    { destruct (truthy (get pd "asin")) eqn:E; [auto|by apply falsy_ToString]. }
    destruct (ToString a) as [s|] eqn:Es.
    + apply normalize_total; [by rewrite Es|done..].
    + destruct (truthy a) eqn:Et;
        [|by destruct (falsy_ToString _ Et)].
      destruct (Ha eq_refl eq_refl) as [H1 H2].
      rewrite normalize_unused_asin by done.
      by apply normalize_total.
Qed.

(** X18. The normaliser raises nothing but a type error of the language or
    the blocked-request error, and the latter only for an object with a
    falsy title, a falsy brand and a [null] price, on a page that holds a
    block phrase. *)
Theorem normalize_raises_only (pd : object) (a u : value) (h : string) (e : error) :
  normalize pd a u h = Throw e ->
  e = TypeError
  \/ (e = BlockedRequest /\ truthy (get pd "title") = false
      /\ get pd "price" = VNull /\ truthy (get pd "brand") = false
      /\ isBlockPage h = true).
Proof.
  intros H.
  assert (e = TypeError \/ e = BlockedRequest) as [->| ->]; [|by left|].
  2:{ right. apply normalize_blocked in H. tauto. }
  revert H. unfold Resolver.normalize.
  destruct (prepare pd a u) as [pd'|e1] eqn:E1; cbn [mbind result_bind].
  2:{ intros [= <-]. left. by eapply prepare_throws. }
  destruct (validateProductData pd') as [errors|e2] eqn:E2; cbn [mbind result_bind].
  2:{ intros [= <-]. left. by eapply validateProductData_throws_TypeError. }
  destruct (negb (hasProductData pd') && isBlockPage h); [intros [= <-]; by right|].
  destruct (cleanData pd' a) as [cleaned|e3] eqn:E3; cbn [mbind result_bind].
  2:{ intros [= <-]. left. by eapply cleanData_throws. }
  intros H. left. revert H.
  by apply coerceRolls_throws.
Qed.

Lemma report_mono (b1 b2 b3 b4 b5 b6 c1 c2 c3 c4 c5 c6 : bool) :
  (b1 = true -> c1 = true) -> (b2 = true -> c2 = true) ->
  (b3 = true -> c3 = true) -> (b4 = true -> c4 = true) ->
  (b5 = true -> c5 = true) -> (b6 = true -> c6 = true) ->
  report b1 b2 b3 b4 b5 b6 ⊆ report c1 c2 c3 c4 c5 c6.
Proof.
  intros H1 H2 H3 H4 H5 H6. unfold report.
  assert (forall (b c : bool) (m : string), (b = true -> c = true) ->
            (if b then [m] else []) ⊆ (if c then [m] else [])) as Hseg.
  { intros [] c m Hbc; [by rewrite Hbc|]. apply list_subseteq_nil. }
  intros m. rewrite !elem_of_app.
  intros Hm. destruct_or! Hm.
  - left. by eapply Hseg.
  - right; left. by eapply Hseg.
  - right; right; left. by eapply Hseg.
  - right; right; right; left. by eapply Hseg.
  - right; right; right; right; left. by eapply Hseg.
  - right; right; right; right; right. by eapply Hseg.
Qed.

Lemma asinRejected_or_null (v : value) :
  asinRejected (or v VNull) = true -> asinRejected v = true.
Proof. unfold or. by destruct (truthy v) eqn:E. Qed.

Lemma checkedType_or_null (v : value) :
  truthy (or v VNull) && negb (isProductType (or v VNull)) = true ->
  truthy v && negb (isProductType v) = true.
Proof. unfold or. destruct (truthy v) eqn:E; [by rewrite E|done]. Qed.

Lemma checkedRange_orNull (v : value) (max : Q) :
  negb (isNull (orNull v)) && notInRange (orNull v) max = true ->
  negb (isNull v) && notInRange v max = true.
Proof. by destruct v. Qed.

(** X19. Validating the returned record again reports nothing new: it
    returns, and each of its messages was already among the warnings of
    the run. *)
Theorem record_revalidates (pd : object) (a u : value) (h : string) (r : object) :
  normalize pd a u h = Ok r ->
  exists pd' errors errors',
    prepare pd a u = Ok pd' /\
    validateProductData pd' = Ok errors /\
    validateProductData r = Ok errors' /\
    errors' ⊆ errors.
Proof.
  intros H.
  destruct (normalize_Ok _ _ _ _ _ _ H)
    as (pd' & errors & cleaned & Hp & Hv & _ & _ & _).
  destruct (normalize_record _ _ _ _ _ _ H)
    as (pd0 & url & rolls & Hp0 & -> & _).
  rewrite Hp in Hp0. injection Hp0 as <-.
  set (r := set (cleanedData pd' url) "rolls" rolls).
  assert (get r "asin" = or (get pd' "asin") VNull) as Hasin by done.
  assert (exists errors', validateProductData r = Ok errors') as [errors' Hv'].
  { apply validateProductData_total. rewrite Hasin. unfold or.
    destruct (truthy (get pd' "asin")) eqn:E; [|done]. intros _ Hs.
    by rewrite (validateProductData_throws Number_toString pd') in Hv. }
  exists pd', errors, errors'. split_and!; [done..|].
  rewrite (validateProductData_Ok _ _ _ Hv), (validateProductData_Ok _ _ _ Hv').
  apply report_mono.
  - rewrite Hasin. apply asinRejected_or_null.
  - change (get r "type") with (or (get pd' "type") VNull).
    apply checkedType_or_null.
  - change (get r "price") with (orNull (get pd' "price")).
    apply checkedRange_orNull.
  - change (get r "quantity") with (orNull (get pd' "quantity")).
    apply checkedRange_orNull.
  - change (get r "rollWidth") with (orNull (get pd' "rollWidth")).
    apply checkedRange_orNull.
  - change (get r "rollLength") with (orNull (get pd' "rollLength")).
    apply checkedRange_orNull.
Qed.

End NormalizeOutcome.

(** ** Further concrete runs *)

Section FurtherRuns.
Import Js Regex Extractor Validator Resolver Fetcher Parser Spec Form Sample Examples.

#[local] Abbreviation normalize := (normalize integerText).
#[local] Abbreviation validateProductData := (validateProductData integerText).
#[local] Abbreviation fetchAmazonPage := (fetchAmazonPage integerText hasScheme network).
#[local] Abbreviation parseAmazonProduct :=
  (parseAmazonProduct integerText parseSamples stringifyEnvelope hasScheme).
#[local] Abbreviation parseRoute :=
  (parseRoute integerText parseSamples stringifyEnvelope hasScheme).

Lemma extractAsin_productUrl :
  extractAsin (VString productUrl) = Ok (VString "B08XYZ1234").
Proof. vm_compute. reflexivity. Defined.

Lemma parse_productUrl :
  parseAmazonProduct network client (VString productUrl) VUndefined (VString page)
  = Done parsed.
Proof. vm_compute. reflexivity. Defined.

Lemma extractAsin_is_wellformed_witness :
  extractAsin (VString productUrl) = Ok (VString "B08XYZ1234") /\
  isAsin "B08XYZ1234" = true /\ test reAsin "B08XYZ1234" = true.
Proof.
  split; [exact extractAsin_productUrl|].
  destruct (extractAsin_is_wellformed _ _ extractAsin_productUrl)
    as [H|(asin & H & Ha & Ht)]; [discriminate H|].
  injection H as <-. split; [exact Ha|exact Ht].
Defined.

Lemma extractAsin_follows_path_witness :
  extractAsin (VString productUrl) = Ok (VString "B08XYZ1234") /\
  exists pre path post,
    path ∈ ["dp"; "product"] /\
    productUrl = pre +:+ path +:+ "/" +:+ "B08XYZ1234" +:+ post.
Proof.
  split; [exact extractAsin_productUrl|].
  exact (extractAsin_follows_path _ _ extractAsin_productUrl).
Defined.

Lemma extractAsin_of_canonical_url_witness :
  isAsin "B08XYZ1234" = true /\
  extractAsin (VString ("https://www.amazon.com/dp/" +:+ "B08XYZ1234" +:+ "?th=1"))
  = Ok (VString "B08XYZ1234").
Proof.
  split; [reflexivity|].
  exact (proj2 (extractAsin_of_canonical_url integerText "B08XYZ1234" "?th=1"
                  eq_refl)).
Defined.

Lemma malformed_asin_stops_fetch_witness :
  truthy (VString "b08xyz1234") = true /\
  ToString integerText (VString "b08xyz1234") = Some "b08xyz1234" /\
  isAsin "b08xyz1234" = false /\
  hasScheme productUrl = true /\
  fetchAmazonPage (VString productUrl) (VString "b08xyz1234")
  = inr InvalidAsinFormat.
Proof.
  split_and!; [reflexivity..|].
  exact (malformed_asin_stops_fetch integerText hasScheme network
           (VString productUrl) (VString "b08xyz1234") "b08xyz1234"
           eq_refl eq_refl eq_refl).
Defined.

Lemma fetch_by_asin :
  fetchAmazonPage VNull fallbackAsin = inl page.
Proof. vm_compute. reflexivity. Defined.

Lemma fetched_page_source_witness :
  fetchAmazonPage VNull fallbackAsin = inl page /\
  (exists fetchUrl, network fetchUrl = Page page /\
                    extractAsin (VString fetchUrl) = Ok (VString "B08XYZ1234")) /\
  exists a, ToString integerText fallbackAsin = Some a /\ isAsin a = true.
Proof.
  split; [exact fetch_by_asin|].
  destruct (fetched_page_source integerText hasScheme network VNull fallbackAsin
              page fetch_by_asin) as [(fetchUrl & Hget & Hsrc) Hasin].
  split; [|exact (Hasin eq_refl)].
  exists fetchUrl. split; [exact Hget|].
  destruct Hsrc as [(s & H & _)|(a & Ha & _ & He)]; [discriminate H|].
  injection Ha as <-. exact He.
Defined.

Lemma known_asin_reaches_record_witness :
  parseAmazonProduct network client (VString productUrl) VUndefined (VString page)
  = Done parsed /\
  firstAsin asinPatterns productUrl = Some "B08XYZ1234" /\
  truthy (get parsed "asin") = true /\ truthy (get parsed "url") = true.
Proof.
  assert (firstAsin asinPatterns productUrl = Some "B08XYZ1234") as H
    by (vm_compute; reflexivity).
  destruct (known_asin_reaches_record integerText parseSamples stringifyEnvelope
              hasScheme network client _ _ _ _ parse_productUrl
              (or_intror (or_introl (ex_intro _ productUrl
                 (ex_intro _ "B08XYZ1234" (conj eq_refl H))))))
    as [Ha Hu].
  split_and!; [exact parse_productUrl|exact H|exact Ha|exact Hu].
Defined.

Lemma nothing_to_fetch_is_an_error_witness :
  hasScheme "amazon.com/wrap" = false /\
  firstAsin asinPatterns "amazon.com/wrap" = None /\
  parseAmazonProduct network client (VString "amazon.com/wrap") VUndefined VUndefined
  = Failed HtmlRequired /\
  parseRoute network client [("url", VString "amazon.com/wrap")]
  = ServerError HtmlRequired.
Proof.
  assert (firstAsin asinPatterns "amazon.com/wrap" = None) as H
    by (vm_compute; reflexivity).
  assert (parseAmazonProduct network client (VString "amazon.com/wrap")
            VUndefined VUndefined = Failed HtmlRequired) as Hp.
  { apply nothing_to_fetch_is_an_error; [reflexivity..|].
    right. exists "amazon.com/wrap". split_and!; [reflexivity..|exact H]. }
  split_and!; [reflexivity|exact H|exact Hp|].
  unfold Parser.parseRoute. cbn [get String.eqb Ascii.eqb Bool.eqb truthy Str.isEmpty negb andb].
  by rewrite Hp.
Defined.

Lemma malformed_asin_is_a_fetch_failure_witness :
  isAsin "b08xyz1234" = false /\
  parseAmazonProduct network client (VString productUrl) (VString "b08xyz1234")
    VUndefined
  = Failed (FetchFailed InvalidAsinFormat).
Proof.
  split; [reflexivity|].
  exact (malformed_asin_is_a_fetch_failure integerText parseSamples
           stringifyEnvelope hasScheme network client (VString productUrl)
           (VString "b08xyz1234") VUndefined "b08xyz1234"
           eq_refl eq_refl eq_refl eq_refl).
Defined.

Lemma route_answers_witness :
  let body := [("url", VString productUrl); ("html", VString page)] in
  parseRoute network client body = Success parsed /\
  parseRoute network client body <> BadRequest /\
  get parsed "title" = VNull.
Proof.
  intros body.
  assert (parseRoute network client body = Success parsed) as H
    by (vm_compute; reflexivity).
  destruct (route_answers integerText parseSamples stringifyEnvelope hasScheme
              network client body) as [Hbad Hok].
  split_and!; [exact H| |].
  - intros (Hu & _)%Hbad. discriminate Hu.
  - destruct (Hok parsed H) as [_ [Ht|(s & Hs & _)]]; [exact Ht|discriminate Hs].
Defined.

Lemma given_page_is_not_fetched_witness :
  truthy (VString page) = true /\
  parseAmazonProduct (fun _ => NoAnswer) client (VString productUrl) VUndefined
    (VString page)
  = Done parsed.
Proof.
  split; [reflexivity|].
  rewrite (given_page_is_not_fetched integerText parseSamples stringifyEnvelope
             hasScheme (fun _ => NoAnswer) network client (VString productUrl)
             VUndefined (VString page) eq_refl).
  exact parse_productUrl.
Defined.

Lemma unconvertible_asin_never_reaches_client_witness :
  let asin := VObject [("toString", VNull)] in
  truthy asin = true /\ ToString integerText asin = None /\
  parseAmazonProduct network client VNull asin (VString page)
  = parseAmazonProduct network silentClient VNull asin (VString page).
Proof.
  intros asin. split_and!; [reflexivity..|].
  destruct (unconvertible_asin_never_reaches_client integerText parseSamples
              stringifyEnvelope hasScheme network VNull asin (VString page)
              eq_refl eq_refl) as (f & _ & Hf).
  by rewrite !Hf.
Defined.

Lemma no_markup_no_sections_witness :
  indexOf "<" "Gift wrap, 4 rolls, $12.99" = None /\
  extractProductText "Gift wrap, 4 rolls, $12.99" = Extracted None None None None.
Proof.
  split; [reflexivity|]. by apply no_markup_no_sections.
Defined.

Lemma details_of_page : productDetails (extractProductText page) = Some details.
Proof. vm_compute. reflexivity. Defined.

Lemma details_are_clean_witness :
  productDetails (extractProductText page) = Some details /\
  details !! "Brand" = Some "Zenith" /\
  trimmed "Brand" /\ trimmed "Zenith".
Proof.
  assert (details !! "Brand" = Some "Zenith") as H by (vm_compute; reflexivity).
  destruct (details_are_clean page details "Brand" "Zenith" details_of_page H)
    as (_ & _ & Hh & Hv & _).
  split_and!; [exact details_of_page|exact H|exact Hh|exact Hv].
Defined.

Lemma price_of_pricePage :
  price (extractProductText pricePage) = Some "$12.99 per roll".
Proof. vm_compute. reflexivity. Defined.

Lemma price_text_is_normalised_witness :
  price (extractProductText pricePage) = Some "$12.99 per roll" /\
  trimmed "$12.99 per roll" /\ singleSpaced "$12.99 per roll" = true.
Proof.
  split; [exact price_of_pricePage|].
  exact (price_text_is_normalised _ _ price_of_pricePage).
Defined.


Lemma fenced_object_is_recovered_witness :
  let fence := "```" in
  let text := fence +:+ "json" +:+ String Str.LF ("{}" +:+ String Str.LF fence) in
  Str.all Str.isSpace (String Str.LF EmptyString) = true /\
  stripFences text = "{}" /\ extractJsonText text = Some "{}".
Proof.
  intros fence text. split; [reflexivity|].
  exact (fenced_object_is_recovered true (String Str.LF EmptyString)
           (String Str.LF EmptyString) EmptyString eq_refl eq_refl).
Defined.

Lemma empty_completion_reads_envelope_witness :
  let envelope := [("response", VString EmptyString)] in
  truthy (get envelope "response") = false /\
  completionText stringifyEnvelope (VObject envelope)
  = Ok (stringifyEnvelope (VObject envelope)) /\
  (responseText ← completionText stringifyEnvelope (VObject envelope);
   resolve integerText parseSamples responseText fallbackAsin VNull EmptyString)
  = normalize envelope fallbackAsin VNull EmptyString.
Proof.
  intros envelope. split; [reflexivity|].
  exact (empty_completion_reads_envelope integerText parseSamples stringifyEnvelope
           envelope
           (String Str.dquote ("response" +:+ String Str.dquote
              (":" +:+ String Str.dquote (String Str.dquote EmptyString))))
           fallbackAsin VNull EmptyString eq_refl eq_refl (or_introl eq_refl)
           eq_refl).
Defined.

Lemma normalize_returns_exactly_when_witness :
  normalize completion fallbackAsin VNull EmptyString = Ok record /\
  (hasProductData completion = true \/ isBlockPage EmptyString = false) /\
  (forall rs, get completion "rolls" = VArray rs -> (VNull ∉ rs) /\ (VUndefined ∉ rs)).
Proof.
  split; [exact normalize_completion|].
  destruct (proj1 (normalize_returns_exactly_when integerText completion
                     fallbackAsin VNull EmptyString)
              (ex_intro _ record normalize_completion))
    as (_ & _ & Hb & Hr).
  split; [exact Hb|exact Hr].
Defined.

Lemma blocked_run : normalize emptyData VNull VNull blockPage = Throw BlockedRequest.
Proof. vm_compute. reflexivity. Defined.

Lemma normalize_raises_only_witness :
  normalize emptyData VNull VNull blockPage = Throw BlockedRequest /\
  get emptyData "price" = VNull /\ isBlockPage blockPage = true.
Proof.
  split; [exact blocked_run|].
  destruct (normalize_raises_only integerText _ _ _ _ _ blocked_run)
    as [H|(_ & _ & Hp & _ & Hb)]; [discriminate H|].
  split; [exact Hp|exact Hb].
Defined.

Lemma record_revalidates_witness :
  normalize completion fallbackAsin VNull EmptyString = Ok record /\
  exists errors', validateProductData record = Ok errors'.
Proof.
  split; [exact normalize_completion|].
  destruct (record_revalidates integerText _ _ _ _ _ normalize_completion)
    as (pd' & errors & errors' & _ & _ & H & _).
  exists errors'. exact H.
Defined.

Lemma renormalize_same_witness :
  normalize completion fallbackAsin VNull EmptyString = Ok record /\
  numericMaxArea record /\
  normalize record fallbackAsin VNull EmptyString = Ok record.
Proof.
  assert (numericMaxArea record) as Hmax
    by (unfold numericMaxArea; cbn; repeat constructor).
  split_and!; [exact normalize_completion|exact Hmax|].
  exact (renormalize_same integerText _ _ _ _ _ normalize_completion Hmax
           (or_introl eq_refl)).
Defined.

End FurtherRuns.
